(* ===== verification/_CoqProject ===== *)
-Q . S2P
Prelude.v
Registry.v
Json.v
Date.v
Dom.v
Display.v
Analytics.v
DataExport.v
Navigation.v
Input.v
Extensions.v
Interactive.v
Hover.v
EventLoop.v
Bootstrap.v
