(* ===== verification/Prelude.v ===== *)
(** * A verification development for the Clancy Brothers slide-deck presenter

    The program (src/app.js, one browser script) is a slide-deck presenter
    built from three classes and a top level:
    - [ClancyPresentationController] keeps the current slide number,
      renders it into the DOM, reacts to the buttons, the indicator dots
      and the keyboard, and logs every view in the tab's sessionStorage;
    - [ClancyPresentationEnhancements] replaces the controller's three
      navigation methods by wrappers that update a progress bar and
      schedule a screen-reader announcement, and puts [goToSlide] and two
      other functions on [window];
    - [ClancyInteractiveElements] makes the action-item checkboxes
      clickable, with their state kept in sessionStorage;
    - the top level builds the three objects on [DOMContentLoaded] or from
      a fallback timer, and re-renders on [resize] and [visibilitychange].
    The handlers interact through the controller's fields and method slots
    (the enhancements wrap them, the keys and buttons call them), through
    sessionStorage (shared by the view log and the checkboxes) and through
    the browser's timers (the animation, the announcements, the
    completion messages).

    ** How the program is modelled

    The browser page is a record [Dom.World]: the DOM elements the script
    touches, the running controller's two number fields, sessionStorage in
    three modes, the console, the pending timers, the clock and the random
    source.  Every method is a computation of the state-and-exception
    monad [JS] of this file: it threads the state and may throw a
    JavaScript exception ([Exn]); a [try]/[catch] is [js_try], and the
    effects done before a throw persist, as in JavaScript.  Closures the
    code stores and calls later (the method slots, [window.goToSlide], the
    listeners) are data: a record [Navigation.Methods] of Rocq functions,
    read at call time, and an inductive [Bootstrap.Handler] naming the
    listener and the controller it captured.  The top level runs on a
    record [Bootstrap.Boot] that holds the page, the controllers built so
    far (their counters and slots), the [window] globals and the
    registered listeners; one event is one [Bootstrap.step].

    Files, in dependency order (each opens with its own summary):
    - [Prelude]      this file: the [JS] monad, its laws and notation
                     (scope [js_scope]); frame conditions ([keeps]),
                     invariants ([preserves]) and total-correctness
                     triples ([triple]) with their rules; JavaScript and
                     list helpers; the hint database [deck] and the
                     tactics [js_simpl], [keeps_tac], [preserves_tac],
                     [total_tac].
    - [Registry]     the twelve slide titles and the deck title (app.js
                     6, 143-162).
    - [Json], [Date] [JSON.stringify] (also indented), [JSON.parse] and
                     [Date.prototype.toISOString], the built-ins the view
                     log and the export use (modelled from the language's
                     specification).
    - [Dom]          the world, its setters and the browser primitives.
    - [Display]      [updateDisplay], [updateButtonStates],
                     [updatePageTitle] (app.js 104-162).
    - [Analytics]    [getCurrentSlideTitle], [getSessionId],
                     [trackSlideView] (app.js 254-304).
    - [DataExport]   [window.exportClancyPresentationData] (app.js
                     431-463).
    - [Navigation]   [nextSlide], [previousSlide], [goToSlide],
                     [animateSlideTransition], [getProgress] (app.js
                     73-102, 217-252); the abstract machine [spec_run] and
                     the interface [NavContract] the slots meet.
    - [Input]        [handleKeyPress], [toggleFullscreen] and the click
                     listeners (app.js 35-71, 164-242).
    - [Extensions]   the enhancements (app.js 307-505).
    - [Interactive]  the checkboxes and completion messages (app.js
                     508-618).
    - [Hover]        the hover listeners of the cards and metric values
                     (app.js 520-537, 620-637).
    - [EventLoop]    the timer callbacks and the browser's firing of the
                     timers in due order.
    - [Bootstrap]    the constructors as the top level runs them, the
                     [DOMContentLoaded] listener, the fallback timer, the
                     window handlers and the dispatch of events (app.js
                     4-71, 636-708).

    ** What the theorems show

    - Navigation: the bound [1 <= currentSlide <= totalSlides] and a page
      that shows exactly the current slide hold in every reachable state;
      each call refines the abstract target function on every branch
      (accepted, boundary no-op, refused with no effect at all); the
      direction of the animation; the percentage bounds.
    - Display: one active slide and indicator, the counter, title and
      buttons after a render; [updateDisplay] is idempotent.
    - Input: each key of the table, proved against the [NavContract]
      interface so that it holds for the wrapped slots too; unmatched keys
      pass; Ctrl+1 goes to slide 1 and then 11.
    - Extensions: the installed slots equal the class's calls followed by
      the wrappers' effects; [window.goToSlide] never announces.
    - JSON: [JSON.parse(JSON.stringify(v))] and
      [JSON.parse(JSON.stringify(v, null, gap))] are [v] for every value
      whose objects have distinct keys and whose decimals are canonical,
      and [JSON.parse] returns only such values; the parser reads the
      whole number grammar (fraction, exponent) and [\u] escapes with
      surrogate pairs.
    - Analytics and checkboxes: no storage failure escapes; the view log is
      the last 50 views, and with a usable storage the next view parses
      back the history the last one stored; the session id is stable; a
      checkbox click keeps boxes and records in step; a reload restores
      the ticked boxes through sessionStorage, and a blocked storage
      forgets them; a stored history that is not an array stops the view
      log for good.
    - Export: with a readable history the export saves one file, the
      indented JSON of the data with the history as read, which
      [JSON.parse] reads back as that data; with an
      unreadable one it only logs the failure, and stores no session id.
    - Event loop: [drain] empties the queue
      (termination by a weight); every faded slide is restored.
    - Bootstrap: in any order of events every listener and global refers
      to a built controller (a type invariant); when the page is set up
      once, the invariant of the components holds and every event keeps
      it; when the fallback timer fires before [DOMContentLoaded] a second
      controller is built, keys move both controllers, [window.goToSlide]
      only one, and a checkbox click toggles twice, while a hover event
      acts once however many listeners it has; the enter and leave
      events of a card or metric set exactly their listeners' styles.

    ** Bounds and fuel

    Numbers are [Z] (JavaScript numbers on the integers the code uses);
    the percentages are exact rationals ([Q]): [Math.round] is applied
    to the exact quotient, not to its nearest double, which differs only
    when [c/t*100] is within a rounding error of a half (as 29/200); the
    theorems on the percentage concern the ends of the range, [0] and
    [100], where the two agree.  The only loop that is not
    structural is the browser's event loop: [EventLoop.drain] takes fuel,
    and [drain_empties] shows that fuel equal to the weight of the queue
    ([EventLoop.load], one per timer and two for the callbacks that set
    another timer) is enough to empty it.  [Json.parse_value] takes fuel for
    its nesting; [parse] gives it twice the length of the text plus two,
    and [Json.stringify_reads_back] shows that this is enough for every
    printed value (a value of length [n] needs at most [2n]: one unit per
    element or member and one per nested call).

    ** Not modelled

    The CSS text of the progress bar and the [cursor] of the checkboxes,
    [window.print] (the browser's print dialog), [alert], the ARIA
    attributes, and the pixels; of the export's [Blob], object URL and
    anchor only the saved file is kept.  The business figures of the
    export are kept as the decimals the code writes, which is what
    [JSON.stringify] prints for them; other floating-point numbers do not
    occur.  Strings are byte
    strings; the script builds ASCII strings except the glyphs of the
    buttons, checkboxes and console messages, which are compared, never
    measured.  The browser built-ins ([JSON], [Date], [sessionStorage],
    [setTimeout], event dispatch) are modelled from their specification;
    with two controllers a timer callback reads the window's controller,
    as only [announceSlide] reads one. *)

From stdpp Require Export base list gmap strings pretty relations.
From Stdlib Require Export ZArith Lia.

Create HintDb deck discriminated.

(** ** JavaScript exceptions *)

Inductive Exn :=
| TypeError
| SyntaxError
| SecurityError
| QuotaExceededError.

#[export] Instance Exn_eq_dec : EqDecision Exn.
Proof. solve_decision. Defined.

(** ** The [JS] monad: state passing with exceptions

    A computation reads and writes a state [S] and either returns a value
    or throws an exception; the state reached at the throw is kept. *)

Definition JS (S A : Type) : Type := S -> (Exn + A) * S.

Section Monad.
Context {S : Type}.

Definition js_ret {A} (a : A) : JS S A := fun s => (inr a, s).

Definition js_bind {A B} (c : JS S A) (k : A -> JS S B) : JS S B :=
  fun s => match c s with
           | (inr a, s') => k a s'
           | (inl e, s') => (inl e, s')
           end.

Definition js_throw {A} (e : Exn) : JS S A := fun s => (inl e, s).

(** [try { c } catch (e) { h(e) }] *)
Definition js_try {A} (c : JS S A) (h : Exn -> JS S A) : JS S A :=
  fun s => match c s with
           | (inl e, s') => h e s'
           | r => r
           end.

Definition js_gets {A} (f : S -> A) : JS S A := fun s => (inr (f s), s).

Definition js_modify (f : S -> S) : JS S unit := fun s => (inr tt, f s).

Definition js_when (b : bool) (c : JS S unit) : JS S unit :=
  if b then c else js_ret tt.

(** Whether a computation returned (rather than threw). *)
Definition returns {A} (c : JS S A) (s : S) : Prop :=
  exists a, fst (c s) = inr a.

(** Two computations are equivalent when they agree on every state. *)
Definition js_equiv {A} (c1 c2 : JS S A) : Prop := forall s, c1 s = c2 s.
End Monad.

(** The final state of a run.  An abbreviation rather than a definition,
    so that conversion never has to choose between unfolding [exec] and
    evaluating the run. *)
Abbreviation exec c s := (snd (c s)).

(** stdpp's monad notation [x ← c; k] and [c ;; k] is used for [JS]. *)
#[export] Instance js_mret {S} : MRet (JS S) := fun A a => js_ret a.
#[export] Instance js_mbind {S} : MBind (JS S) := fun A B k c => js_bind c k.

Declare Scope js_scope.
Delimit Scope js_scope with js.
Notation "c1 =js= c2" := (js_equiv c1 c2) (at level 70) : js_scope.
Open Scope js_scope.

Arguments js_ret {S A} a _ /.
Arguments js_throw {S A} e _ /.
Arguments js_gets {S A} f _ /.
Arguments js_modify {S} f _ /.

(** ** Laws of the monad and of [js_equiv] *)

Section MonadLaws.
Context {S : Type}.

Lemma bind_ret_l {A B} (a : A) (k : A -> JS S B) : js_bind (js_ret a) k =js= k a.
Proof. intros s. reflexivity. Qed.

Lemma bind_ret_r {A} (c : JS S A) : js_bind c js_ret =js= c.
Proof. intros s. unfold js_bind. destruct (c s) as [[e|a] s']; reflexivity. Qed.

Lemma bind_assoc {A B C} (c : JS S A) (f : A -> JS S B) (g : B -> JS S C) :
  js_bind (js_bind c f) g =js= js_bind c (fun a => js_bind (f a) g).
Proof. intros s. unfold js_bind. destruct (c s) as [[e|a] s']; reflexivity. Qed.

Lemma bind_throw {A B} (e : Exn) (k : A -> JS S B) : js_bind (js_throw e) k =js= js_throw e.
Proof. intros s. reflexivity. Qed.

#[export] Instance js_equiv_equivalence {A} : Equivalence (@js_equiv S A).
Proof.
  split.
  - intros c s. reflexivity.
  - intros c1 c2 H s. by rewrite H.
  - intros c1 c2 c3 H1 H2 s. by rewrite H1, H2.
Qed.

#[export] Instance js_bind_proper {A B} :
  Proper (js_equiv ==> pointwise_relation A js_equiv ==> js_equiv) (@js_bind S A B).
Proof.
  intros c1 c2 Hc k1 k2 Hk s. unfold js_bind. rewrite Hc.
  destruct (c2 s) as [[e|a] s']; [reflexivity | apply Hk].
Qed.

#[export] Instance js_try_proper {A} :
  Proper (js_equiv ==> pointwise_relation Exn js_equiv ==> js_equiv) (@js_try S A).
Proof.
  intros c1 c2 Hc h1 h2 Hh s. unfold js_try. rewrite Hc.
  destruct (c2 s) as [[e|a] s']; [apply Hh | reflexivity].
Qed.

(** A computation that never throws, whatever the state. *)
Definition total {A} (c : JS S A) : Prop := forall s, returns c s.

Lemma total_ret {A} (a : A) : total (js_ret a).
Proof. intros s. by exists a. Qed.

Lemma total_bind {A B} (c : JS S A) (k : A -> JS S B) :
  total c -> (forall a, total (k a)) -> total (js_bind c k).
Proof.
  intros Hc Hk s. unfold returns, js_bind. destruct (Hc s) as [a Ha].
  destruct (c s) as [[e|a'] s'] eqn:E; simpl in Ha; [discriminate|].
  apply Hk.
Qed.

Lemma total_modify (f : S -> S) : total (js_modify f).
Proof. intros s. by exists tt. Qed.

Lemma total_gets {A} (f : S -> A) : total (js_gets f).
Proof. intros s. by exists (f s). Qed.

Lemma total_when b (c : JS S unit) : total c -> total (js_when b c).
Proof. intros Hc. destruct b; [exact Hc | apply total_ret]. Qed.

Lemma total_try {A} (c : JS S A) (h : Exn -> JS S A) :
  (forall e, total (h e)) -> total (js_try c h).
Proof.
  intros Hh s. unfold returns, js_try.
  destruct (c s) as [[e|a] s'] eqn:E; [apply Hh | by exists a].
Qed.

Lemma exec_bind {A B} (c : JS S A) (k : A -> JS S B) s a s' :
  c s = (inr a, s') -> exec (js_bind c k) s = exec (k a) s'.
Proof. intros H. unfold js_bind. by rewrite H. Qed.

Lemma exec_mbind {A B} (c : JS S A) (k : A -> JS S B) s a s' :
  c s = (inr a, s') -> exec (c ≫= k) s = exec (k a) s'.
Proof. apply exec_bind. Qed.

Lemma run_mbind {A B} (c : JS S A) (k : A -> JS S B) s a s' :
  c s = (inr a, s') -> (c ≫= k) s = k a s'.
Proof. intros H. unfold mbind, js_mbind, js_bind. by rewrite H. Qed.
End MonadLaws.

(** ** Frame conditions: a computation leaves a projection unchanged *)

Section Keeps.
Context {S B : Type} (proj : S -> B).

Definition keeps {A} (c : JS S A) : Prop := forall s, proj (snd (c s)) = proj s.

Lemma keeps_ret {A} (a : A) : keeps (js_ret a).
Proof. intros s. reflexivity. Qed.

Lemma keeps_throw {A} e : keeps (@js_throw S A e).
Proof. intros s. reflexivity. Qed.

Lemma keeps_gets {A} (f : S -> A) : keeps (js_gets f).
Proof. intros s. reflexivity. Qed.

Lemma keeps_modify (f : S -> S) : (forall s, proj (f s) = proj s) -> keeps (js_modify f).
Proof. intros Hf s. apply Hf. Qed.

Lemma keeps_bind {A C} (c : JS S A) (k : A -> JS S C) :
  keeps c -> (forall a, keeps (k a)) -> keeps (js_bind c k).
Proof.
  intros Hc Hk s. unfold js_bind. specialize (Hc s).
  destruct (c s) as [[e|a] s']; simpl in *; [done|]. by rewrite Hk.
Qed.

Lemma keeps_try {A} (c : JS S A) (h : Exn -> JS S A) :
  keeps c -> (forall e, keeps (h e)) -> keeps (js_try c h).
Proof.
  intros Hc Hh s. unfold js_try. specialize (Hc s).
  destruct (c s) as [[e|a] s']; simpl in *; [by rewrite Hh | done].
Qed.

Lemma keeps_when b (c : JS S unit) : keeps c -> keeps (js_when b c).
Proof. intros Hc. destruct b; [done | apply keeps_ret]. Qed.

Lemma keeps_mbind {A C} (c : JS S A) (k : A -> JS S C) :
  keeps c -> (forall a, keeps (k a)) -> keeps (c ≫= k).
Proof. apply keeps_bind. Qed.

Lemma keeps_exec {A} (c : JS S A) : keeps c -> forall s, proj (exec c s) = proj s.
Proof. intros H s. apply H. Qed.

Lemma keeps_mret {A} (a : A) : keeps (mret a : JS S A).
Proof. apply keeps_ret. Qed.
End Keeps.

(** A computation that keeps a projection keeps every function of it. *)
Lemma keeps_compose {S B C A} (proj : S -> B) (g : B -> C) (c : JS S A) :
  keeps proj c -> keeps (fun s => g (proj s)) c.
Proof. intros H s. by rewrite H. Qed.

#[export] Hint Resolve keeps_ret keeps_throw keeps_gets keeps_bind keeps_mbind keeps_mret
  keeps_try keeps_when : deck.

(** ** Invariants: a computation that preserves a predicate of the state *)

Section Preserves.
Context {S : Type} (P : S -> Prop).

Definition preserves {A} (c : JS S A) : Prop := forall s, P s -> P (exec c s).

Lemma preserves_ret {A} (a : A) : preserves (js_ret a).
Proof. intros s H. exact H. Qed.

Lemma preserves_throw {A} e : preserves (@js_throw S A e).
Proof. intros s H. exact H. Qed.

Lemma preserves_gets {A} (f : S -> A) : preserves (js_gets f).
Proof. intros s H. exact H. Qed.

Lemma preserves_bind {A C} (c : JS S A) (k : A -> JS S C) :
  preserves c -> (forall a, preserves (k a)) -> preserves (js_bind c k).
Proof.
  intros Hc Hk s H. specialize (Hc s H). unfold js_bind.
  destruct (c s) as [[e|a] s']; simpl in *; [done|]. by apply Hk.
Qed.

Lemma preserves_mbind {A C} (c : JS S A) (k : A -> JS S C) :
  preserves c -> (forall a, preserves (k a)) -> preserves (c ≫= k).
Proof. apply preserves_bind. Qed.

Lemma preserves_mret {A} (a : A) : preserves (mret a : JS S A).
Proof. apply preserves_ret. Qed.

Lemma preserves_modify (f : S -> S) : (forall s, P s -> P (f s)) -> preserves (js_modify f).
Proof. intros Hf s. apply Hf. Qed.

Lemma preserves_when b (c : JS S unit) : preserves c -> preserves (js_when b c).
Proof. intros Hc. destruct b; [done | apply preserves_ret]. Qed.

Lemma preserves_try {A} (c : JS S A) (h : Exn -> JS S A) :
  preserves c -> (forall e, preserves (h e)) -> preserves (js_try c h).
Proof.
  intros Hc Hh s H. specialize (Hc s H). unfold js_try.
  destruct (c s) as [[e|a] s']; simpl in *; [by apply Hh | done].
Qed.

(** A computation that keeps a projection on which [P] depends
    preserves [P]. *)
Lemma preserves_of_keeps {B A} (proj : S -> B) (c : JS S A) :
  (forall s s', proj s = proj s' -> P s -> P s') -> keeps proj c -> preserves c.
Proof. intros HP Hk s H. apply (HP s); [symmetry; apply Hk | done]. Qed.
End Preserves.

Lemma preserves_and {S A} (P Q : S -> Prop) (c : JS S A) :
  preserves P c -> preserves Q c -> preserves (fun s => P s /\ Q s) c.
Proof. intros HP HQ s [Hp Hq]. split; [by apply HP | by apply HQ]. Qed.

(** ** Total-correctness triples

    [triple P c Q]: from a state satisfying [P], [c] returns (it does not
    throw) a value [a] and a state satisfying [Q a].  The result lets a
    later step depend on a value the code computed, which [preserves]
    cannot express. *)

Section Triple.
Context {S : Type}.

Definition triple {A} (P : S -> Prop) (c : JS S A) (Q : A -> S -> Prop) : Prop :=
  forall s, P s -> match c s with (inr a, s') => Q a s' | (inl _, _) => False end.

Lemma triple_ret {A} (a : A) (P : S -> Prop) Q : (forall s, P s -> Q a s) -> triple P (js_ret a) Q.
Proof. intros H s Hs. by apply H. Qed.

Lemma triple_mret {A} (a : A) (P : S -> Prop) Q : (forall s, P s -> Q a s) -> triple P (mret a) Q.
Proof. apply triple_ret. Qed.

Lemma triple_gets {A} (f : S -> A) P Q : (forall s, P s -> Q (f s) s) -> triple P (js_gets f) Q.
Proof. intros H s Hs. by apply H. Qed.

Lemma triple_modify (f : S -> S) P Q : (forall s, P s -> Q tt (f s)) -> triple P (js_modify f) Q.
Proof. intros H s Hs. by apply H. Qed.

Lemma triple_bind {A B} (c : JS S A) (k : A -> JS S B) P Q R :
  triple P c Q -> (forall a, triple (Q a) (k a) R) -> triple P (js_bind c k) R.
Proof.
  intros Hc Hk s Hs. specialize (Hc s Hs). unfold js_bind.
  destruct (c s) as [[e|a] s']; [done|]. by apply Hk.
Qed.

Lemma triple_mbind {A B} (c : JS S A) (k : A -> JS S B) P Q R :
  triple P c Q -> (forall a, triple (Q a) (k a) R) -> triple P (c ≫= k) R.
Proof. apply triple_bind. Qed.

Lemma triple_try {A} (c : JS S A) (h : Exn -> JS S A) P Q :
  triple P c Q -> triple P (js_try c h) Q.
Proof.
  intros Hc s Hs. specialize (Hc s Hs). unfold js_try. by destruct (c s) as [[e|a] s'].
Qed.

Lemma triple_conseq {A} (c : JS S A) (P P' : S -> Prop) (Q Q' : A -> S -> Prop) :
  triple P c Q -> (forall s, P' s -> P s) -> (forall a s, Q a s -> Q' a s) -> triple P' c Q'.
Proof.
  intros Hc HP HQ s Hs. specialize (Hc s (HP s Hs)). destruct (c s) as [[e|a] s']; auto.
Qed.

(** A computation that never throws and preserves [P] has the triple. *)
Lemma triple_of_preserves {A} (c : JS S A) (P : S -> Prop) :
  total c -> preserves P c -> triple P c (fun _ => P).
Proof.
  intros Ht Hp s Hs. destruct (Ht s) as [a Ha]. specialize (Hp s Hs).
  destruct (c s) as [[e|a'] s']; simpl in *; [discriminate | done].
Qed.

(** A fact of the precondition that the computation cannot change is
    carried to the postcondition. *)
Lemma triple_pure {A} (c : JS S A) (φ : Prop) (P : S -> Prop) Q :
  (φ -> triple P c Q) -> triple (fun s => φ /\ P s) c (fun a s => φ /\ Q a s).
Proof.
  intros H s [Hφ Hs]. specialize (H Hφ s Hs). destruct (c s) as [[e|a] s']; auto.
Qed.

Lemma triple_pure_pre {A} (c : JS S A) (φ : Prop) (P : S -> Prop) Q :
  (φ -> triple P c Q) -> triple (fun s => φ /\ P s) c Q.
Proof. intros H s [Hφ Hs]. by apply H. Qed.

Lemma preserves_of_triple {A} (c : JS S A) (P : S -> Prop) :
  triple P c (fun _ => P) -> preserves P c.
Proof. intros H s Hs. specialize (H s Hs). by destruct (c s) as [[e|a] s']. Qed.

(** A computation that never throws and keeps a projection has the
    triple that says so. *)
Lemma triple_of_keeps {B A} (proj : S -> B) (c : JS S A) v :
  total c -> keeps proj c -> triple (fun s => proj s = v) c (fun _ s => proj s = v).
Proof.
  intros Ht Hk. apply triple_of_preserves; [done|].
  apply (preserves_of_keeps _ proj); [congruence | done].
Qed.

Lemma try_returns {A} (c : JS S A) h s : returns c s -> js_try c h s = c s.
Proof. intros [a Ha]. unfold js_try. by destruct (c s) as [[e|a'] s']; simplify_eq. Qed.

Lemma exec_then_returns {B} (c : JS S unit) (k : JS S B) s :
  returns c s -> exec (c ;; k) s = exec k (exec c s).
Proof.
  intros [a Ha]. unfold mbind, js_mbind, js_bind. destruct (c s) as [[e|[]] s']; simplify_eq. done.
Qed.

Lemma triple_exec {A} (c : JS S A) (P Q : S -> Prop) s :
  triple P c (fun _ => Q) -> P s -> Q (exec c s).
Proof. intros H Hs. specialize (H s Hs). by destruct (c s) as [[e|a] s']. Qed.

End Triple.


#[export] Hint Resolve preserves_ret preserves_gets preserves_bind preserves_mbind
  preserves_mret preserves_when preserves_try : deck.

(** Follow the structure of a computation to prove it preserves [P]. *)
Ltac preserves_tac :=
  repeat first
    [ progress intros
    | solve [eauto with deck]
    | apply preserves_mbind | apply preserves_bind | apply preserves_try
    | apply preserves_when | apply preserves_ret | apply preserves_mret
    | apply preserves_gets | apply preserves_throw
    | apply preserves_modify; intros ? ?; assumption
    | match goal with
      | |- preserves _ (match ?x with _ => _ end) => destruct x
      | |- preserves _ (if ?b then _ else _) => destruct b
      end].

(** ** JavaScript helpers *)

(** [arr[i]] for a number [i]: [undefined] (here [None]) out of range. *)
Definition js_index {A} (l : list A) (i : Z) : option A :=
  if (i <? 0)%Z then None else l !! Z.to_nat i.

(** JavaScript's [<] on strings: lexicographic on code units. *)
Fixpoint js_str_lt (a b : string) : bool :=
  match a, b with
  | EmptyString, String _ _ => true
  | String x a', String y b' =>
      if Ascii.eqb x y then js_str_lt a' b' else Ascii.ltb x y
  | _, _ => false
  end.

(** [a <= b] is [!(b < a)] for strings. *)
Definition js_str_le (a b : string) : bool := negb (js_str_lt b a).

(** A string is truthy when it is not empty. *)
Definition js_truthy (s : string) : bool :=
  match s with EmptyString => false | _ => true end.

(** [a.splice(0, a.length - n)] when [a.length > n]: keep the last [n]. *)
Definition keep_last {A} (n : nat) (l : list A) : list A :=
  if decide (n < length l) then drop (length l - n) l else l.

(** [arr.forEach(f)]: [f] on each element, in order. *)
Fixpoint js_forEach {S A} (f : A -> JS S unit) (l : list A) : JS S unit :=
  match l with
  | [] => js_ret tt
  | x :: r => f x ;; js_forEach f r
  end.

(** A loop whose body keeps [I] keeps it, and never throws. *)
Lemma triple_forEach {S A} (f : A -> JS S unit) (l : list A) (I : S -> Prop) :
  (forall x, x ∈ l -> triple I (f x) (fun _ => I)) -> triple I (js_forEach f l) (fun _ => I).
Proof.
  induction l as [|x r IH]; intros Hf; simpl; [by apply triple_ret|].
  apply triple_mbind with (Q := fun _ => I); [apply Hf; by left|].
  intros _. apply IH. intros y Hy. apply Hf. by right.
Qed.

(** A loop whose body preserves [P] on the elements of the list
    preserves it. *)
Lemma preserves_forEach {S A} (P : S -> Prop) (f : A -> JS S unit) (l : list A) :
  (forall x, x ∈ l -> preserves P (f x)) -> preserves P (js_forEach f l).
Proof.
  induction l as [|x r IH]; intros Hf; simpl; [apply preserves_ret|].
  apply preserves_mbind; [apply Hf; by left | intros _; apply IH; intros y Hy; apply Hf; by right].
Qed.

Lemma keeps_forEach {S B A} (proj : S -> B) (f : A -> JS S unit) (l : list A) :
  (forall x, keeps proj (f x)) -> keeps proj (js_forEach f l).
Proof.
  intros Hf. induction l as [|x r IH]; simpl; [apply keeps_ret|].
  apply keeps_mbind; [apply Hf | intros; apply IH].
Qed.

Lemma total_forEach {S A} (f : A -> JS S unit) (l : list A) :
  (forall x, total (f x)) -> total (js_forEach f l).
Proof.
  intros Hf. induction l as [|x r IH]; simpl; [apply total_ret|].
  apply total_bind; [apply Hf | intros; apply IH].
Qed.

(** An invariant of a computation that starts by reading the state. *)
Lemma preserves_gets_bind {S A B} (P : S -> Prop) (f : S -> A) (k : A -> JS S B) :
  (forall s, P s -> P (exec (k (f s)) s)) -> preserves P (js_gets f ≫= k).
Proof. intros H s Hs. exact (H s Hs). Qed.

(** A computation with a triple, followed by one that takes its
    postcondition to [R], ends in [R]. *)
Lemma exec_triple_bind {S A B} (P R : S -> Prop) (Q : A -> S -> Prop)
    (c : JS S A) (k : A -> JS S B) s :
  triple P c Q -> (forall a s', Q a s' -> R (exec (k a) s')) -> P s -> R (exec (c ≫= k) s).
Proof.
  intros Hc Hk Hs. specialize (Hc s Hs). unfold mbind, js_mbind, js_bind.
  destruct (c s) as [[e|a] s']; [done | by apply Hk].
Qed.

Lemma preserves_triple_bind {S A B} (P : S -> Prop) (Q : A -> S -> Prop)
    (c : JS S A) (k : A -> JS S B) :
  triple P c Q -> (forall a s, Q a s -> P (exec (k a) s)) -> preserves P (c ≫= k).
Proof. intros Hc Hk s. by apply (exec_triple_bind P P Q). Qed.

(** ** Lemmas shared by the components *)

Lemma js_index_Some {A} (l : list A) (i : Z) :
  (0 <= i < Z.of_nat (length l))%Z -> exists x, js_index l i = Some x.
Proof.
  intros Hi. unfold js_index. destruct (Z.ltb_spec i 0); [lia|].
  apply lookup_lt_is_Some_2. lia.
Qed.

Lemma js_index_None {A} (l : list A) (i : Z) :
  (i < 0 \/ Z.of_nat (length l) <= i)%Z -> js_index l i = None.
Proof.
  intros Hi. unfold js_index. destruct (Z.ltb_spec i 0); [done|].
  apply lookup_ge_None_2. lia.
Qed.

Lemma length_keep_last {A} n (l : list A) : length (keep_last n l) = Nat.min n (length l).
Proof. unfold keep_last. case_decide; rewrite ?length_drop; lia. Qed.

Lemma keep_last_small {A} n (l : list A) : length l <= n -> keep_last n l = l.
Proof. intros H. unfold keep_last. case_decide; [lia | done]. Qed.

Lemma keep_last_suffix {A} n (l : list A) : exists p, l = p ++ keep_last n l.
Proof.
  unfold keep_last. case_decide.
  - exists (take (length l - n) l). by rewrite take_drop.
  - by exists [].
Qed.

Lemma keep_last_drop {A} n (l : list A) : keep_last n l = drop (length l - n) l.
Proof.
  unfold keep_last. case_decide; [done|].
  replace (length l - n) with 0 by lia. by rewrite drop_0.
Qed.

(** Keeping the last [n] after appending one element, twice or once. *)
Lemma keep_last_snoc {A} n (l : list A) x :
  keep_last n (keep_last n l ++ [x]) = keep_last n (l ++ [x]).
Proof.
  rewrite !keep_last_drop, !length_app, length_drop, !drop_app, drop_drop, ?length_drop.
  simpl. f_equal; f_equal; lia.
Qed.

(** The last [n] after appending [x] still end with [x]. *)
Lemma keep_last_snoc_last {A} n (l : list A) x :
  0 < n -> last (keep_last n (l ++ [x])) = Some x.
Proof.
  intros Hn. rewrite keep_last_drop, length_app. simpl.
  rewrite drop_app_le by lia. apply last_snoc.
Qed.

(** A filter that no element passes is empty. *)
Lemma filter_none {A} (P : A -> Prop) `{!forall x, Decision (P x)} (l : list A) :
  Forall (fun x => ~ P x) l -> filter P l = [].
Proof.
  induction 1 as [|x l Hx _ IH]; [done|].
  rewrite filter_cons. by case_decide.
Qed.

(** Deleting the element at [i] takes its weight out of a sum. *)
Lemma sum_list_with_delete {A} (f : A -> nat) (l : list A) i x :
  l !! i = Some x -> sum_list_with f (delete i l) + f x = sum_list_with f l.
Proof.
  revert i. induction l as [|y l IH]; intros [|i] Hi; simplify_eq/=; [lia|].
  specialize (IH i Hi). lia.
Qed.

(** An element other than the deleted one stays. *)
Lemma elem_of_delete_ne {A} (l : list A) i x y :
  l !! i = Some y -> x ∈ l -> x <> y -> x ∈ delete i l.
Proof.
  revert i. induction l as [|z l IH]; intros [|i] Hi Hx Hne; simplify_eq/=.
  - apply elem_of_cons in Hx as [-> | Hx]; [done | exact Hx].
  - apply elem_of_cons in Hx as [-> | Hx]; apply elem_of_cons; [by left | right; eauto].
Qed.

(** Strings with a common prefix are equal when their rests are. *)
Lemma string_append_inj_l (p a b : string) : (p ++ a)%string = (p ++ b)%string -> a = b.
Proof. induction p as [|c p IH]; simpl; [done|]. intros H. injection H. apply IH. Qed.

Lemma string_app_cons c s t : (String c s ++ t)%string = String c (s ++ t).
Proof. reflexivity. Qed.

Lemma string_app_nil_r s : (s ++ EmptyString)%string = s.
Proof. induction s as [|c s IH]; [done|]. by rewrite string_app_cons, IH. Qed.

Lemma string_app_assoc a b c : ((a ++ b) ++ c)%string = (a ++ (b ++ c))%string.
Proof. induction a as [|x a IH]; [done|]. by rewrite !string_app_cons, IH. Qed.

Lemma string_length_app a b : String.length (a ++ b) = String.length a + String.length b.
Proof. induction a as [|x a IH]; [done|]. rewrite string_app_cons. simpl. by rewrite IH. Qed.

Lemma js_str_lt_irrefl s : js_str_lt s s = false.
Proof.
  induction s as [|c s IH]; simpl; [done|]. by rewrite Ascii.eqb_refl.
Qed.

(** ** The hint database and the tactics of the development *)

#[export] Hint Resolve total_ret total_modify total_gets total_when total_bind total_try : deck.
Create Rewrite HintDb deck_rw.
#[export] Hint Rewrite @length_keep_last @keep_last_snoc : deck_rw.

(** Unfold the monad's combinators and reduce, without unfolding the
    definitions of the model (which [simpl] would do, at a high cost). *)
Ltac js_simpl :=
  unfold mbind, mret, js_mbind, js_mret, js_bind, js_try, js_when, js_ret, js_gets,
    js_modify, js_throw in *;
  cbv beta iota zeta in *.

(** Case on the tests of the code, then close the arithmetic. *)
Ltac decide_tests :=
  repeat match goal with
         | |- context [Z.ltb ?a ?b] => destruct (Z.ltb_spec a b)
         | |- context [Z.leb ?a ?b] => destruct (Z.leb_spec a b)
         | |- context [Z.eqb ?a ?b] => destruct (Z.eqb_spec a b)
         | H : context [Z.ltb ?a ?b] |- _ => destruct (Z.ltb_spec a b)
         | H : context [Z.eqb ?a ?b] |- _ => destruct (Z.eqb_spec a b)
         end.

Example js_notation_check :
  exec (x ← js_gets (fun n : nat => n); js_modify (fun n => n + x) ;; js_ret x) 3 = 6.
Proof. reflexivity. Qed.

(** Prove a frame condition [keeps proj c] by following the structure of
    [c]: binds, [try], [when], and a case on each [match] of the code. *)
Ltac keeps_tac :=
  repeat first
    [ progress intros
    | solve [eauto with deck]
    | apply keeps_mbind | apply keeps_bind | apply keeps_try | apply keeps_when
    | apply keeps_ret | apply keeps_mret | apply keeps_gets | apply keeps_throw
    | apply keeps_modify; intros ?; reflexivity
    | match goal with
      | |- keeps _ (match ?x with _ => _ end) => destruct x
      | |- keeps _ (if ?b then _ else _) => destruct b
      end].

(** Follow the structure of a computation to prove it never throws. *)
Ltac total_tac :=
  repeat first
    [ progress intros
    | solve [eauto with deck]
    | apply total_bind | apply total_try | apply total_when | apply total_ret
    | apply total_gets | apply total_modify
    | match goal with
      | |- total (mbind _ _) => apply total_bind
      | |- total (mret _) => apply total_ret
      | |- total (match ?x with _ => _ end) => destruct x
      | |- total (if ?b then _ else _) => destruct b
      end].
