(* ===== verification/Registry.v ===== *)
(** * The slide registry

    The constants the controller is built from: the number of slides set
    by the constructor ([this.totalSlides = 12], app.js 6), the slide
    titles and the deck title of [updatePageTitle] (app.js 144-159).
    They never change after start-up. *)

From S2P Require Import Prelude.
Open Scope string_scope.

Module Registry.

(** [this.totalSlides = 12] *)
Definition deckTotalSlides : Z := 12.

(** [const slideTitles = [...]] *)
Definition slideTitles : list string :=
  [ "Company Title & Overview";
    "Executive Summary";
    "2025 Performance Overview";
    "Monthly Revenue Trends";
    "Top Service Categories";
    "Major Contract Analysis";
    "Seasonal Business Patterns";
    "MailChimp Integration Strategy";
    "Automated Email Campaigns";
    "Implementation Roadmap";
    "Expected ROI and Benefits";
    "Next Steps & Action Items" ].

(** [const baseTitle = ...] *)
Definition baseTitle : string :=
  "Clancy Brothers Pest Control - 2025 Performance & MailChimp Strategy".

(** The JavaScript template [`${currentTitle} | ${baseTitle}`]: an index
    out of the array gives [undefined], printed as "undefined". *)
Definition pageTitle (c : Z) : string :=
  match js_index slideTitles (c - 1) with
  | Some t => t
  | None => "undefined"
  end ++ " | " ++ baseTitle.

Lemma length_slideTitles : Z.of_nat (length slideTitles) = deckTotalSlides.
Proof. reflexivity. Qed.

(** Every slide number of the deck has its own title. *)
Lemma slideTitle_defined (c : Z) :
  (1 <= c <= deckTotalSlides)%Z ->
  exists t, js_index slideTitles (c - 1) = Some t /\ pageTitle c = t ++ " | " ++ baseTitle.
Proof.
  intros Hc. destruct (js_index_Some slideTitles (c - 1)) as [t Ht].
  { rewrite length_slideTitles. lia. }
  exists t. unfold pageTitle. by rewrite Ht.
Qed.

(** Two different slides of the deck have different page titles. *)
Lemma pageTitle_inj (c1 c2 : Z) :
  (1 <= c1 <= deckTotalSlides)%Z -> (1 <= c2 <= deckTotalSlides)%Z ->
  pageTitle c1 = pageTitle c2 -> c1 = c2.
Proof.
  unfold deckTotalSlides. intros H1 H2.
  assert (c1 = 1 \/ c1 = 2 \/ c1 = 3 \/ c1 = 4 \/ c1 = 5 \/ c1 = 6 \/ c1 = 7 \/
          c1 = 8 \/ c1 = 9 \/ c1 = 10 \/ c1 = 11 \/ c1 = 12)%Z by lia.
  assert (c2 = 1 \/ c2 = 2 \/ c2 = 3 \/ c2 = 4 \/ c2 = 5 \/ c2 = 6 \/ c2 = 7 \/
          c2 = 8 \/ c2 = 9 \/ c2 = 10 \/ c2 = 11 \/ c2 = 12)%Z by lia.
  intros Ht. destruct_or!; subst; vm_compute in Ht; congruence.
Qed.

End Registry.
