(* ===== verification/Json.v ===== *)
(** * JSON values, [JSON.stringify] and [JSON.parse]

    [trackSlideView] keeps the view history in sessionStorage as the text
    [JSON.stringify(viewHistory)] and reads it back with
    [JSON.parse(... || '[]')] (app.js 278-286); the export utility parses
    the same key (app.js 438).  This file gives JSON values, the printer
    and the parser of the JavaScript engine, on the values the program
    produces: numbers are integers (a [slide] field) or the decimals of
    the export's business figures ([JDec], printed as [Number::toString]
    prints them), strings are byte strings, object keys are kept in insertion order and a repeated key
    keeps its first position with its last value, as [JSON.parse] does.

    The parser follows the grammar of ECMA-404: [parse_number] reads a
    sign, an integer part, an optional fraction and an optional exponent
    and keeps the value exactly ([make_number] strips the trailing zeros
    of the mantissa, so [1.50] and [15e-1] are [JDec 15 1] and [2e3] is
    [JNum 2000]); [unicode_escape] reads a [\uXXXX] escape into the
    UTF-8 bytes of its code unit, or of the code point of a surrogate
    pair, a lone surrogate giving its three-byte generalised encoding.

    The theorems: [stringify_reads_back] reads every printed value back
    (strings through their escapes, integers through their digits,
    decimals through [parse_number_dec], arrays and objects element by
    element, by induction on values with [json_ind']), so that
    [parse_stringify] gives back every value whose objects have distinct
    keys and whose decimals are canonical ([json_wf]); [parse_value_wf]
    shows that [JSON.parse] returns only such values.

    [stringify_gap] is [JSON.stringify(v, null, gap)], the indented text
    of the export; [parse_stringify_gap] reads it back for every
    indentation made of white space, the parser skipping the line breaks
    and indentation between the tokens ([stringify_gap_reads_back], in
    the section [Gap]).

    Not modelled: the rounding of a number to the nearest double (a
    number is kept exact, which differs from the engine only beyond 15
    significant digits or outside the range of doubles), numbers printed
    with an exponent, and the reordering of integer-like object keys. *)

From S2P Require Import Prelude.
From Stdlib Require Import Ascii.
Open Scope string_scope.
Open Scope nat_scope.

Module Json.

#[warnings="-register-all"]
Inductive json :=
| JNull
| JBool (b : bool)
| JNum (z : Z)
| JDec (m : Z) (e : positive)   (** [m * 10^-e], a number with a fraction *)
| JStr (s : string)
| JArr (l : list json)
| JObj (l : list (string * json)).

(** ** Characters *)

Definition quote_char : ascii := ascii_of_nat 34.
Definition bslash : ascii := ascii_of_nat 92.
Definition str1 (c : ascii) : string := String c EmptyString.
Definition quote_char_str : string := str1 quote_char.

Definition hex_digit (n : nat) : ascii :=
  if n <? 10 then ascii_of_nat (48 + n) else ascii_of_nat (87 + n).

(** The escape of one character in [JSON.stringify]'s QuoteJSONString. *)
Definition escape_char (c : ascii) : string :=
  let n := nat_of_ascii c in
  if n =? 34 then String bslash (str1 quote_char)
  else if n =? 92 then String bslash (str1 bslash)
  else if n =? 8 then "\b"
  else if n =? 12 then "\f"
  else if n =? 10 then "\n"
  else if n =? 13 then "\r"
  else if n =? 9 then "\t"
  else if n <? 32 then "\u00" ++ String (hex_digit (n / 16)) (str1 (hex_digit (n mod 16)))
  else str1 c.

Fixpoint escape_string (s : string) : string :=
  match s with
  | EmptyString => EmptyString
  | String c r => escape_char c ++ escape_string r
  end.

Definition quote (s : string) : string :=
  String quote_char (escape_string s ++ str1 quote_char).

(** ** Numbers with a fraction *)

(** [n] zeros. *)
Fixpoint zeros (n : nat) : string :=
  match n with O => EmptyString | S n => String "0" (zeros n) end.

(** Digits padded on the left with zeros to [n] digits. *)
Definition pad_digits (n : nat) (s : string) : string := zeros (n - String.length s) ++ s.

(** [Number::toString] of [m * 10^-e] when this decimal is the shortest
    one that denotes the number and the number is below [10^21]: the
    sign, the integer part, the point and the [e] digits of the fraction
    (ECMA-262 Number::toString, the case [k > n > -6]). *)
Definition pretty_dec (m : Z) (e : positive) : string :=
  let p := (10 ^ Zpos e)%Z in
  (if (m <? 0)%Z then "-" else EmptyString) ++
  pretty (Z.abs m / p)%Z ++ "." ++ pad_digits (Pos.to_nat e) (pretty (Z.abs m mod p)%Z).

(** ** [JSON.stringify] without indentation *)

Fixpoint stringify (j : json) : string :=
  match j with
  | JNull => "null"
  | JBool true => "true"
  | JBool false => "false"
  | JNum z => pretty z
  | JDec m e => pretty_dec m e
  | JStr s => quote s
  | JArr l => "[" ++ String.concat "," (map stringify l) ++ "]"
  | JObj l =>
      "{" ++ String.concat "," (map (fun kv => quote kv.1 ++ ":" ++ stringify kv.2) l) ++ "}"
  end.

(** ** [JSON.stringify] with indentation *)

Definition newline : string := str1 (ascii_of_nat 10).

(** [JSON.stringify(j, null, gap)] for a non-empty [gap], inside a value
    indented by [ind] (ECMA-262 SerializeJSONArray and
    SerializeJSONObject): an empty array or object stays on one line;
    otherwise each element or member is on a line of its own, indented
    one [gap] deeper, and a member's key is followed by [": "]. *)
Fixpoint stringify_gap (gap ind : string) (j : json) : string :=
  match j with
  | JArr [] => "[]"
  | JArr l =>
      let ind' := ind ++ gap in
      "[" ++ newline ++ ind' ++
      String.concat ("," ++ newline ++ ind') (map (stringify_gap gap ind') l) ++
      newline ++ ind ++ "]"
  | JObj [] => "{}"
  | JObj l =>
      let ind' := ind ++ gap in
      "{" ++ newline ++ ind' ++
      String.concat ("," ++ newline ++ ind')
        (map (fun kv => quote kv.1 ++ ": " ++ stringify_gap gap ind' kv.2) l) ++
      newline ++ ind ++ "}"
  | _ => stringify j
  end.

(** The layout [JSON.stringify(v, null, 2)] gives. *)
Example stringify_gap_layout :
  stringify_gap "  " EmptyString (JObj [("a", JArr [JNum 1; JDec (-5) 2]); ("b", JArr [])]) =
  "{" ++ newline ++ "  " ++ quote "a" ++ ": [" ++ newline ++ "    1," ++ newline ++
  "    -0.05" ++ newline ++ "  ]," ++ newline ++ "  " ++ quote "b" ++ ": []" ++ newline ++ "}".
Proof. vm_compute. reflexivity. Qed.

(** ** [JSON.parse] *)

Definition is_ws (c : ascii) : bool :=
  let n := nat_of_ascii c in (n =? 32) || (n =? 9) || (n =? 10) || (n =? 13).

Fixpoint skip_ws (s : string) : string :=
  match s with
  | String c r => if is_ws c then skip_ws r else s
  | EmptyString => EmptyString
  end.

(** [strip p s]: [Some r] when [s = p ++ r]. *)
Fixpoint strip (p s : string) : option string :=
  match p, s with
  | EmptyString, _ => Some s
  | String a p', String b s' => if Ascii.eqb a b then strip p' s' else None
  | _, _ => None
  end.

Definition digit_val (c : ascii) : option nat :=
  let n := nat_of_ascii c in if (48 <=? n) && (n <=? 57) then Some (n - 48) else None.

Definition hex_val (c : ascii) : option nat :=
  let n := nat_of_ascii c in
  if (48 <=? n) && (n <=? 57) then Some (n - 48)
  else if (97 <=? n) && (n <=? 102) then Some (n - 87)
  else if (65 <=? n) && (n <=? 70) then Some (n - 55)
  else None.

(** Four hex digits: the UTF-16 code unit they write. *)
Definition hex4 (s : string) : option (nat * string) :=
  match s with
  | String h1 (String h2 (String h3 (String h4 r))) =>
    d1 ← hex_val h1; d2 ← hex_val h2; d3 ← hex_val h3; d4 ← hex_val h4;
    Some (((d1 * 16 + d2) * 16 + d3) * 16 + d4, r)
  | _ => None
  end.

(** The UTF-8 bytes of a code unit of the basic plane; a surrogate unit
    gets the three bytes of its number, the generalised UTF-8 of a byte
    string that holds a lone surrogate. *)
Definition utf8_of_unit (u : nat) : string :=
  if u <? 128 then str1 (ascii_of_nat u)
  else if u <? 2048 then
    String (ascii_of_nat (192 + u / 64)) (str1 (ascii_of_nat (128 + u mod 64)))
  else String (ascii_of_nat (224 + u / 4096))
         (String (ascii_of_nat (128 + (u / 64) mod 64)) (str1 (ascii_of_nat (128 + u mod 64)))).

(** The four UTF-8 bytes of a code point above the basic plane. *)
Definition utf8_of_astral (cp : nat) : string :=
  String (ascii_of_nat (240 + cp / 262144))
    (String (ascii_of_nat (128 + (cp / 4096) mod 64))
       (String (ascii_of_nat (128 + (cp / 64) mod 64)) (str1 (ascii_of_nat (128 + cp mod 64))))).

(** A [\u] escape after its [u]: a high surrogate followed by the escape
    of a low surrogate is one code point; any other unit, a lone
    surrogate included, stands for itself, as [JSON.parse] accepts it. *)
Definition unicode_escape (s : string) : option (string * string) :=
  '(u, r) ← hex4 s;
  if (55296 <=? u) && (u <=? 56319) then
    match r with
    | String b (String x r2) =>
      if (nat_of_ascii b =? 92) && (nat_of_ascii x =? 117) then
        match hex4 r2 with
        | Some (u2, r3) =>
          if (56320 <=? u2) && (u2 <=? 57343)
          then Some (utf8_of_astral (65536 + (u - 55296) * 1024 + (u2 - 56320)), r3)
          else Some (utf8_of_unit u, r)
        | None => Some (utf8_of_unit u, r)
        end
      else Some (utf8_of_unit u, r)
    | _ => Some (utf8_of_unit u, r)
    end
  else Some (utf8_of_unit u, r).

(** The body of a string literal after its opening quote, up to and
    without its closing quote; [fuel] bounds the characters read. *)
Fixpoint parse_chars (fuel : nat) (s : string) : option (string * string) :=
  match fuel with
  | O => None
  | S f =>
    match s with
    | EmptyString => None
    | String c r =>
      let n := nat_of_ascii c in
      if n =? 34 then Some (EmptyString, r)
      else if n <? 32 then None
      else if n =? 92 then
        match r with
        | String e r' =>
          let m := nat_of_ascii e in
          let simple (x : ascii) :=
            '(t, rest) ← parse_chars f r'; Some (String x t, rest) in
          if m =? 34 then simple quote_char
          else if m =? 92 then simple bslash
          else if m =? 47 then simple (ascii_of_nat 47)
          else if m =? 98 then simple (ascii_of_nat 8)
          else if m =? 102 then simple (ascii_of_nat 12)
          else if m =? 110 then simple (ascii_of_nat 10)
          else if m =? 114 then simple (ascii_of_nat 13)
          else if m =? 116 then simple (ascii_of_nat 9)
          else if m =? 117 then
            '(bytes, r'') ← unicode_escape r';
            '(t, rest) ← parse_chars f r'';
            Some (bytes ++ t, rest)
          else None
        | EmptyString => None
        end
      else '(t, rest) ← parse_chars f r; Some (String c t, rest)
    end
  end.

(** The digits of a number: the value accumulated in [acc]. *)
Fixpoint parse_digits (s : string) (acc : Z) : Z * string :=
  match s with
  | String c r =>
    match digit_val c with
    | Some d => parse_digits r (acc * 10 + Z.of_nat d)%Z
    | None => (acc, s)
    end
  | EmptyString => (acc, s)
  end.

(** [int] (ECMA-404): [0], or a digit from 1 to 9 and more digits. *)
Definition parse_int (s : string) : option (Z * string) :=
  match s with
  | String c r =>
    match digit_val c with
    | Some 0 => Some (0%Z, r)
    | Some d => Some (parse_digits r (Z.of_nat d))
    | None => None
    end
  | EmptyString => None
  end.

(** [frac]: a point and at least one digit; the value of the digits and
    how many they are. *)
Definition parse_frac (s : string) : option (Z * nat * string) :=
  match s with
  | String c r =>
    if Ascii.eqb c "." then
      let '(f, r') := parse_digits r 0 in
      let n := String.length r - String.length r' in
      if n =? 0 then None else Some (f, n, r')
    else Some (0%Z, 0, s)
  | EmptyString => Some (0%Z, 0, s)
  end.

(** [exp]: [e] or [E], an optional sign, at least one digit. *)
Definition parse_exp (s : string) : option (Z * string) :=
  match s with
  | String c r =>
    if Ascii.eqb c "e" || Ascii.eqb c "E" then
      let '(neg, r1) :=
        match r with
        | String d r2 => if Ascii.eqb d "-" then (true, r2)
                         else if Ascii.eqb d "+" then (false, r2) else (false, r)
        | EmptyString => (false, r)
        end in
      let '(x, r') := parse_digits r1 0 in
      if String.length r1 =? String.length r' then None
      else Some ((if neg then - x else x)%Z, r')
    else Some (0%Z, s)
  | EmptyString => Some (0%Z, s)
  end.

(** Up to [n] trailing zeros of [m] removed: the mantissa, and what is
    left of the scale. *)
Fixpoint strip_zeros (n : nat) (m : Z) : Z * nat :=
  match n with
  | O => (m, O)
  | S n' => if (m mod 10 =? 0)%Z then strip_zeros n' (m / 10)%Z else (m, n)
  end.

(** The number [m * 10^-k], as an integer or as a decimal whose mantissa
    is not a multiple of 10.  The value is kept exact: a number with more
    digits than a double holds, or beyond its range, is not rounded. *)
Definition make_number (m k : Z) : json :=
  if (k <=? 0)%Z then JNum (m * 10 ^ (- k))
  else let '(m', n) := strip_zeros (Z.to_nat k) m in
       match n with O => JNum m' | S _ => JDec m' (Pos.of_nat n) end.

(** The minus sign of a number, if it has one. *)
Definition sign_split (s : string) : bool * string :=
  match s with
  | String c r => if Ascii.eqb c "-" then (true, r) else (false, s)
  | EmptyString => (false, s)
  end.

(** [number] (ECMA-404): [-]? [int] [frac]? [exp]?. *)
Definition parse_number (s : string) : option (json * string) :=
  let '(neg, s1) := sign_split s in
  '(i, s2) ← parse_int s1;
  '(f, n, s3) ← parse_frac s2;
  '(x, s4) ← parse_exp s3;
  let m := (i * 10 ^ Z.of_nat n + f)%Z in
  Some (make_number (if neg then - m else m)%Z (Z.of_nat n - x)%Z, s4).

(** Setting a property of an object built by [JSON.parse]: an existing
    key keeps its place and takes the new value. *)
Fixpoint obj_set (k : string) (v : json) (l : list (string * json)) :
    list (string * json) :=
  match l with
  | [] => [(k, v)]
  | (k', v') :: r => if String.eqb k k' then (k, v) :: r else (k', v') :: obj_set k v r
  end.

Definition obj_of_members (ms : list (string * json)) : list (string * json) :=
  fold_left (fun acc kv => obj_set kv.1 kv.2 acc) ms [].

Fixpoint parse_value (fuel : nat) (s : string) : option (json * string) :=
  match fuel with
  | O => None
  | S f =>
    match skip_ws s with
    | EmptyString => None
    | String c r =>
      if Ascii.eqb c "n" then r' ← strip "ull" r; Some (JNull, r')
      else if Ascii.eqb c "t" then r' ← strip "rue" r; Some (JBool true, r')
      else if Ascii.eqb c "f" then r' ← strip "alse" r; Some (JBool false, r')
      else if Ascii.eqb c quote_char then
        '(t, r') ← parse_chars (String.length r) r; Some (JStr t, r')
      else if Ascii.eqb c "[" then
        match skip_ws r with
        | String d r' =>
          if Ascii.eqb d "]" then Some (JArr [], r')
          else '(l, r'') ← parse_elems f r; Some (JArr l, r'')
        | EmptyString => None
        end
      else if Ascii.eqb c "{" then
        match skip_ws r with
        | String d r' =>
          if Ascii.eqb d "}" then Some (JObj [], r')
          else '(l, r'') ← parse_members f r; Some (JObj (obj_of_members l), r'')
        | EmptyString => None
        end
      else parse_number (String c r)
    end
  end
(** The elements of an array after its [[] and up to its []]. *)
with parse_elems (fuel : nat) (s : string) : option (list json * string) :=
  match fuel with
  | O => None
  | S f =>
    '(v, r) ← parse_value f s;
    match skip_ws r with
    | String c r' =>
      if Ascii.eqb c "," then '(vs, r'') ← parse_elems f r'; Some (v :: vs, r'')
      else if Ascii.eqb c "]" then Some ([v], r')
      else None
    | EmptyString => None
    end
  end
(** The members of an object after its [{] and up to its [}]. *)
with parse_members (fuel : nat) (s : string) : option (list (string * json) * string) :=
  match fuel with
  | O => None
  | S f =>
    match skip_ws s with
    | String q r =>
      if Ascii.eqb q quote_char then
        '(k, r1) ← parse_chars (String.length r) r;
        match skip_ws r1 with
        | String col r2 =>
          if Ascii.eqb col ":" then
            '(v, r3) ← parse_value f r2;
            match skip_ws r3 with
            | String c r4 =>
              if Ascii.eqb c "," then '(ms, r5) ← parse_members f r4; Some ((k, v) :: ms, r5)
              else if Ascii.eqb c "}" then Some ([(k, v)], r4)
              else None
            | EmptyString => None
            end
          else None
        | EmptyString => None
        end
      else None
    | EmptyString => None
    end
  end.

(** [JSON.parse(s)]: a [SyntaxError] unless [s] is one JSON value
    surrounded by white space. The fuel, twice the length of the text,
    bounds the nesting of the calls. *)
Definition parse (s : string) : Exn + json :=
  match parse_value (2 * String.length s + 2) s with
  | Some (j, r) => match skip_ws r with
                   | EmptyString => inr j
                   | _ => inl SyntaxError
                   end
  | None => inl SyntaxError
  end.

(** Numbers with a fraction or an exponent, and escapes of surrogates. *)
Example parse_numbers_escapes :
  parse ("[1.5,2e3,-0.25E-1,10.50," ++ quote_char_str ++ String bslash "ud83d" ++
         String bslash "ude00" ++ String bslash "ud800" ++ quote_char_str ++ "]") =
  inr (JArr [JDec 15 1; JNum 2000; JDec (-25) 3; JDec 105 1;
             JStr (String (ascii_of_nat 240) (String (ascii_of_nat 159) (String (ascii_of_nat 152)
                   (String (ascii_of_nat 128) (String (ascii_of_nat 237) (String (ascii_of_nat 160)
                   (str1 (ascii_of_nat 128))))))))]).
Proof. vm_compute. reflexivity. Qed.

(** ** Well-formed values and an induction principle *)

(** The values [JSON.parse] can give: every object has distinct keys,
    and every number is an integer (the parser of this file reads no
    fraction). *)
Fixpoint json_wfb (j : json) : bool :=
  match j with
  | JDec m _ => negb (m mod 10 =? 0)%Z
  | JArr l => forallb json_wfb l
  | JObj l => bool_decide (NoDup (map fst l)) && forallb (fun kv => json_wfb kv.2) l
  | _ => true
  end.

Definition json_wf (j : json) : Prop := json_wfb j = true.

Section JsonInd.
Context (P : json -> Prop).
Hypothesis P_null : P JNull.
Hypothesis P_bool : forall b, P (JBool b).
Hypothesis P_num : forall z, P (JNum z).
Hypothesis P_dec : forall m e, P (JDec m e).
Hypothesis P_str : forall s, P (JStr s).
Hypothesis P_arr : forall l, Forall P l -> P (JArr l).
Hypothesis P_obj : forall l, Forall (fun kv => P kv.2) l -> P (JObj l).

(** Induction on values, with the hypothesis on every element of an
    array and every value of an object. *)
Fixpoint json_ind' (j : json) : P j :=
  match j with
  | JNull => P_null
  | JBool b => P_bool b
  | JNum z => P_num z
  | JDec m e => P_dec m e
  | JStr s => P_str s
  | JArr l =>
      P_arr l ((fix go (l : list json) : Forall P l :=
                  match l with
                  | [] => Forall_nil_2 _
                  | x :: r => Forall_cons_2 _ _ _ (json_ind' x) (go r)
                  end) l)
  | JObj l =>
      P_obj l ((fix go (l : list (string * json)) : Forall (fun kv => P kv.2) l :=
                  match l with
                  | [] => Forall_nil_2 _
                  | kv :: r => Forall_cons_2 _ _ _ (json_ind' kv.2) (go r)
                  end) l)
  end.
End JsonInd.

(** ** Strings *)

(** Reading back the escape of one character consumes one unit of fuel. *)
Lemma parse_chars_escape_char c f rest :
  parse_chars (S f) (escape_char c ++ rest) =
  '(t, r) ← parse_chars f rest; Some (String c t, r).
Proof. destruct c as [[] [] [] [] [] [] [] []]; reflexivity. Qed.

Lemma escape_char_nonempty c : 1 <= String.length (escape_char c).
Proof.
  apply Nat.leb_le. destruct c as [[] [] [] [] [] [] [] []]; reflexivity.
Qed.

Lemma length_escape_string s : String.length s <= String.length (escape_string s).
Proof.
  induction s as [|c s IH]; [done|]. cbn [escape_string String.length].
  rewrite string_length_app. pose proof (escape_char_nonempty c). lia.
Qed.

(** The body of a string literal reads back the string. *)
Lemma parse_chars_escape s f rest :
  String.length s < f ->
  parse_chars f (escape_string s ++ String quote_char rest) = Some (s, rest).
Proof.
  revert f. induction s as [|c s IH]; intros [|f] Hf; cbn [String.length] in Hf; try lia.
  - reflexivity.
  - cbn [escape_string]. rewrite string_app_assoc, parse_chars_escape_char, IH by lia.
    reflexivity.
Qed.

(** ** Numbers *)

Lemma pretty_N_go_app x s t : pretty_N_go x (s ++ t) = (pretty_N_go x s ++ t)%string.
Proof.
  revert s. induction (N.lt_wf_0 x) as [x _ IH]; intros s.
  destruct (decide (x = 0)%N) as [->|Hx]; [by rewrite !pretty_N_go_0|].
  rewrite !(pretty_N_go_step x) by lia. rewrite <- string_app_cons.
  apply IH. apply N.div_lt; lia.
Qed.

Lemma pretty_N_char_digit d : (d < 10)%N -> digit_val (pretty_N_char d) = Some (N.to_nat d).
Proof.
  intros Hd. assert (d = 0 \/ d = 1 \/ d = 2 \/ d = 3 \/ d = 4 \/ d = 5 \/ d = 6 \/ d = 7 \/
                     d = 8 \/ d = 9)%N as H by lia.
  destruct_or! H; subst; reflexivity.
Qed.

(** Reading the digits of [x] multiplies the accumulator by a power of
    ten and adds [x]. *)
Lemma parse_digits_pretty_go x s acc :
  exists k, (0 <= k)%Z /\ parse_digits (pretty_N_go x s) acc = parse_digits s (acc * 10 ^ k + Z.of_N x)%Z.
Proof.
  revert s acc. induction (N.lt_wf_0 x) as [x _ IH]; intros s acc.
  destruct (decide (x = 0)%N) as [->|Hx].
  { exists 0%Z. rewrite pretty_N_go_0. split; [lia|]. f_equal. lia. }
  rewrite pretty_N_go_step by lia.
  destruct (IH (x `div` 10)%N ltac:(apply N.div_lt; lia) (String (pretty_N_char (x `mod` 10)) s) acc)
    as (k & Hk & ->).
  exists (k + 1)%Z. split; [lia|]. cbn [parse_digits].
  rewrite pretty_N_char_digit by (apply N.mod_lt; lia). f_equal.
  pose proof (N.div_mod x 10 ltac:(lia)) as Hx10. rewrite Z.pow_add_r, Z.pow_1_r by lia.
  rewrite N_nat_Z. set (q := (x `div` 10)%N) in *. set (r := (x `mod` 10)%N) in *.
  clearbody q r. subst x. rewrite N2Z.inj_add, N2Z.inj_mul. nia.
Qed.

Lemma pretty_N_go_head x s :
  (0 < x)%N -> exists d r, pretty_N_go x s = String (pretty_N_char d) r /\ (0 < d < 10)%N.
Proof.
  revert s. induction (N.lt_wf_0 x) as [x _ IH]; intros s Hx.
  rewrite pretty_N_go_step by lia.
  destruct (decide (x < 10)%N) as [Hs|Hl].
  - rewrite N.div_small, pretty_N_go_0, N.mod_small by lia. eauto.
  - apply IH; [apply N.div_lt; lia|]. apply N.div_str_pos. lia.
Qed.

(** What may follow a value in the printed text: the end, a comma, a
    closing bracket, or white space (in the indented text). *)
Definition stop (rest : string) : Prop :=
  match rest with
  | EmptyString => True
  | String c _ => c = ","%char \/ c = "]"%char \/ c = "}"%char \/ is_ws c = true
  end.

Lemma is_ws_cases c :
  is_ws c = true -> c = " "%char \/ c = "009"%char \/ c = "010"%char \/ c = "013"%char.
Proof.
  unfold is_ws. intros H. rewrite <- (ascii_nat_embedding c).
  rewrite !orb_true_iff, !Nat.eqb_eq in H. destruct H as [[[-> | ->] | ->] | ->]; auto.
Qed.

Ltac stop_cases :=
  let H := fresh in
  intros [-> | [-> | [-> | H]]]; [reflexivity.. |];
  destruct (is_ws_cases _ H) as [-> | [-> | [-> | ->]]]; reflexivity.

Lemma parse_digits_stop rest acc : stop rest -> parse_digits rest acc = (acc, rest).
Proof. destruct rest as [|c r]; [done|]. stop_cases. Qed.

Lemma parse_frac_stop rest : stop rest -> parse_frac rest = Some (0%Z, 0, rest).
Proof. destruct rest as [|c r]; [done|]. stop_cases. Qed.

Lemma parse_exp_stop rest : stop rest -> parse_exp rest = Some (0%Z, rest).
Proof. destruct rest as [|c r]; [done|]. stop_cases. Qed.

(** The integer part of a printed positive number. *)
Lemma parse_int_pretty p rest :
  (forall acc, parse_digits rest acc = (acc, rest)) ->
  parse_int (pretty_N_go (Npos p) rest) = Some (Zpos p, rest).
Proof.
  intros Hr. destruct (pretty_N_go_head (Npos p) rest ltac:(lia)) as (d & r & Hh & Hd).
  destruct (parse_digits_pretty_go (Npos p) rest 0) as (k & _ & Hk).
  rewrite Hh in Hk |- *. cbn [parse_int]. rewrite pretty_N_char_digit by lia.
  cbn [parse_digits] in Hk. rewrite pretty_N_char_digit in Hk by lia.
  destruct (N.to_nat d) as [|n] eqn:En; [lia|].
  rewrite Z.add_0_l in Hk. by rewrite Hk, Hr.
Qed.

Lemma pretty_N_char_not_dash d : Ascii.eqb (pretty_N_char d) "-" = false.
Proof. unfold pretty_N_char. repeat case_match; reflexivity. Qed.

Lemma pretty_Zpos_app p rest : (pretty (Zpos p) ++ rest)%string = pretty_N_go (Npos p) rest.
Proof.
  cbv [pretty pretty_Z pretty_positive pretty_N]. case_decide; [lia|].
  rewrite <- pretty_N_go_app. reflexivity.
Qed.

Lemma pretty_Zneg_app p rest :
  (pretty (Zneg p) ++ rest)%string = String "-" (pretty_N_go (Npos p) rest).
Proof.
  change (pretty (Zneg p)) with ("-" ++ pretty (Zpos p))%string.
  rewrite string_app_assoc, pretty_Zpos_app. reflexivity.
Qed.

(** A non-negative integer printed: its first character is a digit, and
    its digits read back. *)
Lemma pretty_nonneg_head q rest :
  (0 <= q)%Z -> exists d r, (pretty q ++ rest)%string = String (pretty_N_char d) r.
Proof.
  intros Hq. destruct q as [|p|p]; [by exists 0%N, rest | | lia].
  rewrite pretty_Zpos_app. destruct (pretty_N_go_head (Npos p) rest ltac:(lia)) as (d & r & -> & _).
  eauto.
Qed.

Lemma parse_int_pretty_nonneg q rest :
  (0 <= q)%Z -> (forall acc, parse_digits rest acc = (acc, rest)) ->
  parse_int (pretty q ++ rest) = Some (q, rest).
Proof.
  intros Hq Hr. destruct q as [|p|p]; [reflexivity | | lia].
  rewrite pretty_Zpos_app. by apply parse_int_pretty.
Qed.

(** The run of [parse_number] from the runs of its parts. *)
Lemma parse_number_eq s neg s1 i s2 f n s3 x s4 :
  sign_split s = (neg, s1) -> parse_int s1 = Some (i, s2) ->
  parse_frac s2 = Some (f, n, s3) -> parse_exp s3 = Some (x, s4) ->
  parse_number s =
    Some (make_number (if neg then - (i * 10 ^ Z.of_nat n + f) else i * 10 ^ Z.of_nat n + f)%Z
            (Z.of_nat n - x)%Z, s4).
Proof.
  intros Hs Hi Hf Hx. unfold parse_number. rewrite Hs. cbn iota beta.
  rewrite Hi. cbn [mbind option_bind]. rewrite Hf. cbn [mbind option_bind].
  rewrite Hx. reflexivity.
Qed.

Lemma make_number_int m : make_number m 0 = JNum m.
Proof. unfold make_number. cbn. by rewrite Z.mul_1_r. Qed.

(** The printed integer reads back, whatever of [, ] } ] follows it. *)
Lemma parse_number_pretty z rest :
  stop rest -> parse_number (pretty z ++ rest) = Some (JNum z, rest).
Proof.
  intros Hr. assert (Hd : forall acc, parse_digits rest acc = (acc, rest))
    by (intros; by apply parse_digits_stop).
  destruct z as [|p|p].
  - erewrite (parse_number_eq _ false); [|reflexivity|reflexivity|by apply parse_frac_stop|by apply parse_exp_stop].
    reflexivity.
  - rewrite pretty_Zpos_app.
    destruct (pretty_N_go_head (Npos p) rest ltac:(lia)) as (d & r & Hh & _).
    erewrite (parse_number_eq _ false);
      [| rewrite Hh; cbn; by rewrite pretty_N_char_not_dash | rewrite <- Hh; by apply parse_int_pretty
       | by apply parse_frac_stop | by apply parse_exp_stop].
    rewrite Z.mul_1_r, Z.add_0_r. cbn [Z.of_nat Z.sub]. by rewrite make_number_int.
  - rewrite pretty_Zneg_app.
    erewrite (parse_number_eq _ true);
      [| reflexivity | by apply parse_int_pretty | by apply parse_frac_stop | by apply parse_exp_stop].
    rewrite Z.mul_1_r, Z.add_0_r. cbn [Z.of_nat Z.sub]. by rewrite make_number_int.
Qed.

(** ** Decimals *)

Lemma length_zeros n : String.length (zeros n) = n.
Proof. induction n; cbn; lia. Qed.

Lemma parse_digits_zeros n s acc :
  parse_digits (zeros n ++ s) acc = parse_digits s (acc * 10 ^ Z.of_nat n)%Z.
Proof.
  revert acc. induction n as [|n IH]; intros acc; [cbn; by rewrite Z.mul_1_r|].
  cbn [zeros]. rewrite string_app_cons. cbn [parse_digits].
  change (digit_val "0") with (Some 0). cbv iota beta. rewrite IH.
  f_equal. rewrite Nat2Z.inj_succ, Z.pow_succ_r by lia. lia.
Qed.

(** A number below [10^k] has at most [k] digits. *)
Lemma length_pretty_N_go x s k :
  (x < 10 ^ k)%N -> String.length (pretty_N_go x s) <= N.to_nat k + String.length s.
Proof.
  revert s k. induction (N.lt_wf_0 x) as [x _ IH]; intros s k Hx.
  destruct (decide (x = 0)%N) as [->|Hx0]; [rewrite pretty_N_go_0; lia|].
  rewrite pretty_N_go_step by lia.
  destruct (decide (k = 0)%N) as [->|Hk]; [cbn in Hx; lia|].
  assert (Hk' : k = N.succ (N.pred k)) by lia. rewrite Hk' in Hx.
  rewrite N.pow_succ_r' in Hx.
  pose proof (IH (x `div` 10)%N ltac:(apply N.div_lt; lia) (String (pretty_N_char (x `mod` 10)) s)
    (N.pred k) ltac:(apply N.Div0.div_lt_upper_bound; lia)) as H.
  cbn [String.length] in H. lia.
Qed.

Lemma length_pad_digits n s : String.length s <= n -> String.length (pad_digits n s) = n.
Proof. intros H. unfold pad_digits. rewrite string_length_app, length_zeros. lia. Qed.

(** The fraction digits of a decimal read back as their value, and
    count [e]. *)
Lemma parse_frac_pad (e : positive) r rest :
  (0 < r < 10 ^ Zpos e)%Z -> stop rest ->
  parse_frac (String "." (pad_digits (Pos.to_nat e) (pretty r) ++ rest)) =
    Some (r, Pos.to_nat e, rest).
Proof.
  intros Hr Hs. destruct r as [|p|p]; try lia.
  assert (Hlen : String.length (pretty (Zpos p)) <= Pos.to_nat e).
  { rewrite <- (string_app_nil_r (pretty (Zpos p))), pretty_Zpos_app.
    pose proof (length_pretty_N_go (Npos p) EmptyString (Npos e) ltac:(lia)) as H.
    cbn [String.length] in H. rewrite positive_N_nat in H. lia. }
  cbn [parse_frac]. replace (Ascii.eqb "." ".") with true by reflexivity.
  unfold pad_digits at 1. rewrite string_app_assoc, parse_digits_zeros, Z.mul_0_l.
  rewrite pretty_Zpos_app.
  destruct (parse_digits_pretty_go (Npos p) rest 0) as (k & _ & ->).
  rewrite parse_digits_stop by done. cbn -[pad_digits String.length].
  rewrite string_length_app, length_pad_digits by done.
  replace (Pos.to_nat e + String.length rest - String.length rest) with (Pos.to_nat e) by lia.
  destruct (Pos.to_nat e) eqn:E; [lia|]. reflexivity.
Qed.

Lemma strip_zeros_spec n m :
  match strip_zeros n m with (m', S _) => (m' mod 10 <> 0)%Z | _ => True end.
Proof.
  revert m. induction n as [|n IH]; intros m; [done|]. cbn [strip_zeros].
  destruct (Z.eqb_spec (m mod 10) 0); [apply IH | done].
Qed.

Lemma make_number_dec m e : (m mod 10 <> 0)%Z -> make_number m (Zpos e) = JDec m e.
Proof.
  intros Hm. unfold make_number. cbn [Z.leb Z.compare]. rewrite Z2Nat.inj_pos.
  destruct (Pos.to_nat e) eqn:E; [lia|]. cbn [strip_zeros].
  rewrite (proj2 (Z.eqb_neq _ _) Hm). cbn. f_equal. rewrite <- E. apply Pos2Nat.id.
Qed.

Lemma pretty_dec_app m e rest :
  (pretty_dec m e ++ rest)%string =
  ((if (m <? 0)%Z then "-" else EmptyString) ++
   (pretty (Z.abs m / 10 ^ Zpos e)%Z ++
    String "." (pad_digits (Pos.to_nat e) (pretty (Z.abs m mod 10 ^ Zpos e)%Z) ++ rest)))%string.
Proof. unfold pretty_dec. by rewrite !string_app_assoc. Qed.

(** A decimal whose mantissa is not a multiple of 10 reads back. *)
Lemma parse_number_dec m e rest :
  (m mod 10 <> 0)%Z -> stop rest -> parse_number (pretty_dec m e ++ rest) = Some (JDec m e, rest).
Proof.
  intros Hm Hs. rewrite pretty_dec_app.
  set (p := (10 ^ Zpos e)%Z). assert (Hp : (0 < p)%Z) by (subst p; lia).
  set (q := (Z.abs m / p)%Z). set (r := (Z.abs m mod p)%Z).
  assert (Hq : (0 <= q)%Z) by (subst q; apply Z.div_pos; lia).
  assert (Hr : (0 < r < p)%Z).
  { subst r. pose proof (Z.mod_pos_bound (Z.abs m) p Hp). split; [|lia].
    destruct (Z.eq_dec (Z.abs m mod p) 0) as [H0|]; [|lia]. exfalso. apply Hm.
    assert (H10 : (10 | p)%Z) by (subst p; exists (10 ^ (Zpos e - 1))%Z;
      rewrite Z.mul_comm, <- Z.pow_succ_r by lia; f_equal; lia).
    apply Z.mod_divide in H0; [|lia]. apply Z.mod_divide; [lia|].
    apply Z.divide_abs_r. by apply (Z.divide_trans _ p). }
  assert (Hm' : (Z.abs m = q * 10 ^ Z.of_nat (Pos.to_nat e) + r)%Z).
  { rewrite positive_nat_Z. subst q r p. pose proof (Z.div_mod (Z.abs m) (10 ^ Zpos e)). lia. }
  assert (Hdot : forall acc, parse_digits
    (String "." (pad_digits (Pos.to_nat e) (pretty r) ++ rest)) acc =
    (acc, String "." (pad_digits (Pos.to_nat e) (pretty r) ++ rest))) by reflexivity.
  destruct (Z.ltb_spec m 0) as [Hneg|Hpos].
  - erewrite (parse_number_eq _ true); [| reflexivity | by apply parse_int_pretty_nonneg
      | by apply parse_frac_pad | by apply parse_exp_stop].
    rewrite <- Hm', Z.sub_0_r, positive_nat_Z, make_number_dec; [do 3 f_equal; lia|].
    by replace (- Z.abs m)%Z with m by lia.
  - destruct (pretty_nonneg_head q (String "." (pad_digits (Pos.to_nat e) (pretty r) ++ rest)) Hq)
      as (d & s' & Hh).
    erewrite (parse_number_eq _ false); [| change (EmptyString ++ ?x)%string with x; rewrite Hh;
        unfold sign_split; by rewrite pretty_N_char_not_dash | rewrite <- Hh; by apply parse_int_pretty_nonneg
      | by apply parse_frac_pad | by apply parse_exp_stop].
    rewrite <- Hm', Z.sub_0_r, positive_nat_Z, make_number_dec; [do 3 f_equal; lia|].
    by replace (Z.abs m) with m by lia.
Qed.

(** ** Printing then parsing *)

(** The first character of a printed value: no white space and no
    closing bracket. *)
Definition value_head (s : string) : Prop :=
  exists c r, s = String c r /\ is_ws c = false /\ Ascii.eqb c "]" = false /\
              Ascii.eqb c "}" = false.

Definition num_head (c : ascii) : Prop := c = "-"%char \/ exists d, c = pretty_N_char d.

Lemma pretty_Z_head (z : Z) rest : exists c r, (pretty z ++ rest)%string = String c r /\ num_head c.
Proof.
  destruct z as [|p|p].
  - exists "0"%char, rest. split; [reflexivity|]. right. by exists 0%N.
  - rewrite pretty_Zpos_app. destruct (pretty_N_go_head (Npos p) rest ltac:(lia)) as (d & r & -> & _).
    eexists _, _. split; [reflexivity|]. right. eauto.
  - rewrite pretty_Zneg_app. eexists _, _. split; [reflexivity|]. by left.
Qed.

Lemma num_head_tests c : num_head c ->
  is_ws c = false /\ Ascii.eqb c "]" = false /\ Ascii.eqb c "}" = false /\
  Ascii.eqb c "n" = false /\ Ascii.eqb c "t" = false /\ Ascii.eqb c "f" = false /\
  Ascii.eqb c quote_char = false /\ Ascii.eqb c "[" = false /\ Ascii.eqb c "{" = false.
Proof. intros [-> | [d ->]]; [done|]. unfold pretty_N_char. repeat case_match; done. Qed.

Lemma string_app_single_nil s : (EmptyString ++ s)%string = s.
Proof. reflexivity. Qed.

Lemma value_head_app s t : value_head s -> value_head (s ++ t).
Proof. intros (c & r & -> & H). exists c, (r ++ t)%string. by rewrite string_app_cons. Qed.

Lemma pretty_dec_head m e rest :
  exists c r, (pretty_dec m e ++ rest)%string = String c r /\ num_head c.
Proof.
  rewrite pretty_dec_app. destruct (m <? 0)%Z; [eexists _, _; split; [reflexivity|by left]|].
  destruct (pretty_Z_head (Z.abs m / 10 ^ Z.pos e)%Z (String "." (pad_digits (Pos.to_nat e)
    (pretty (Z.abs m mod 10 ^ Z.pos e)%Z) ++ rest))) as (c & r & E & Hc).
  rewrite string_app_single_nil, E. eauto.
Qed.

Lemma stringify_head j : value_head (stringify j).
Proof.
  destruct j as [| [] | z | m e | s | l | l]; try (eexists _, _; split; [reflexivity|done]).
  - destruct (pretty_Z_head z EmptyString) as (c & r & E & Hc).
    rewrite string_app_nil_r in E. cbn [stringify]. rewrite E.
    destruct (num_head_tests c Hc) as (? & ? & ? & _). by exists c, r.
  - destruct (pretty_dec_head m e EmptyString) as (c & r & E & Hc).
    rewrite string_app_nil_r in E. cbn [stringify]. rewrite E.
    destruct (num_head_tests c Hc) as (? & ? & ? & _). by exists c, r.
Qed.

Lemma skip_ws_value_head s : value_head s -> skip_ws s = s.
Proof. intros (c & r & -> & Hws & _). cbn [skip_ws]. by rewrite Hws. Qed.

Lemma quote_app s rest :
  (quote s ++ rest)%string = String quote_char (escape_string s ++ String quote_char rest).
Proof. unfold quote. rewrite string_app_cons, string_app_assoc. reflexivity. Qed.

Lemma parse_chars_quoted s rest :
  parse_chars (String.length (escape_string s ++ String quote_char rest))
    (escape_string s ++ String quote_char rest) = Some (s, rest).
Proof.
  apply parse_chars_escape. rewrite string_length_app. cbn [String.length].
  pose proof (length_escape_string s). lia.
Qed.

(** A text that starts like a number is parsed as one. *)
Lemma parse_value_number f c r : num_head c -> parse_value (S f) (String c r) = parse_number (String c r).
Proof.
  intros Hc. destruct (num_head_tests c Hc) as (Hws & _ & _ & Hn & Ht & Hf & Hq & Hb & Hc').
  cbn [parse_value skip_ws]. by rewrite Hws, Hn, Ht, Hf, Hq, Hb, Hc'.
Qed.

Lemma parse_value_num f (z : Z) rest : stop rest -> parse_value (S f) (pretty z ++ rest) = Some (JNum z, rest).
Proof.
  intros Hr. destruct (pretty_Z_head z rest) as (c & r & E & Hc).
  rewrite E, parse_value_number, <- E by done. by apply parse_number_pretty.
Qed.

Lemma parse_value_dec f m e rest :
  (m mod 10 <> 0)%Z -> stop rest -> parse_value (S f) (pretty_dec m e ++ rest) = Some (JDec m e, rest).
Proof.
  intros Hm Hr. destruct (pretty_dec_head m e rest) as (c & r & E & Hc).
  rewrite E, parse_value_number, <- E by done. by apply parse_number_dec.
Qed.

Lemma parse_value_quote f r :
  parse_value (S f) (String quote_char r) = '(t, r') ← parse_chars (String.length r) r; Some (JStr t, r').
Proof. reflexivity. Qed.

Lemma parse_value_str f s rest : parse_value (S f) (quote s ++ rest) = Some (JStr s, rest).
Proof. by rewrite quote_app, parse_value_quote, parse_chars_quoted. Qed.

(** ** Objects read back in key order *)

Lemma obj_set_fresh k v l : k ∉ map fst l -> obj_set k v l = (l ++ [(k, v)])%list.
Proof.
  induction l as [|[k' v'] l IH]; intros Hk; [done|]. cbn [obj_set].
  cbn [map fst] in Hk. apply not_elem_of_cons in Hk as [Hk Hl].
  rewrite (proj2 (String.eqb_neq k k')) by done. by rewrite IH.
Qed.

Lemma fold_obj_set_fresh l acc :
  NoDup (map fst (acc ++ l)%list) ->
  fold_left (fun acc kv => obj_set kv.1 kv.2 acc) l acc = (acc ++ l)%list.
Proof.
  revert acc. induction l as [|[k v] l IH]; intros acc Hnd; cbn [fold_left]; [by rewrite app_nil_r|].
  rewrite obj_set_fresh.
  - rewrite IH; by rewrite <- app_assoc.
  - rewrite map_app, NoDup_app in Hnd. destruct Hnd as (_ & Hd & _).
    intros Hin. apply (Hd _ Hin). cbn. left.
Qed.

(** On distinct keys, building the object keeps the members as read. *)
Lemma obj_of_members_nodup l : NoDup (map fst l) -> obj_of_members l = l.
Proof. intros H. unfold obj_of_members. by rewrite fold_obj_set_fresh. Qed.

(** ** Arrays and objects *)

Lemma parse_elems_comma f s v rest :
  parse_value f s = Some (v, String "," rest) ->
  parse_elems (S f) s = '(vs, r) ← parse_elems f rest; Some (v :: vs, r).
Proof. intros H. cbn [parse_elems]. rewrite H. reflexivity. Qed.

Lemma parse_elems_last f s v rest :
  parse_value f s = Some (v, String "]" rest) -> parse_elems (S f) s = Some ([v], rest).
Proof. intros H. cbn [parse_elems]. rewrite H. reflexivity. Qed.

Lemma parse_members_comma f k s v rest :
  parse_value f s = Some (v, String "," rest) ->
  parse_members (S f) (quote k ++ String ":" s) =
  '(ms, r) ← parse_members f rest; Some ((k, v) :: ms, r).
Proof.
  intros H. rewrite quote_app. simpl. rewrite parse_chars_quoted. simpl. by rewrite H.
Qed.

Lemma parse_members_last f k s v rest :
  parse_value f s = Some (v, String "}" rest) ->
  parse_members (S f) (quote k ++ String ":" s) = Some ([(k, v)], rest).
Proof.
  intros H. rewrite quote_app. simpl. rewrite parse_chars_quoted. simpl. by rewrite H.
Qed.

(** What the theorem below proves of every value: its printed text,
    followed by what may follow a value, is read back, given fuel twice
    its length. *)
Definition reads_back (j : json) : Prop :=
  forall f rest, 2 * String.length (stringify j) < f -> stop rest ->
  parse_value f (stringify j ++ rest) = Some (j, rest).

Lemma concat_cons_ne sep x l :
  l <> [] -> String.concat sep (x :: l) = (x ++ sep ++ String.concat sep l)%string.
Proof. by destruct l. Qed.

Ltac len_simpl := rewrite ?string_length_app in *; cbn [String.length] in *.

Lemma parse_elems_stringify l f rest :
  Forall reads_back l -> l <> [] ->
  2 * String.length (String.concat "," (map stringify l)) + 1 < f ->
  parse_elems f (String.concat "," (map stringify l) ++ String "]" rest) = Some (l, rest).
Proof.
  revert f. induction l as [|j l IH]; intros f Hall Hne Hf; [done|].
  apply Forall_cons in Hall as [Hj Hl]. destruct f as [|f]; [lia|].
  destruct l as [|j2 l]; cbn [map String.concat] in *.
  - apply parse_elems_last, Hj; [lia|]. cbn; auto.
  - rewrite !string_app_assoc, string_app_cons. len_simpl.
    erewrite parse_elems_comma; [|apply Hj; [lia|]; cbn; auto].
    rewrite IH by (done || lia). reflexivity.
Qed.

Lemma parse_members_stringify l f rest :
  Forall (fun kv => reads_back kv.2) l -> l <> [] ->
  2 * String.length (String.concat "," (map (fun kv => quote kv.1 ++ ":" ++ stringify kv.2) l)) + 1 < f ->
  parse_members f (String.concat "," (map (fun kv => quote kv.1 ++ ":" ++ stringify kv.2) l) ++ String "}" rest)
  = Some (l, rest).
Proof.
  revert f. induction l as [|[k v] l IH]; intros f Hall Hne Hf; [done|].
  apply Forall_cons in Hall as [Hv Hl]. cbn [snd] in Hv. destruct f as [|f]; [lia|].
  destruct l as [|kv2 l]; rewrite map_cons in Hf |- *.
  - cbn [map String.concat fst snd] in Hf |- *.
    rewrite !string_app_assoc, string_app_cons. len_simpl.
    apply parse_members_last, Hv; [lia|]. cbn; auto.
  - rewrite concat_cons_ne in Hf |- * by done. cbv beta in Hf |- *. cbn [fst snd] in Hf |- *.
    rewrite !string_app_assoc, !string_app_cons. len_simpl.
    erewrite parse_members_comma; [|apply Hv; [lia|]; cbn; auto].
    rewrite IH by (done || lia). reflexivity.
Qed.

Lemma parse_value_open_arr f s :
  value_head s ->
  parse_value (S f) (String "[" s) = '(l, r) ← parse_elems f s; Some (JArr l, r).
Proof. intros (c & r & -> & Hws & Hb & _). simpl. rewrite Hws. simpl. by rewrite Hb. Qed.

Lemma parse_value_open_obj f r :
  parse_value (S f) (String "{" (String quote_char r)) =
  '(l, r') ← parse_members f (String quote_char r); Some (JObj (obj_of_members l), r').
Proof. reflexivity. Qed.

Lemma string_app_single c s : (String c EmptyString ++ s)%string = String c s.
Proof. reflexivity. Qed.

Lemma concat_head j l : value_head (String.concat "," (map stringify (j :: l))).
Proof.
  destruct l; cbn [map String.concat]; [|apply value_head_app]; apply stringify_head.
Qed.

Lemma members_head kv l rest :
  exists r, (String.concat "," (map (fun kv => quote kv.1 ++ ":" ++ stringify kv.2) (kv :: l))
             ++ rest)%string = String quote_char r.
Proof. destruct l; cbn [map String.concat]; rewrite ?string_app_assoc, quote_app; eauto. Qed.

Lemma Forall_wf_reads_back {A} (g : A -> json) (l : list A) :
  Forall (fun x => json_wf (g x) -> reads_back (g x)) l -> forallb (fun x => json_wfb (g x)) l = true ->
  Forall (fun x => reads_back (g x)) l.
Proof.
  rewrite !Forall_forall, forallb_forall. intros IH Hwf x Hx.
  apply IH; [done|]. by apply Hwf, list_elem_of_In.
Qed.

(** Every well-formed value reads back from its printed text. *)
Lemma stringify_reads_back j : json_wf j -> reads_back j.
Proof.
  unfold json_wf. induction j as [| b | z | m e | s | l IH | l IH] using json_ind';
    intros Hwf f rest Hf Hr; (destruct f as [|f]; [lia|]).
  - reflexivity.
  - destruct b; reflexivity.
  - by apply parse_value_num.
  - apply parse_value_dec; [|done]. cbn [json_wfb] in Hwf. by apply negb_true_iff, Z.eqb_neq in Hwf.
  - apply parse_value_str.
  - destruct l as [|j l]; [reflexivity|]. cbn [stringify json_wfb] in Hf, Hwf |- *.
    rewrite !string_app_assoc, !string_app_single, parse_value_open_arr
      by apply value_head_app, concat_head.
    len_simpl. rewrite parse_elems_stringify by (done || lia || by apply (Forall_wf_reads_back id)).
    reflexivity.
  - destruct l as [|kv l]; [reflexivity|]. cbn [stringify json_wfb] in Hf, Hwf |- *.
    apply andb_true_iff in Hwf as [Hnd Hwf]. apply bool_decide_eq_true in Hnd.
    rewrite !string_app_assoc, !string_app_single.
    destruct (members_head kv l (String "}" rest)) as [r Er].
    rewrite Er, parse_value_open_obj, <- Er. len_simpl.
    rewrite parse_members_stringify by (done || lia || by apply (Forall_wf_reads_back snd)).
    cbn -[obj_of_members]. by rewrite obj_of_members_nodup.
Qed.

(** ** [JSON.parse] builds objects with distinct keys *)

Lemma obj_set_keys k v l : map fst (obj_set k v l) = if decide (k ∈ map fst l) then map fst l else (map fst l ++ [k])%list.
Proof.
  induction l as [|[k' v'] l IH]; [done|]. cbn [obj_set map fst].
  destruct (String.eqb_spec k k') as [->|Hne].
  - rewrite decide_True by set_solver. done.
  - cbn [map fst]. rewrite IH. repeat case_decide; set_solver.
Qed.

Lemma obj_set_nodup k v l : NoDup (map fst l) -> NoDup (map fst (obj_set k v l)).
Proof.
  intros Hnd. rewrite obj_set_keys. case_decide; [done|].
  apply NoDup_app. split_and!; [done| |by apply NoDup_singleton]. set_solver.
Qed.

Lemma obj_set_Forall (P : string * json -> Prop) k v l :
  P (k, v) -> Forall P l -> Forall P (obj_set k v l).
Proof.
  intros Hkv. induction 1 as [|[k' v'] l Hx Hl IH]; cbn [obj_set]; [by constructor|].
  destruct (String.eqb k k'); by constructor.
Qed.

Lemma obj_of_members_wf (P : string * json -> Prop) ms :
  Forall P ms -> NoDup (map fst (obj_of_members ms)) /\ Forall P (obj_of_members ms).
Proof.
  unfold obj_of_members. cut (forall acc, NoDup (map fst acc) -> Forall P acc -> Forall P ms ->
    NoDup (map fst (fold_left (fun acc kv => obj_set kv.1 kv.2 acc) ms acc)) /\
    Forall P (fold_left (fun acc kv => obj_set kv.1 kv.2 acc) ms acc)).
  { intros H Hms. apply H; [constructor | constructor | done]. }
  induction ms as [|[k v] ms IH]; intros acc Hnd Hacc Hms; [done|].
  apply Forall_cons in Hms as [Hkv Hms]. cbn [fold_left fst snd].
  apply IH; [apply obj_set_nodup | apply obj_set_Forall | ]; done.
Qed.

Lemma json_wf_arr l : Forall json_wf l -> json_wf (JArr l).
Proof.
  unfold json_wf. intros Hl. cbn [json_wfb]. apply forallb_forall.
  intros x Hx. by apply (proj1 (Forall_forall _ _) Hl), list_elem_of_In.
Qed.

Lemma json_wf_obj ms : Forall (fun kv => json_wf kv.2) ms -> json_wf (JObj (obj_of_members ms)).
Proof.
  intros Hms. destruct (obj_of_members_wf _ ms Hms) as [Hnd Hall].
  unfold json_wf. cbn [json_wfb]. apply andb_true_iff. split; [by apply bool_decide_eq_true|].
  apply forallb_forall. intros x Hx. by apply (proj1 (Forall_forall _ _) Hall), list_elem_of_In.
Qed.

Lemma make_number_wf m k : json_wf (make_number m k).
Proof.
  unfold make_number, json_wf. case_match; [done|].
  pose proof (strip_zeros_spec (Z.to_nat k) m).
  destruct (strip_zeros _ _) as [m' [|n]]; [done|]. cbn. by apply negb_true_iff, Z.eqb_neq.
Qed.

Lemma parse_number_wf s j r : parse_number s = Some (j, r) -> json_wf j.
Proof.
  unfold parse_number. destruct (sign_split s). intros H.
  repeat (simplify_option_eq || case_match); apply make_number_wf.
Qed.

(** What [JSON.parse] returns is a value whose objects have distinct
    keys: a repeated key keeps one member. *)
Lemma parse_value_wf f :
  (forall s j r, parse_value f s = Some (j, r) -> json_wf j) /\
  (forall s l r, parse_elems f s = Some (l, r) -> Forall json_wf l) /\
  (forall s ms r, parse_members f s = Some (ms, r) -> Forall (fun kv => json_wf kv.2) ms).
Proof.
  induction f as [|f (IHv & IHe & IHm)]; [done|]. split_and!.
  - intros s j r H. cbn [parse_value] in H.
    repeat (simplify_option_eq || case_match); try reflexivity; eauto using json_wf_arr, json_wf_obj, parse_number_wf.
  - intros s l r H. cbn [parse_elems] in H.
    repeat (simplify_option_eq || case_match); eauto.
  - intros s ms r H. cbn [parse_members] in H.
    repeat (simplify_option_eq || case_match); eauto.
Qed.

Lemma parse_wf s j : parse s = inr j -> json_wf j.
Proof. unfold parse. intros H. repeat case_match; simplify_eq. by eapply parse_value_wf. Qed.

(** [JSON.parse] of a text that a value reads back from. *)
Lemma parse_of_reads_back j : reads_back j -> parse (stringify j) = inr j.
Proof.
  intros H. unfold parse.
  specialize (H (2 * String.length (stringify j) + 2) EmptyString ltac:(lia) I).
  rewrite string_app_nil_r in H. by rewrite H.
Qed.

(** ** The round trip *)

(** [JSON.parse(JSON.stringify(v))] gives back [v] for every value
    whose objects have distinct keys: the printer escapes every character
    the parser unescapes, prints integers the parser reads back, and the
    fuel of [parse], twice the length of the text, is enough. *)
Theorem parse_stringify j : json_wf j -> parse (stringify j) = inr j.
Proof. intros Hwf. by apply parse_of_reads_back, stringify_reads_back. Qed.

(** A history of views, with a backslash in a title, reads back. *)
Example parse_stringify_history :
  let j := JArr [JObj [("slide", JNum 3); ("timestamp", JStr "2024-03-01T10:00:00.000Z");
                       ("slideTitle", JStr "Songs \\ Ballads"); ("sessionId", JStr "s")];
                 JNum (-12); JBool false; JNull; JArr []] in
  json_wf j /\ parse (stringify j) = inr j.
Proof. intros j. split; [reflexivity | apply parse_stringify; reflexivity]. Qed.

(** ** The indented text reads back *)

(** A text of white space only, as the indentation is. *)
Fixpoint all_ws (s : string) : bool :=
  match s with
  | EmptyString => true
  | String c r => is_ws c && all_ws r
  end.

Lemma all_ws_app a b : all_ws a = true -> all_ws b = true -> all_ws (a ++ b) = true.
Proof.
  induction a as [|c a IH]; [done|]. rewrite string_app_cons. cbn [all_ws].
  intros [-> Ha]%andb_true_iff Hb. by apply IH.
Qed.

Lemma all_ws_newline ind : all_ws ind = true -> all_ws (newline ++ ind) = true.
Proof. apply all_ws_app. reflexivity. Qed.

Lemma skip_ws_app w s : all_ws w = true -> skip_ws (w ++ s) = skip_ws s.
Proof.
  induction w as [|c w IH]; [done|]. rewrite string_app_cons. cbn [all_ws skip_ws].
  intros [-> Hw]%andb_true_iff. by apply IH.
Qed.

Lemma stop_ws w s : all_ws w = true -> stop s -> stop (w ++ s).
Proof.
  destruct w as [|c w]; [done|]. rewrite string_app_cons. cbn [all_ws stop].
  intros [Hc _]%andb_true_iff _. auto.
Qed.

Lemma parse_value_ws f w s : all_ws w = true -> parse_value f (w ++ s) = parse_value f s.
Proof. intros Hw. destruct f; [done|]. cbn [parse_value]. by rewrite skip_ws_app. Qed.

Lemma parse_value_sp f s : parse_value f (String " " s) = parse_value f s.
Proof. exact (parse_value_ws f " " s eq_refl). Qed.

Lemma parse_members_ws f w s : all_ws w = true -> parse_members (S f) (w ++ s) = parse_members (S f) s.
Proof. intros Hw. cbn [parse_members]. by rewrite skip_ws_app. Qed.

Lemma parse_elems_last_ws f s v w rest :
  all_ws w = true -> parse_value f s = Some (v, w ++ String "]" rest) ->
  parse_elems (S f) s = Some ([v], rest).
Proof.
  intros Hw H. cbn [parse_elems]. rewrite H. cbn [mbind option_bind].
  rewrite skip_ws_app by done. reflexivity.
Qed.

Lemma parse_members_last_ws f k s v w rest :
  all_ws w = true -> parse_value f s = Some (v, w ++ String "}" rest) ->
  parse_members (S f) (quote k ++ String ":" s) = Some ([(k, v)], rest).
Proof.
  intros Hw H. rewrite quote_app. simpl. rewrite parse_chars_quoted. simpl. rewrite H. simpl.
  rewrite skip_ws_app by done. reflexivity.
Qed.

Lemma parse_value_open_arr_ws f w s :
  all_ws w = true -> value_head s ->
  parse_value (S f) (String "[" (w ++ s)) = '(l, r) ← parse_elems f (w ++ s); Some (JArr l, r).
Proof.
  intros Hw Hs. cbn [parse_value skip_ws]. replace (is_ws "[") with false by reflexivity.
  cbv iota. rewrite skip_ws_app, skip_ws_value_head by done.
  destruct Hs as (c & r & -> & _ & Hb & _). by rewrite Hb.
Qed.

Lemma parse_value_open_obj_ws f w r :
  all_ws w = true ->
  parse_value (S f) (String "{" (w ++ String quote_char r)) =
  '(l, r') ← parse_members f (w ++ String quote_char r); Some (JObj (obj_of_members l), r').
Proof.
  intros Hw. cbn [parse_value skip_ws]. replace (is_ws "{") with false by reflexivity.
  cbv iota. rewrite skip_ws_app by done. reflexivity.
Qed.

Lemma stringify_gap_head gap ind j : value_head (stringify_gap gap ind j).
Proof.
  destruct j as [| | | | |[|x l]|[|kv l]]; try apply stringify_head;
    cbn [stringify_gap]; cbv zeta; rewrite ?string_app_single;
    (eexists _, _; split; [reflexivity|done]).
Qed.

Lemma Forall_wf_imp {A} (R : json -> Prop) (g : A -> json) (l : list A) :
  Forall (fun x => json_wf (g x) -> R (g x)) l -> forallb (fun x => json_wfb (g x)) l = true ->
  Forall (fun x => R (g x)) l.
Proof.
  rewrite !Forall_forall, forallb_forall. intros IH Hwf x Hx.
  apply IH; [done|]. by apply Hwf, list_elem_of_In.
Qed.

Section Gap.
Variable gap : string.
Hypothesis Hgap : all_ws gap = true.

(** What the theorem below proves of every value: its indented text, at
    any indentation and followed by what may follow a value, is read
    back. *)
Definition reads_back_gap (j : json) : Prop :=
  forall ind f rest, all_ws ind = true -> 2 * String.length (stringify_gap gap ind j) < f -> stop rest ->
  parse_value f (stringify_gap gap ind j ++ rest) = Some (j, rest).

Lemma parse_elems_gap l ind w wend f rest :
  Forall reads_back_gap l -> l <> [] -> all_ws ind = true -> all_ws w = true -> all_ws wend = true ->
  2 * String.length (String.concat ("," ++ newline ++ ind) (map (stringify_gap gap ind) l)) + 1 < f ->
  parse_elems f (w ++ String.concat ("," ++ newline ++ ind) (map (stringify_gap gap ind) l) ++
                 wend ++ String "]" rest) = Some (l, rest).
Proof.
  revert w f. induction l as [|j l IH]; intros w f Hall Hne Hind Hw Hwend Hf; [done|].
  apply Forall_cons in Hall as [Hj Hl]. destruct f as [|f]; [lia|].
  destruct l as [|j2 l]; cbn [map String.concat] in *.
  - apply (parse_elems_last_ws _ _ _ wend); [done|].
    rewrite parse_value_ws by done. apply Hj; [done|lia|]. apply stop_ws; [done|cbn; auto].
  - rewrite !string_app_assoc, string_app_single. len_simpl.
    erewrite parse_elems_comma.
    2:{ rewrite parse_value_ws by done. apply Hj; [done|lia|]. cbn; auto. }
    rewrite <- (string_app_assoc newline ind), IH by (done || auto using all_ws_newline || lia).
    reflexivity.
Qed.

Definition member_gap (ind : string) (kv : string * json) : string :=
  quote kv.1 ++ ": " ++ stringify_gap gap ind kv.2.

Lemma parse_members_gap l ind w wend f rest :
  Forall (fun kv => reads_back_gap kv.2) l -> l <> [] -> all_ws ind = true -> all_ws w = true ->
  all_ws wend = true ->
  2 * String.length (String.concat ("," ++ newline ++ ind) (map (member_gap ind) l)) + 1 < f ->
  parse_members f (w ++ String.concat ("," ++ newline ++ ind) (map (member_gap ind) l) ++
                   wend ++ String "}" rest) = Some (l, rest).
Proof.
  revert w f. induction l as [|[k v] l IH]; intros w f Hall Hne Hind Hw Hwend Hf; [done|].
  apply Forall_cons in Hall as [Hv Hl]. cbn [snd] in Hv. destruct f as [|f]; [lia|].
  rewrite parse_members_ws by done. cbn [map] in Hf |- *. unfold member_gap at 1 in Hf. unfold member_gap at 1. cbn [fst snd] in Hf |- *.
  destruct l as [|kv2 l]; cbn [map String.concat] in *.
  - rewrite !string_app_assoc. change (": " ++ ?Y)%string with (String ":" (String " " Y)). len_simpl.
    apply (parse_members_last_ws _ _ _ _ wend); [done|].
    rewrite parse_value_sp. apply Hv; [done|lia|]. apply stop_ws; [done|cbn; auto].
  - rewrite !string_app_assoc. change (": " ++ ?Y)%string with (String ":" (String " " Y)).
    rewrite string_app_single. len_simpl.
    erewrite parse_members_comma.
    2:{ rewrite parse_value_sp. apply Hv; [done|lia|]. cbn; auto. }
    rewrite <- (string_app_assoc newline ind), IH by (done || auto using all_ws_newline || lia).
    reflexivity.
Qed.

Lemma members_gap_head ind kv l rest :
  exists r, (String.concat ("," ++ newline ++ ind) (map (member_gap ind) (kv :: l)) ++ rest)%string =
            String quote_char r.
Proof.
  destruct l; cbn [map String.concat]; unfold member_gap; rewrite ?string_app_assoc, quote_app; eauto.
Qed.

Lemma concat_gap_head ind j l :
  value_head (String.concat ("," ++ newline ++ ind) (map (stringify_gap gap ind) (j :: l))).
Proof.
  destruct l; cbn [map String.concat]; [|apply value_head_app]; apply stringify_gap_head.
Qed.

(** Every well-formed value reads back from its indented text. *)
Lemma stringify_gap_reads_back j : json_wf j -> reads_back_gap j.
Proof.
  unfold json_wf. induction j as [| b | z | m e | s | l IH | l IH] using json_ind';
    intros Hwf ind f rest Hind Hf Hr;
    try (by apply stringify_reads_back).
  - destruct f as [|f]; [lia|]. destruct l as [|j l]; [reflexivity|].
    cbn [stringify_gap json_wfb] in Hf, Hwf |- *. cbv zeta in Hf |- *.
    assert (Hi : all_ws (ind ++ gap) = true) by by apply all_ws_app.
    set (ind' := (ind ++ gap)%string) in Hi, Hf |- *.
    rewrite !string_app_assoc, (string_app_single "["), (string_app_single "]"), <- (string_app_assoc newline ind').
    rewrite parse_value_open_arr_ws by (auto using all_ws_newline, value_head_app, concat_gap_head).
    len_simpl. rewrite <- (string_app_assoc newline ind).
    rewrite parse_elems_gap by (done || auto using all_ws_newline || lia ||
      by apply (Forall_wf_imp reads_back_gap id)).
    reflexivity.
  - destruct f as [|f]; [lia|]. destruct l as [|kv l]; [reflexivity|].
    cbn [stringify_gap json_wfb] in Hf, Hwf |- *. cbv zeta in Hf |- *.
    apply andb_true_iff in Hwf as [Hnd Hwf]. apply bool_decide_eq_true in Hnd.
    assert (Hi : all_ws (ind ++ gap) = true) by by apply all_ws_app.
    set (ind' := (ind ++ gap)%string) in Hi, Hf |- *.
    fold (member_gap ind') in Hf |- *.
    rewrite !string_app_assoc, (string_app_single "{"), (string_app_single "}"), <- (string_app_assoc newline ind'),
      <- (string_app_assoc newline ind).
    destruct (members_gap_head ind' kv l ((newline ++ ind) ++ String "}" rest)) as [r Er].
    rewrite Er, parse_value_open_obj_ws, <- Er by auto using all_ws_newline. len_simpl.
    rewrite parse_members_gap by (done || auto using all_ws_newline || lia ||
      by apply (Forall_wf_imp reads_back_gap snd)).
    cbn -[obj_of_members]. by rewrite obj_of_members_nodup.
Qed.

End Gap.

(** [JSON.parse(JSON.stringify(v, null, gap))] gives back [v] for every
    well-formed value and every indentation made of white space. *)
Lemma parse_stringify_gap gap j :
  all_ws gap = true -> json_wf j -> parse (stringify_gap gap EmptyString j) = inr j.
Proof.
  intros Hgap Hwf. unfold parse.
  rewrite <- (string_app_nil_r (stringify_gap gap EmptyString j)) at 2.
  rewrite (stringify_gap_reads_back gap Hgap j Hwf EmptyString) by (done || lia).
  reflexivity.
Qed.

End Json.
