(* ===== verification/Date.v ===== *)
(** * [Date.prototype.toISOString]

    [trackSlideView] stamps each view with [new Date().toISOString()]
    (app.js 269) and the export with the same (app.js 446).  The clock of
    the model is the number of milliseconds since the epoch ([Date.now()]);
    this file turns it into the ISO text [YYYY-MM-DDTHH:mm:ss.sssZ] of the
    proleptic Gregorian calendar in UTC, with the six-digit signed year the
    engine prints outside [0, 9999].  The clock is assumed to stay within
    the range of JavaScript dates, where the engine never throws. *)

From S2P Require Import Prelude.
Open Scope string_scope.
Open Scope Z_scope.

Module Date.

Definition ms_per_day : Z := 86400000.

(** Year, month (1-12) and day (1-31) of a day number counted from
    1970-01-01, by eras of 400 years starting on March 1st. *)
Definition civil_from_days (days : Z) : Z * Z * Z :=
  let z := days + 719468 in
  let era := z / 146097 in
  let doe := z - era * 146097 in
  let yoe := (doe - doe / 1460 + doe / 36524 - doe / 146096) / 365 in
  let doy := doe - (365 * yoe + yoe / 4 - yoe / 100) in
  let mp := (5 * doy + 2) / 153 in
  let d := doy - (153 * mp + 2) / 5 + 1 in
  let m := if mp <? 10 then mp + 3 else mp - 9 in
  let y := yoe + era * 400 in
  (if m <=? 2 then y + 1 else y, m, d).

(** The day number of a date, the inverse of [civil_from_days]. *)
Definition days_from_civil (y m d : Z) : Z :=
  let y := if m <=? 2 then y - 1 else y in
  let era := y / 400 in
  let yoe := y - era * 400 in
  let mp := if m >? 2 then m - 3 else m + 9 in
  let doy := (153 * mp + 2) / 5 + d - 1 in
  let doe := yoe * 365 + yoe / 4 - yoe / 100 + doy in
  era * 146097 + doe - 719468.

(** The decimal digits of [n >= 0], padded with zeros to [w] digits. *)
Definition pad (w : nat) (n : Z) : string :=
  let s := pretty n in
  String.concat EmptyString (replicate (w - String.length s)%nat "0") ++ s.

Definition year_text (y : Z) : string :=
  if (0 <=? y) && (y <=? 9999) then pad 4 y
  else (if y <? 0 then "-" else "+") ++ pad 6 (Z.abs y).

Definition toISOString (t : Z) : string :=
  let days := t / ms_per_day in
  let ms := t mod ms_per_day in
  let '(y, m, d) := civil_from_days days in
  year_text y ++ "-" ++ pad 2 m ++ "-" ++ pad 2 d ++ "T" ++
  pad 2 (ms / 3600000) ++ ":" ++ pad 2 ((ms / 60000) mod 60) ++ ":" ++
  pad 2 ((ms / 1000) mod 60) ++ "." ++ pad 3 (ms mod 1000) ++ "Z".

Example toISOString_epoch : toISOString 0 = "1970-01-01T00:00:00.000Z".
Proof. reflexivity. Qed.

Example toISOString_2025 : toISOString 1735787045123 = "2025-01-02T03:04:05.123Z".
Proof. vm_compute. reflexivity. Qed.

End Date.
