(* ===== verification/Dom.v ===== *)
(** * The browser world the script runs in

    One record [World] holds everything the script reads or writes: the
    controller's fields [currentSlide] and [totalSlides] (app.js 5-6), the
    DOM elements it queries (slides, indicators, the two buttons, the two
    counters, the document title, the progress fill, the live regions of
    the announcements, the action-item checkboxes and their completion
    messages, the cards and metric values with hover effects), the
    fullscreen flag, the tab's sessionStorage, the console, the files the
    export saved, the pending timers, the clock ([Date.now()]) and the random
    source ([Math.random().toString(36)]).  The primitives the handlers
    call ([getItem], [setItem], [removeItem], [setTimeout], [console.log],
    [Date.now], [Math.random]) are computations of the [JS] monad on it.

    sessionStorage has three modes: usable; usable for reading but full or
    read-only, where [setItem] throws [QuotaExceededError]; and blocked,
    where every access throws [SecurityError].  These are the failures the
    [try]/[catch] blocks of the code absorb. *)

From S2P Require Import Prelude.
From S2P Require Import Json.
From Stdlib Require Import QArith.
Import Json.
Open Scope string_scope.

Module Dom.

Record Button := mkButton { btn_disabled : bool; btn_text : string }.

(** A [.slide] element: its [data-slide] attribute, whether it has the
    [active] class, its inline opacity and transform, and the text of
    its [.slide-title] and [.main-title] descendants when it has them. *)
Record SlideEl := mkSlide {
  sl_data : option string;
  sl_active : bool;
  sl_opacity : string;
  sl_transform : string;
  sl_title : option string;
  sl_main_title : option string
}.

Inductive StorageMode := StorageOk | StorageReadOnly | StorageBlocked.

Record Storage := mkStorage { st_items : gmap string string; st_mode : StorageMode }.

(** An [.action-checkbox] element (app.js 540): its text, its inline
    colour, its [data-completed] attribute, and whether it sits inside an
    [.action-item]. *)
Record Checkbox := mkCheckbox {
  cb_text : string;
  cb_color : string;
  cb_completed : option string;
  cb_in_item : bool
}.

(** A [ ✓ Completed!] message appended to the action item of checkbox
    [cm_box] (app.js 591-601), with its inline opacity. *)
Record Completion := mkCompletion { cm_id : nat; cm_box : nat; cm_opacity : string }.

(** An element given hover effects by [enhanceCards] or
    [addBusinessMetrics] (app.js 520-537, 620-637): its inline transform,
    box shadow, transition and colour; the empty string is a property
    that is not set inline. *)
Record Hover := mkHover {
  hv_transform : string;
  hv_boxShadow : string;
  hv_transition : string;
  hv_color : string
}.

(** The callbacks the script passes to [setTimeout]. *)
Inductive Task :=
| TRestoreSlide (i : nat)   (** the end of [animateSlideTransition], app.js 224-227 *)
| TAnnounce                 (** [announceSlide], app.js 401-419 *)
| TRemoveLive (id : nat)    (** the removal of an announcement, app.js 413-417 *)
| TMsgShow (id : nat)       (** the fade-in of a completion message, app.js 604-606 *)
| TMsgHide (id : nat)       (** its fade-out, app.js 609-616 *)
| TMsgRemove (id : nat).    (** its removal, app.js 611-615 *)

#[export] Instance Task_eq_dec : EqDecision Task.
Proof. solve_decision. Defined.

Record Timer := mkTimer { tm_due : Z; tm_seq : nat; tm_task : Task }.

Record World := mkWorld {
  currentSlide : Z;
  totalSlides : Z;
  slides : list SlideEl;
  indicators : list bool;
  prevBtn : option Button;
  nextBtn : option Button;
  currentSlideElement : option string;
  totalSlidesElement : option string;
  docTitle : string;
  progressFill : option Q;
  liveRegions : list (nat * string);
  fullscreen : bool;
  fullscreenSupported : bool;
  checkboxes : list Checkbox;
  completions : list Completion;
  cards : list Hover;
  metrics : list Hover;
  storage : Storage;
  consoleLog : list (string * option json);
  downloads : list (string * string);
  timers : list Timer;
  clock : Z;
  nextId : nat;
  randomSource : nat -> string;
  randomIndex : nat
}.

(** One setter per field that the script writes. *)
Definition set_currentSlide (v : Z) (w : World) : World :=
  {| currentSlide := v; totalSlides := totalSlides w; slides := slides w; indicators :=
     indicators w; prevBtn := prevBtn w; nextBtn := nextBtn w; currentSlideElement :=
     currentSlideElement w; totalSlidesElement := totalSlidesElement w; docTitle := docTitle w;
     progressFill := progressFill w; liveRegions := liveRegions w; fullscreen := fullscreen w;
     fullscreenSupported := fullscreenSupported w; checkboxes := checkboxes w; completions :=
     completions w; cards := cards w; metrics := metrics w; storage := storage w; consoleLog :=
     consoleLog w; downloads := downloads w; timers := timers w; clock := clock w; nextId :=
     nextId w; randomSource := randomSource w; randomIndex := randomIndex w |}.
Definition set_totalSlides (v : Z) (w : World) : World :=
  {| currentSlide := currentSlide w; totalSlides := v; slides := slides w; indicators :=
     indicators w; prevBtn := prevBtn w; nextBtn := nextBtn w; currentSlideElement :=
     currentSlideElement w; totalSlidesElement := totalSlidesElement w; docTitle := docTitle w;
     progressFill := progressFill w; liveRegions := liveRegions w; fullscreen := fullscreen w;
     fullscreenSupported := fullscreenSupported w; checkboxes := checkboxes w; completions :=
     completions w; cards := cards w; metrics := metrics w; storage := storage w; consoleLog :=
     consoleLog w; downloads := downloads w; timers := timers w; clock := clock w; nextId :=
     nextId w; randomSource := randomSource w; randomIndex := randomIndex w |}.
Definition set_slides (v : list SlideEl) (w : World) : World :=
  {| currentSlide := currentSlide w; totalSlides := totalSlides w; slides := v; indicators
     := indicators w; prevBtn := prevBtn w; nextBtn := nextBtn w; currentSlideElement :=
     currentSlideElement w; totalSlidesElement := totalSlidesElement w; docTitle := docTitle w;
     progressFill := progressFill w; liveRegions := liveRegions w; fullscreen := fullscreen w;
     fullscreenSupported := fullscreenSupported w; checkboxes := checkboxes w; completions :=
     completions w; cards := cards w; metrics := metrics w; storage := storage w; consoleLog :=
     consoleLog w; downloads := downloads w; timers := timers w; clock := clock w; nextId :=
     nextId w; randomSource := randomSource w; randomIndex := randomIndex w |}.
Definition set_indicators (v : list bool) (w : World) : World :=
  {| currentSlide := currentSlide w; totalSlides := totalSlides w; slides := slides w;
     indicators := v; prevBtn := prevBtn w; nextBtn := nextBtn w; currentSlideElement :=
     currentSlideElement w; totalSlidesElement := totalSlidesElement w; docTitle := docTitle w;
     progressFill := progressFill w; liveRegions := liveRegions w; fullscreen := fullscreen w;
     fullscreenSupported := fullscreenSupported w; checkboxes := checkboxes w; completions :=
     completions w; cards := cards w; metrics := metrics w; storage := storage w; consoleLog :=
     consoleLog w; downloads := downloads w; timers := timers w; clock := clock w; nextId :=
     nextId w; randomSource := randomSource w; randomIndex := randomIndex w |}.
Definition set_prevBtn (v : option Button) (w : World) : World :=
  {| currentSlide := currentSlide w; totalSlides := totalSlides w; slides := slides w;
     indicators := indicators w; prevBtn := v; nextBtn := nextBtn w; currentSlideElement :=
     currentSlideElement w; totalSlidesElement := totalSlidesElement w; docTitle := docTitle w;
     progressFill := progressFill w; liveRegions := liveRegions w; fullscreen := fullscreen w;
     fullscreenSupported := fullscreenSupported w; checkboxes := checkboxes w; completions :=
     completions w; cards := cards w; metrics := metrics w; storage := storage w; consoleLog :=
     consoleLog w; downloads := downloads w; timers := timers w; clock := clock w; nextId :=
     nextId w; randomSource := randomSource w; randomIndex := randomIndex w |}.
Definition set_nextBtn (v : option Button) (w : World) : World :=
  {| currentSlide := currentSlide w; totalSlides := totalSlides w; slides := slides w;
     indicators := indicators w; prevBtn := prevBtn w; nextBtn := v; currentSlideElement :=
     currentSlideElement w; totalSlidesElement := totalSlidesElement w; docTitle := docTitle w;
     progressFill := progressFill w; liveRegions := liveRegions w; fullscreen := fullscreen w;
     fullscreenSupported := fullscreenSupported w; checkboxes := checkboxes w; completions :=
     completions w; cards := cards w; metrics := metrics w; storage := storage w; consoleLog :=
     consoleLog w; downloads := downloads w; timers := timers w; clock := clock w; nextId :=
     nextId w; randomSource := randomSource w; randomIndex := randomIndex w |}.
Definition set_currentSlideElement (v : option string) (w : World) : World :=
  {| currentSlide := currentSlide w; totalSlides := totalSlides w; slides := slides w;
     indicators := indicators w; prevBtn := prevBtn w; nextBtn := nextBtn w;
     currentSlideElement := v; totalSlidesElement := totalSlidesElement w; docTitle := docTitle
     w; progressFill := progressFill w; liveRegions := liveRegions w; fullscreen := fullscreen
     w; fullscreenSupported := fullscreenSupported w; checkboxes := checkboxes w; completions
     := completions w; cards := cards w; metrics := metrics w; storage := storage w; consoleLog
     := consoleLog w; downloads := downloads w; timers := timers w; clock := clock w; nextId :=
     nextId w; randomSource := randomSource w; randomIndex := randomIndex w |}.
Definition set_totalSlidesElement (v : option string) (w : World) : World :=
  {| currentSlide := currentSlide w; totalSlides := totalSlides w; slides := slides w;
     indicators := indicators w; prevBtn := prevBtn w; nextBtn := nextBtn w;
     currentSlideElement := currentSlideElement w; totalSlidesElement := v; docTitle :=
     docTitle w; progressFill := progressFill w; liveRegions := liveRegions w; fullscreen :=
     fullscreen w; fullscreenSupported := fullscreenSupported w; checkboxes := checkboxes w;
     completions := completions w; cards := cards w; metrics := metrics w; storage := storage
     w; consoleLog := consoleLog w; downloads := downloads w; timers := timers w; clock :=
     clock w; nextId := nextId w; randomSource := randomSource w; randomIndex := randomIndex w
     |}.
Definition set_docTitle (v : string) (w : World) : World :=
  {| currentSlide := currentSlide w; totalSlides := totalSlides w; slides := slides w;
     indicators := indicators w; prevBtn := prevBtn w; nextBtn := nextBtn w;
     currentSlideElement := currentSlideElement w; totalSlidesElement := totalSlidesElement w;
     docTitle := v; progressFill := progressFill w; liveRegions := liveRegions w; fullscreen :=
     fullscreen w; fullscreenSupported := fullscreenSupported w; checkboxes := checkboxes w;
     completions := completions w; cards := cards w; metrics := metrics w; storage := storage
     w; consoleLog := consoleLog w; downloads := downloads w; timers := timers w; clock :=
     clock w; nextId := nextId w; randomSource := randomSource w; randomIndex := randomIndex w
     |}.
Definition set_progressFill (v : option Q) (w : World) : World :=
  {| currentSlide := currentSlide w; totalSlides := totalSlides w; slides := slides w;
     indicators := indicators w; prevBtn := prevBtn w; nextBtn := nextBtn w;
     currentSlideElement := currentSlideElement w; totalSlidesElement := totalSlidesElement w;
     docTitle := docTitle w; progressFill := v; liveRegions := liveRegions w; fullscreen :=
     fullscreen w; fullscreenSupported := fullscreenSupported w; checkboxes := checkboxes w;
     completions := completions w; cards := cards w; metrics := metrics w; storage := storage
     w; consoleLog := consoleLog w; downloads := downloads w; timers := timers w; clock :=
     clock w; nextId := nextId w; randomSource := randomSource w; randomIndex := randomIndex w
     |}.
Definition set_liveRegions (v : list (nat * string)) (w : World) : World :=
  {| currentSlide := currentSlide w; totalSlides := totalSlides w; slides := slides w;
     indicators := indicators w; prevBtn := prevBtn w; nextBtn := nextBtn w;
     currentSlideElement := currentSlideElement w; totalSlidesElement := totalSlidesElement w;
     docTitle := docTitle w; progressFill := progressFill w; liveRegions := v; fullscreen :=
     fullscreen w; fullscreenSupported := fullscreenSupported w; checkboxes := checkboxes w;
     completions := completions w; cards := cards w; metrics := metrics w; storage := storage
     w; consoleLog := consoleLog w; downloads := downloads w; timers := timers w; clock :=
     clock w; nextId := nextId w; randomSource := randomSource w; randomIndex := randomIndex w
     |}.
Definition set_fullscreen (v : bool) (w : World) : World :=
  {| currentSlide := currentSlide w; totalSlides := totalSlides w; slides := slides w;
     indicators := indicators w; prevBtn := prevBtn w; nextBtn := nextBtn w;
     currentSlideElement := currentSlideElement w; totalSlidesElement := totalSlidesElement w;
     docTitle := docTitle w; progressFill := progressFill w; liveRegions := liveRegions w;
     fullscreen := v; fullscreenSupported := fullscreenSupported w; checkboxes := checkboxes w;
     completions := completions w; cards := cards w; metrics := metrics w; storage := storage
     w; consoleLog := consoleLog w; downloads := downloads w; timers := timers w; clock :=
     clock w; nextId := nextId w; randomSource := randomSource w; randomIndex := randomIndex w
     |}.
Definition set_checkboxes (v : list Checkbox) (w : World) : World :=
  {| currentSlide := currentSlide w; totalSlides := totalSlides w; slides := slides w;
     indicators := indicators w; prevBtn := prevBtn w; nextBtn := nextBtn w;
     currentSlideElement := currentSlideElement w; totalSlidesElement := totalSlidesElement w;
     docTitle := docTitle w; progressFill := progressFill w; liveRegions := liveRegions w;
     fullscreen := fullscreen w; fullscreenSupported := fullscreenSupported w; checkboxes := v;
     completions := completions w; cards := cards w; metrics := metrics w; storage := storage
     w; consoleLog := consoleLog w; downloads := downloads w; timers := timers w; clock :=
     clock w; nextId := nextId w; randomSource := randomSource w; randomIndex := randomIndex w
     |}.
Definition set_completions (v : list Completion) (w : World) : World :=
  {| currentSlide := currentSlide w; totalSlides := totalSlides w; slides := slides w;
     indicators := indicators w; prevBtn := prevBtn w; nextBtn := nextBtn w;
     currentSlideElement := currentSlideElement w; totalSlidesElement := totalSlidesElement w;
     docTitle := docTitle w; progressFill := progressFill w; liveRegions := liveRegions w;
     fullscreen := fullscreen w; fullscreenSupported := fullscreenSupported w; checkboxes :=
     checkboxes w; completions := v; cards := cards w; metrics := metrics w; storage := storage
     w; consoleLog := consoleLog w; downloads := downloads w; timers := timers w; clock :=
     clock w; nextId := nextId w; randomSource := randomSource w; randomIndex := randomIndex w
     |}.
Definition set_cards (v : list Hover) (w : World) : World :=
  {| currentSlide := currentSlide w; totalSlides := totalSlides w; slides := slides w;
     indicators := indicators w; prevBtn := prevBtn w; nextBtn := nextBtn w;
     currentSlideElement := currentSlideElement w; totalSlidesElement := totalSlidesElement w;
     docTitle := docTitle w; progressFill := progressFill w; liveRegions := liveRegions w;
     fullscreen := fullscreen w; fullscreenSupported := fullscreenSupported w; checkboxes :=
     checkboxes w; completions := completions w; cards := v; metrics := metrics w; storage :=
     storage w; consoleLog := consoleLog w; downloads := downloads w; timers := timers w; clock
     := clock w; nextId := nextId w; randomSource := randomSource w; randomIndex := randomIndex
     w |}.
Definition set_metrics (v : list Hover) (w : World) : World :=
  {| currentSlide := currentSlide w; totalSlides := totalSlides w; slides := slides w;
     indicators := indicators w; prevBtn := prevBtn w; nextBtn := nextBtn w;
     currentSlideElement := currentSlideElement w; totalSlidesElement := totalSlidesElement w;
     docTitle := docTitle w; progressFill := progressFill w; liveRegions := liveRegions w;
     fullscreen := fullscreen w; fullscreenSupported := fullscreenSupported w; checkboxes :=
     checkboxes w; completions := completions w; cards := cards w; metrics := v; storage :=
     storage w; consoleLog := consoleLog w; downloads := downloads w; timers := timers w; clock
     := clock w; nextId := nextId w; randomSource := randomSource w; randomIndex := randomIndex
     w |}.
Definition set_storage (v : Storage) (w : World) : World :=
  {| currentSlide := currentSlide w; totalSlides := totalSlides w; slides := slides w;
     indicators := indicators w; prevBtn := prevBtn w; nextBtn := nextBtn w;
     currentSlideElement := currentSlideElement w; totalSlidesElement := totalSlidesElement w;
     docTitle := docTitle w; progressFill := progressFill w; liveRegions := liveRegions w;
     fullscreen := fullscreen w; fullscreenSupported := fullscreenSupported w; checkboxes :=
     checkboxes w; completions := completions w; cards := cards w; metrics := metrics w;
     storage := v; consoleLog := consoleLog w; downloads := downloads w; timers := timers w;
     clock := clock w; nextId := nextId w; randomSource := randomSource w; randomIndex :=
     randomIndex w |}.
Definition set_consoleLog (v : list (string * option json)) (w : World) : World :=
  {| currentSlide := currentSlide w; totalSlides := totalSlides w; slides := slides w;
     indicators := indicators w; prevBtn := prevBtn w; nextBtn := nextBtn w;
     currentSlideElement := currentSlideElement w; totalSlidesElement := totalSlidesElement w;
     docTitle := docTitle w; progressFill := progressFill w; liveRegions := liveRegions w;
     fullscreen := fullscreen w; fullscreenSupported := fullscreenSupported w; checkboxes :=
     checkboxes w; completions := completions w; cards := cards w; metrics := metrics w;
     storage := storage w; consoleLog := v; downloads := downloads w; timers := timers w; clock
     := clock w; nextId := nextId w; randomSource := randomSource w; randomIndex := randomIndex
     w |}.
Definition set_downloads (v : list (string * string)) (w : World) : World :=
  {| currentSlide := currentSlide w; totalSlides := totalSlides w; slides := slides w;
     indicators := indicators w; prevBtn := prevBtn w; nextBtn := nextBtn w;
     currentSlideElement := currentSlideElement w; totalSlidesElement := totalSlidesElement w;
     docTitle := docTitle w; progressFill := progressFill w; liveRegions := liveRegions w;
     fullscreen := fullscreen w; fullscreenSupported := fullscreenSupported w; checkboxes :=
     checkboxes w; completions := completions w; cards := cards w; metrics := metrics w;
     storage := storage w; consoleLog := consoleLog w; downloads := v; timers := timers w;
     clock := clock w; nextId := nextId w; randomSource := randomSource w; randomIndex :=
     randomIndex w |}.
Definition set_timers (v : list Timer) (w : World) : World :=
  {| currentSlide := currentSlide w; totalSlides := totalSlides w; slides := slides w;
     indicators := indicators w; prevBtn := prevBtn w; nextBtn := nextBtn w;
     currentSlideElement := currentSlideElement w; totalSlidesElement := totalSlidesElement w;
     docTitle := docTitle w; progressFill := progressFill w; liveRegions := liveRegions w;
     fullscreen := fullscreen w; fullscreenSupported := fullscreenSupported w; checkboxes :=
     checkboxes w; completions := completions w; cards := cards w; metrics := metrics w;
     storage := storage w; consoleLog := consoleLog w; downloads := downloads w; timers := v;
     clock := clock w; nextId := nextId w; randomSource := randomSource w; randomIndex :=
     randomIndex w |}.
Definition set_nextId (v : nat) (w : World) : World :=
  {| currentSlide := currentSlide w; totalSlides := totalSlides w; slides := slides w;
     indicators := indicators w; prevBtn := prevBtn w; nextBtn := nextBtn w;
     currentSlideElement := currentSlideElement w; totalSlidesElement := totalSlidesElement w;
     docTitle := docTitle w; progressFill := progressFill w; liveRegions := liveRegions w;
     fullscreen := fullscreen w; fullscreenSupported := fullscreenSupported w; checkboxes :=
     checkboxes w; completions := completions w; cards := cards w; metrics := metrics w;
     storage := storage w; consoleLog := consoleLog w; downloads := downloads w; timers :=
     timers w; clock := clock w; nextId := v; randomSource := randomSource w; randomIndex :=
     randomIndex w |}.
Definition set_randomIndex (v : nat) (w : World) : World :=
  {| currentSlide := currentSlide w; totalSlides := totalSlides w; slides := slides w;
     indicators := indicators w; prevBtn := prevBtn w; nextBtn := nextBtn w;
     currentSlideElement := currentSlideElement w; totalSlidesElement := totalSlidesElement w;
     docTitle := docTitle w; progressFill := progressFill w; liveRegions := liveRegions w;
     fullscreen := fullscreen w; fullscreenSupported := fullscreenSupported w; checkboxes :=
     checkboxes w; completions := completions w; cards := cards w; metrics := metrics w;
     storage := storage w; consoleLog := consoleLog w; downloads := downloads w; timers :=
     timers w; clock := clock w; nextId := nextId w; randomSource := randomSource w;
     randomIndex := v |}.
Definition set_clock (v : Z) (w : World) : World :=
  {| currentSlide := currentSlide w; totalSlides := totalSlides w; slides := slides w;
     indicators := indicators w; prevBtn := prevBtn w; nextBtn := nextBtn w;
     currentSlideElement := currentSlideElement w; totalSlidesElement := totalSlidesElement w;
     docTitle := docTitle w; progressFill := progressFill w; liveRegions := liveRegions w;
     fullscreen := fullscreen w; fullscreenSupported := fullscreenSupported w; checkboxes :=
     checkboxes w; completions := completions w; cards := cards w; metrics := metrics w;
     storage := storage w; consoleLog := consoleLog w; downloads := downloads w; timers :=
     timers w; clock := v; nextId := nextId w; randomSource := randomSource w; randomIndex :=
     randomIndex w |}.

(** ** Primitives of the page *)

Abbreviation M := (JS World).

Definition set_storage_items (items : gmap string string) (w : World) : World :=
  set_storage (mkStorage items (st_mode (storage w))) w.

(** [sessionStorage.getItem(k)]: [null] is [None]. *)
Definition getItem (k : string) : M (option string) :=
  fun w => match st_mode (storage w) with
           | StorageBlocked => (inl SecurityError, w)
           | _ => (inr (st_items (storage w) !! k), w)
           end.

(** [sessionStorage.setItem(k, v)] *)
Definition setItem (k v : string) : M unit :=
  fun w => match st_mode (storage w) with
           | StorageBlocked => (inl SecurityError, w)
           | StorageReadOnly => (inl QuotaExceededError, w)
           | StorageOk => (inr tt, set_storage_items (<[k := v]> (st_items (storage w))) w)
           end.

(** [sessionStorage.removeItem(k)] *)
Definition removeItem (k : string) : M unit :=
  fun w => match st_mode (storage w) with
           | StorageBlocked => (inl SecurityError, w)
           | _ => (inr tt, set_storage_items (delete k (st_items (storage w))) w)
           end.

(** [console.log(msg)] and [console.log(msg, obj)] *)
Definition console_log (msg : string) (arg : option json) : M unit :=
  js_modify (fun w => set_consoleLog (consoleLog w ++ [(msg, arg)]) w).

(** A fresh identifier for a timer or a created element. *)
Definition fresh_id : M nat :=
  fun w => (inr (nextId w), set_nextId (S (nextId w)) w).

(** [setTimeout(task, delay)]: the timer is due [delay] ms from now. *)
Definition setTimeout (t : Task) (delay : Z) : M unit :=
  i ← fresh_id;
  js_modify (fun w => set_timers (timers w ++ [mkTimer (clock w + delay) i t]) w).

(** [Date.now()] *)
Definition dateNow : M Z := js_gets clock.

(** [Math.random().toString(36)]: the next value of the random source. *)
Definition randomBase36 : M string :=
  fun w => (inr (randomSource w (randomIndex w)), set_randomIndex (S (randomIndex w)) w).

(** ** Frame lemmas: the primitives leave the page alone *)

(** Everything of the world that is not the environment (storage,
    console, timers, clock, identifiers, random source). *)
Definition page (w : World) :=
  (currentSlide w, totalSlides w, slides w, indicators w, prevBtn w, nextBtn w,
   currentSlideElement w, totalSlidesElement w, docTitle w, progressFill w,
   liveRegions w, fullscreen w, checkboxes w, completions w).

(** The page with the pending timers, the clock and the identifier
    counter: what storage, console, clock and random primitives keep. *)
Definition stage (w : World) := (page w, timers w, clock w, nextId w).

Lemma keeps_page_of_stage {A} (c : M A) : keeps stage c -> keeps page c.
Proof. intros H. exact (keeps_compose stage (fun p => p.1.1.1) c H). Qed.

Lemma keeps_stage_getItem k : keeps stage (getItem k).
Proof. intros w. unfold getItem. by destruct (st_mode (storage w)). Qed.

Lemma keeps_stage_setItem k v : keeps stage (setItem k v).
Proof. intros w. unfold setItem. by destruct (st_mode (storage w)). Qed.

Lemma keeps_stage_removeItem k : keeps stage (removeItem k).
Proof. intros w. unfold removeItem. by destruct (st_mode (storage w)). Qed.

Lemma keeps_stage_console_log msg arg : keeps stage (console_log msg arg).
Proof. intros w. reflexivity. Qed.

Lemma keeps_stage_dateNow : keeps stage dateNow.
Proof. intros w. reflexivity. Qed.

Lemma keeps_stage_randomBase36 : keeps stage randomBase36.
Proof. intros w. reflexivity. Qed.

Lemma keeps_page_setTimeout t d : keeps page (setTimeout t d).
Proof. intros w. reflexivity. Qed.

Lemma keeps_page_fresh_id : keeps page fresh_id.
Proof. intros w. reflexivity. Qed.

#[export] Hint Resolve keeps_stage_getItem keeps_stage_setItem keeps_stage_removeItem
  keeps_stage_console_log keeps_stage_dateNow keeps_stage_randomBase36
  keeps_page_setTimeout keeps_page_fresh_id : deck.

Lemma stage_slides w w' : stage w = stage w' -> slides w = slides w'.
Proof. unfold stage, page. intros H. by simplify_eq. Qed.

Lemma stage_timers w w' : stage w = stage w' -> timers w = timers w'.
Proof. unfold stage. intros H. by simplify_eq. Qed.

Lemma page_current w w' : page w = page w' -> currentSlide w = currentSlide w'.
Proof. unfold page. intros H. by simplify_eq. Qed.

Lemma page_slides w w' : page w = page w' -> slides w = slides w'.
Proof. unfold page. intros H. by simplify_eq. Qed.

(** ** Facts about the setters *)

Lemma storage_set_storage_items items w :
  storage (set_storage_items items w) = mkStorage items (st_mode (storage w)).
Proof. reflexivity. Qed.

(** Reduce projections of setters, and nothing else. *)
Ltac world_simpl :=
  cbn [currentSlide totalSlides slides indicators prevBtn nextBtn currentSlideElement
       totalSlidesElement docTitle progressFill liveRegions fullscreen fullscreenSupported
       checkboxes completions cards metrics storage consoleLog downloads timers clock nextId
       randomSource randomIndex
       set_currentSlide set_totalSlides set_slides set_indicators set_prevBtn set_nextBtn
       set_currentSlideElement set_totalSlidesElement set_docTitle set_progressFill
       set_liveRegions set_fullscreen set_checkboxes set_completions set_cards set_metrics
       set_storage set_consoleLog set_downloads set_timers set_nextId set_randomIndex set_clock] in *.

End Dom.
