(* ===== verification/Display.v ===== *)
(** * The display synchroniser

    [updateDisplay], [updateButtonStates] and [updatePageTitle] (app.js
    104-162) project the controller's [currentSlide] onto the page: the
    [active] class of the slides and of the indicator dots, the slide
    counter, the document title and the two buttons.  The theorems show
    that after a render the page shows exactly the current slide and that
    rendering is idempotent, which the resize and tab-refocus handlers
    (app.js 691-708) rely on when they call [updateDisplay] again.

    [document.querySelector('[data-slide="n"]')] returns the first element
    of the document with that attribute; the model takes the slides in
    document order and assumes, as the page's markup must for the deck to
    work, that no other element before them carries [data-slide]. *)

From S2P Require Import Prelude.
From S2P Require Import Registry.
From S2P Require Import Dom.
Import Dom.
Open Scope string_scope.

Module Display.

Definition deactivate (s : SlideEl) : SlideEl :=
  mkSlide (sl_data s) false (sl_opacity s) (sl_transform s) (sl_title s) (sl_main_title s).

Definition activate (s : SlideEl) : SlideEl :=
  mkSlide (sl_data s) true (sl_opacity s) (sl_transform s) (sl_title s) (sl_main_title s).

(** The text of [${n}] for a slide number. *)
Definition slide_key (c : Z) : string := pretty c.

(** The index of the element [document.querySelector] finds. *)
Fixpoint slide_index (k : string) (ss : list SlideEl) : option nat :=
  match ss with
  | [] => None
  | s :: r => if decide (sl_data s = Some k) then Some 0 else S <$> slide_index k r
  end.

(** [currentSlideElement.classList.add('active')] on that element. *)
Fixpoint activate_first (k : string) (ss : list SlideEl) : list SlideEl :=
  match ss with
  | [] => []
  | s :: r => if decide (sl_data s = Some k) then activate s :: r else s :: activate_first k r
  end.

(** [indicator.classList.toggle('active', index + 1 === this.currentSlide)] *)
Definition indicator_states (c : Z) (inds : list bool) : list bool :=
  imap (fun i _ => bool_decide (Z.of_nat i + 1 = c)%Z) inds.

(** [updatePageTitle] (app.js 143-162) *)
Definition updatePageTitle : M unit :=
  c ← js_gets currentSlide;
  js_modify (set_docTitle (Registry.pageTitle c)).

(** [updateDisplay] (app.js 104-129) *)
Definition updateDisplay : M unit :=
  js_modify (fun w => set_slides (map deactivate (slides w)) w) ;;
  c ← js_gets currentSlide;
  js_modify (fun w => set_slides (activate_first (slide_key c) (slides w)) w) ;;
  js_modify (fun w => set_indicators (indicator_states c (indicators w)) w) ;;
  js_modify (fun w => set_currentSlideElement
                        (const (slide_key c) <$> currentSlideElement w) w) ;;
  updatePageTitle.

Definition prev_button (c : Z) : Button :=
  mkButton (bool_decide (c = 1)%Z)
           (if bool_decide (c = 1)%Z then "First Slide" else "← Previous").

Definition next_button (c t : Z) : Button :=
  mkButton (bool_decide (c = t)) (if bool_decide (c = t) then "Final Slide" else "Next →").

(** [updateButtonStates] (app.js 131-141) *)
Definition updateButtonStates : M unit :=
  c ← js_gets currentSlide;
  t ← js_gets totalSlides;
  js_modify (fun w => set_prevBtn (const (prev_button c) <$> prevBtn w) w) ;;
  js_modify (fun w => set_nextBtn (const (next_button c t) <$> nextBtn w) w).

(** The two renders every transition performs, in the code's order. *)
Definition sync : M unit := updateDisplay ;; updateButtonStates.

(** ** What a rendered page shows

    The [active] slide is the one [querySelector] finds for the current
    number, the active indicator is the one at position [current - 1],
    and the counter, the title and the buttons show the current number. *)
Definition rendered (w : World) : Prop :=
  let c := currentSlide w in
  (forall i s, slides w !! i = Some s ->
     sl_active s = true <-> slide_index (slide_key c) (slides w) = Some i) /\
  (forall i b, indicators w !! i = Some b -> b = true <-> (Z.of_nat i + 1 = c)%Z) /\
  (forall x, currentSlideElement w = Some x -> x = slide_key c) /\
  docTitle w = Registry.pageTitle c /\
  (forall b, prevBtn w = Some b ->
     btn_disabled b = bool_decide (c = 1)%Z /\
     btn_text b = if bool_decide (c = 1)%Z then "First Slide" else "← Previous") /\
  (forall b, nextBtn w = Some b ->
     btn_disabled b = bool_decide (c = totalSlides w) /\
     btn_text b = if bool_decide (c = totalSlides w) then "Final Slide" else "Next →").

(** ** The deck's page

    The page the script starts on: twelve [.slide] sections numbered by
    [data-slide] 1 to 12, each with its [.slide-title], twelve indicator
    dots, the two buttons and the two counters, four open action-item
    checkboxes, three cards and two metric values without inline styles,
    an empty sessionStorage, and the clock at 2025-01-02T03:04:05.123Z.  [deck_start] is the page
    after the first render of [init] (app.js 28-29). *)
Definition deck_slide (i : nat) (title : string) : SlideEl :=
  mkSlide (Some (pretty (Z.of_nat i + 1)%Z)) false EmptyString EmptyString (Some title) None.

Definition deck_page : World := {|
  currentSlide := 1; totalSlides := 12;
  slides := imap deck_slide Registry.slideTitles;
  indicators := replicate 12 false;
  prevBtn := Some (mkButton false "← Previous");
  nextBtn := Some (mkButton false "Next →");
  currentSlideElement := Some "1"; totalSlidesElement := Some "12";
  docTitle := Registry.baseTitle; progressFill := None; liveRegions := [];
  fullscreen := false; fullscreenSupported := true;
  checkboxes := replicate 4 (mkCheckbox "□" EmptyString None true); completions := [];
  cards := replicate 3 (mkHover EmptyString EmptyString EmptyString EmptyString);
  metrics := replicate 2 (mkHover EmptyString EmptyString EmptyString EmptyString);
  storage := mkStorage ∅ StorageOk; consoleLog := []; downloads := []; timers := [];
  clock := 1735787045123; nextId := 0;
  randomSource := fun _ => "0.4fzyo82mvyr"; randomIndex := 0 |}.

Definition deck_start : World := exec sync deck_page.

(** ** Lemmas on the slide list *)

Lemma slide_index_map_deactivate k ss : slide_index k (map deactivate ss) = slide_index k ss.
Proof. induction ss as [|s r IH]; simpl; [done|]. case_decide; by rewrite ?IH. Qed.

Lemma slide_index_activate_first k k' ss :
  slide_index k (activate_first k' ss) = slide_index k ss.
Proof.
  induction ss as [|s r IH]; simpl; [done|].
  destruct (decide (sl_data s = Some k')); simpl; [done|].
  case_decide; by rewrite ?IH.
Qed.

Lemma activate_first_lookup k ss i s :
  Forall (fun s => sl_active s = false) ss ->
  activate_first k ss !! i = Some s ->
  sl_active s = true <-> slide_index k ss = Some i.
Proof.
  revert i. induction ss as [|s0 r IH]; intros i Hall Hi; [done|].
  inversion Hall as [|? ? Hs0 Hr]; subst. simpl in *. case_decide.
  - destruct i as [|j]; simpl in Hi; simplify_eq; simpl; [done|].
    rewrite (Forall_lookup_1 _ _ _ _ Hr Hi). split; congruence.
  - destruct i as [|j]; simpl in Hi; simplify_eq.
    + rewrite Hs0. split; [done|]. by destruct (slide_index k r).
    + rewrite (IH j Hr Hi). destruct (slide_index k r); simpl; split; congruence.
Qed.

Lemma map_deactivate_inactive ss : Forall (fun s => sl_active s = false) (map deactivate ss).
Proof. apply Forall_forall. intros s Hs. apply list_elem_of_fmap in Hs as (? & -> & _). done. Qed.

Lemma map_deactivate_activate_first k ss :
  map deactivate (activate_first k ss) = map deactivate ss.
Proof. induction ss as [|s r IH]; simpl; [done|]. case_decide; simpl; by rewrite ?IH. Qed.

Lemma map_deactivate_idem ss : map deactivate (map deactivate ss) = map deactivate ss.
Proof. rewrite map_map. by apply map_ext. Qed.

Lemma indicator_states_lookup c inds i b :
  indicator_states c inds !! i = Some b -> b = bool_decide (Z.of_nat i + 1 = c)%Z.
Proof.
  unfold indicator_states. rewrite list_lookup_imap.
  destruct (inds !! i); simpl; congruence.
Qed.

Lemma indicator_states_idem c inds :
  indicator_states c (indicator_states c inds) = indicator_states c inds.
Proof.
  apply list_eq. intros i. unfold indicator_states. rewrite !list_lookup_imap.
  by destruct (inds !! i).
Qed.

(** ** The render as a function of the world *)

Definition render (w : World) : World :=
  let c := currentSlide w in
  set_docTitle (Registry.pageTitle c)
    (set_currentSlideElement (const (slide_key c) <$> currentSlideElement w)
      (set_indicators (indicator_states c (indicators w))
        (set_slides (activate_first (slide_key c) (map deactivate (slides w))) w))).

Lemma updateDisplay_run w : updateDisplay w = (inr tt, render w).
Proof. reflexivity. Qed.

Definition render_buttons (w : World) : World :=
  set_nextBtn (const (next_button (currentSlide w) (totalSlides w)) <$> nextBtn w)
    (set_prevBtn (const (prev_button (currentSlide w)) <$> prevBtn w) w).

Lemma updateButtonStates_run w : updateButtonStates w = (inr tt, render_buttons w).
Proof. reflexivity. Qed.

Lemma sync_run w : sync w = (inr tt, render_buttons (render w)).
Proof. reflexivity. Qed.

Lemma exec_sync w : exec sync w = render_buttons (render w).
Proof. by rewrite sync_run. Qed.

Lemma slides_sync w :
  slides (exec sync w) = activate_first (slide_key (currentSlide w)) (map deactivate (slides w)).
Proof. by rewrite exec_sync. Qed.

Lemma stage_sync_env w :
  timers (exec sync w) = timers w /\ clock (exec sync w) = clock w /\
  nextId (exec sync w) = nextId w /\ currentSlide (exec sync w) = currentSlide w.
Proof. by rewrite exec_sync. Qed.

Lemma updateDisplay_total : total updateDisplay.
Proof. intros w. exists tt. by rewrite updateDisplay_run. Qed.

Lemma updateButtonStates_total : total updateButtonStates.
Proof. intros w. exists tt. by rewrite updateButtonStates_run. Qed.

#[export] Hint Resolve updateDisplay_total updateButtonStates_total : deck.

#[export] Hint Rewrite updateDisplay_run updateButtonStates_run sync_run : deck_rw.

(** ** Theorems *)

Lemma rendered_exec_sync w : rendered (exec sync w).
Proof.
  rewrite sync_run. simpl.
  split; [|split; [|split; [|split; [|split]]]]; simpl.
  - intros i s Hs. rewrite slide_index_activate_first.
    apply (activate_first_lookup _ _ _ _ (map_deactivate_inactive _) Hs).
  - intros i b Hb. apply indicator_states_lookup in Hb. subst b.
    rewrite bool_decide_eq_true. done.
  - intros x Hx. destruct (currentSlideElement w); simpl in Hx; congruence.
  - done.
  - intros b Hb. destruct (prevBtn w); simpl in Hb; simplify_eq. done.
  - intros b Hb. destruct (nextBtn w); simpl in Hb; simplify_eq. done.
Qed.

(** A page that shows its slide still does after [updateDisplay] alone:
    the buttons it does not touch were right. *)
Lemma rendered_render w : rendered w -> rendered (render w).
Proof.
  intros (_ & _ & _ & _ & Hp & Hn).
  destruct (rendered_exec_sync w) as (H1 & H2 & H3 & H4 & _ & _). rewrite exec_sync in H1, H2, H3, H4.
  split_and!; [exact H1 | exact H2 | exact H3 | exact H4 | exact Hp | exact Hn].
Qed.

Lemma render_idem w : render (render w) = render w.
Proof.
  destruct w. unfold render. simpl.
  rewrite map_deactivate_activate_first, map_deactivate_idem, indicator_states_idem.
  by destruct currentSlideElement0.
Qed.

(** C20: After the two renders of a transition ([updateDisplay] then
    [updateButtonStates]) the page shows the current slide and nothing
    else, whatever it showed before. *)
Theorem sync_rendered w : rendered (exec sync w).
Proof. apply rendered_exec_sync. Qed.

(** C21: Rendering twice in a row shows the same page as rendering once: the
    repeated [updateDisplay] of the resize and visibility handlers leaves
    no drift. *)
Theorem updateDisplay_idempotent : (updateDisplay ;; updateDisplay) =js= updateDisplay.
Proof.
  intros w. change ((updateDisplay ;; updateDisplay) w) with (updateDisplay (render w)).
  rewrite !updateDisplay_run. by rewrite render_idem.
Qed.

(** On a rendered page exactly one slide is active when some slide
    carries the current number, and it is that slide. *)
Lemma rendered_one_active_slide w :
  rendered w -> forall i, slide_index (slide_key (currentSlide w)) (slides w) = Some i ->
  exists s, slides w !! i = Some s /\ sl_active s = true /\
            forall j s', slides w !! j = Some s' -> sl_active s' = true -> j = i.
Proof.
  intros [Hs _] i Hi.
  assert (is_Some (slides w !! i)) as [s Hsi].
  { clear Hs. revert i Hi. induction (slides w) as [|s0 r IH]; intros i Hi; simpl in Hi; [done|].
    case_decide; [simplify_eq; by eexists|].
    destruct (slide_index _ r) eqn:E; simpl in Hi; simplify_eq. simpl. by apply IH. }
  exists s. split; [done|]. split; [by apply (Hs i s Hsi)|].
  intros j s' Hj Ha. apply (Hs j s' Hj) in Ha. congruence.
Qed.

(** ** What the page shows depends only on its view

    The view forgets the inline styles of the slides, the progress bar,
    the announcements and the whole environment. *)
Definition slide_state (s : SlideEl) : option string * bool := (sl_data s, sl_active s).

Definition view (w : World) :=
  (currentSlide w, totalSlides w, map slide_state (slides w), indicators w,
   currentSlideElement w, docTitle w, prevBtn w, nextBtn w).

Lemma slide_index_states k ss ss' :
  map slide_state ss = map slide_state ss' -> slide_index k ss = slide_index k ss'.
Proof.
  revert ss'. induction ss as [|s r IH]; intros [|s' r'] H; simpl in *; try done.
  unfold slide_state in H. injection H as Hd _ Hr. rewrite Hd. by rewrite (IH r' Hr).
Qed.

Lemma lookup_states ss ss' i s' :
  map slide_state ss = map slide_state ss' -> ss' !! i = Some s' ->
  exists s, ss !! i = Some s /\ sl_active s = sl_active s'.
Proof.
  intros H Hi. assert (map slide_state ss !! i = Some (slide_state s')) as Hl.
  { by rewrite H, list_lookup_fmap, Hi. }
  rewrite list_lookup_fmap in Hl. destruct (ss !! i) as [s|]; simplify_eq.
  exists s. split; [done|]. by injection Hl.
Qed.

Lemma rendered_view w w' : view w = view w' -> rendered w -> rendered w'.
Proof.
  unfold view, rendered. intros Hv. simplify_eq.
  repeat match goal with H : (_, _) = (_, _) |- _ => injection H as H end.
  intros (Hs & Hi & Hc & Ht & Hp & Hn).
  repeat match goal with H : ?x = ?y |- _ => rewrite <- H; clear H end.
  split; [|split; [|split; [|split; [|split]]]]; try done.
  intros i s' Hs'.
  destruct (lookup_states (slides w) (slides w') i s') as (s & Hsi & Ha); [done..|].
  rewrite <- Ha, <- (slide_index_states _ (slides w)) by done. by apply Hs.
Qed.

(** A computation that keeps the page keeps the view. *)
Lemma keeps_view_of_page {A} (c : M A) : keeps page c -> keeps view c.
Proof.
  intros H w. specialize (H w). unfold page in H. injection H. intros. unfold view. congruence.
Qed.

(** ** Witnesses on the deck's page *)

Lemma rendered_one_active_slide_witness :
  exists s, slides deck_start !! 0%nat = Some s /\ sl_active s = true /\
            forall j s', slides deck_start !! j = Some s' -> sl_active s' = true -> j = 0%nat.
Proof.
  apply rendered_one_active_slide; [apply rendered_exec_sync | vm_compute; reflexivity].
Defined.

End Display.
