(* ===== verification/Analytics.v ===== *)
(** * View analytics: titles, session id and the view history

    [getCurrentSlideTitle], [getSessionId] and [trackSlideView] (app.js
    254-304).  Each transition records a view [{slide, timestamp,
    slideTitle, sessionId}] in the JSON array stored under
    [clancyPresentationViews], keeping the last 50.  Every access to
    sessionStorage is inside a [try]: the theorems show that none of these
    operations throws, whatever the storage does, and what each storage
    mode leaves behind.  With a usable storage the history survives the
    round trip through [JSON.stringify] and [JSON.parse] from one view to
    the next ([trackSlideView_history], which runs the view as a chain of
    [triple]s) and the session id is stable.  [stored_views] is what the
    next view reads, [views_slot] the slot it reads it from. *)

From S2P Require Import Prelude.
From S2P Require Import Json.
From S2P Require Import Date.
From S2P Require Import Dom.
From S2P Require Import Display.
Import Dom Json.
Open Scope string_scope.

Module Analytics.

(** [document.querySelector('.slide.active')] *)
Fixpoint first_active (ss : list SlideEl) : option SlideEl :=
  match ss with
  | [] => None
  | s :: r => if sl_active s then Some s else first_active r
  end.

Definition slide_fallback_title (c : Z) : string := "Slide " ++ pretty c.

(** The title found in a slide: its [.slide-title], else its
    [.main-title], else the fallback [Slide n]. *)
Definition title_of (c : Z) (s : SlideEl) : string :=
  match sl_title s with
  | Some t => t
  | None => match sl_main_title s with
            | Some t => t
            | None => slide_fallback_title c
            end
  end.

(** [getCurrentSlideTitle] (app.js 254-262) *)
Definition getCurrentSlideTitle : M string :=
  ss ← js_gets slides;
  c ← js_gets currentSlide;
  js_ret (match first_active ss with
          | Some s => title_of c s
          | None => slide_fallback_title c
          end).

Definition session_key : string := "clancySessionId".

(** A new session id, stored for the next calls. *)
Definition new_session_id : M string :=
  t ← dateNow;
  r ← randomBase36;
  let sid := "session_" ++ pretty t ++ "_" ++ String.substring 2 9 r in
  setItem session_key sid ;;
  js_ret sid.

(** [getSessionId] (app.js 293-304): an empty stored id counts as none
    ([if (!sessionId)]); any exception gives a time-based id. *)
Definition getSessionId : M string :=
  js_try
    (sid ← getItem session_key;
     match sid with
     | Some s => if js_truthy s then js_ret s else new_session_id
     | None => new_session_id
     end)
    (fun _ => t ← dateNow; js_ret ("session_" ++ pretty t)).

Definition views_key : string := "clancyPresentationViews".

(** The JSON text of an empty array, [ '[]' ]. *)
Definition empty_array_text : string := "[]".

(** [const slideData = {...}] *)
Definition slideData (n : Z) (timestamp title sid : string) : json :=
  JObj [("slide", JNum n); ("timestamp", JStr timestamp);
        ("slideTitle", JStr title); ("sessionId", JStr sid)].

(** [JSON.parse] throws its [SyntaxError]. *)
Definition json_parse (s : string) : M json :=
  match Json.parse s with
  | inl e => js_throw e
  | inr j => js_ret j
  end.

(** [sessionStorage.getItem(k) || '[]'] *)
Definition or_empty_array (raw : option string) : string :=
  match raw with
  | Some s => if js_truthy s then s else empty_array_text
  | None => empty_array_text
  end.

(** The history after a push and the [splice] to the last 50. *)
Definition push_view (hist : list json) (data : json) : list json :=
  keep_last 50 (hist ++ [data]).

(** [JSON.parse(sessionStorage.getItem('clancyPresentationViews') || '[]')]
    (app.js 278, and 438 in the export). *)
Definition read_views : M json :=
  raw ← getItem views_key;
  json_parse (or_empty_array raw).

(** The body of the [try] of [trackSlideView]: [push] on a parsed value
    that is not an array throws a [TypeError]. *)
Definition store_view (data : json) : M unit :=
  hist ← read_views;
  match hist with
  | JArr l => setItem views_key (stringify (JArr (push_view l data)))
  | _ => js_throw TypeError
  end.

(** [trackSlideView] (app.js 265-291) *)
Definition trackSlideView (n : Z) : M unit :=
  t ← dateNow;
  title ← getCurrentSlideTitle;
  sid ← getSessionId;
  let data := slideData n (Date.toISOString t) title sid in
  console_log ("Clancy Brothers Presentation - Slide " ++ pretty n ++ " viewed:") (Some data) ;;
  js_try (store_view data)
    (fun _ => console_log "Storage not available, tracking views in memory only" None).

(** ** The history as the next view reads it *)

(** The slot of the history in sessionStorage, and the storage mode. *)
Definition views_slot (w : World) : option string * StorageMode :=
  (st_items (storage w) !! views_key, st_mode (storage w)).

(** The history the next [trackSlideView] reads,
    [JSON.parse(sessionStorage.getItem('clancyPresentationViews') || '[]')],
    when it is an array. *)
Definition stored_views (w : World) : option (list json) :=
  match Json.parse (or_empty_array (st_items (storage w) !! views_key)) with
  | inr (JArr l) => Some l
  | _ => None
  end.

(** ** Lemmas *)

Lemma getCurrentSlideTitle_run w :
  getCurrentSlideTitle w =
  (inr (match first_active (slides w) with
        | Some s => title_of (currentSlide w) s
        | None => slide_fallback_title (currentSlide w)
        end), w).
Proof. reflexivity. Qed.

Lemma getSessionId_total : total getSessionId.
Proof.
  apply total_try. intros e. unfold dateNow. eauto with deck.
Qed.

Lemma trackSlideView_total n : total (trackSlideView n).
Proof.
  unfold trackSlideView, dateNow.
  apply total_bind; [apply total_gets|]; intros t.
  apply total_bind; [intros w; by eexists|]; intros title.
  apply total_bind; [apply getSessionId_total|]; intros sid.
  apply total_bind; [apply total_modify|]; intros [].
  apply total_try. intros e. apply total_modify.
Qed.

(** ** Frame lemmas: reading titles and recording views leave the page alone *)

Lemma keeps_stage_getCurrentSlideTitle : keeps stage getCurrentSlideTitle.
Proof. intros w. reflexivity. Qed.

Lemma keeps_stage_getSessionId : keeps stage getSessionId.
Proof. unfold getSessionId, new_session_id. keeps_tac. Qed.

Lemma keeps_stage_trackSlideView n : keeps stage (trackSlideView n).
Proof.
  unfold trackSlideView, store_view, read_views, json_parse.
  keeps_tac; auto using keeps_stage_getCurrentSlideTitle, keeps_stage_getSessionId.
Qed.

Lemma keeps_page_trackSlideView n : keeps page (trackSlideView n).
Proof. apply keeps_page_of_stage, keeps_stage_trackSlideView. Qed.

#[export] Hint Resolve keeps_stage_getCurrentSlideTitle keeps_stage_getSessionId
  keeps_stage_trackSlideView keeps_page_trackSlideView : deck.

(** ** Frame lemmas: the history slot *)

Lemma keeps_views_getItem k : keeps views_slot (getItem k).
Proof. intros w. unfold getItem. by destruct (st_mode (storage w)). Qed.

Lemma keeps_views_setItem k v : k <> views_key -> keeps views_slot (setItem k v).
Proof.
  intros Hk w. unfold setItem, views_slot.
  destruct (st_mode (storage w)) eqn:E; cbn [snd]; rewrite ?storage_set_storage_items; cbn;
    rewrite ?E; [|done..].
  by rewrite lookup_insert_ne.
Qed.

Lemma keeps_views_console_log msg arg : keeps views_slot (console_log msg arg).
Proof. intros w. reflexivity. Qed.

Lemma keeps_views_getSessionId : keeps views_slot getSessionId.
Proof.
  unfold getSessionId, new_session_id, dateNow.
  keeps_tac; first [apply keeps_views_getItem | apply keeps_views_setItem; discriminate
                   | intros w; reflexivity].
Qed.

Lemma store_view_triple raw hist d :
  Json.parse (or_empty_array raw) = inr (JArr hist) ->
  triple (fun w => views_slot w = (raw, StorageOk)) (store_view d)
    (fun _ w => views_slot w = (Some (stringify (JArr (push_view hist d))), StorageOk)).
Proof.
  intros Hp w Hw. injection Hw as Hraw Hmode.
  unfold store_view, read_views, getItem, json_parse. js_simpl. rewrite Hmode, Hraw, Hp.
  unfold setItem. rewrite Hmode. unfold views_slot.
  rewrite storage_set_storage_items. cbn. by rewrite lookup_insert_eq, Hmode.
Qed.

(** With a usable storage, a view stores the history it read with the new
    view pushed. *)
Lemma trackSlideView_triple n raw hist t0 :
  Json.parse (or_empty_array raw) = inr (JArr hist) ->
  triple (fun w => views_slot w = (raw, StorageOk) /\ clock w = t0) (trackSlideView n)
    (fun _ w => exists title sid, views_slot w =
       (Some (stringify (JArr (push_view hist (slideData n (Date.toISOString t0) title sid)))),
        StorageOk)).
Proof.
  intros Hp. unfold trackSlideView, dateNow.
  apply triple_mbind with (Q := fun t w => t = t0 /\ views_slot w = (raw, StorageOk)).
  { apply triple_gets. intros w [H1 H2]. done. }
  intros t. apply triple_pure_pre. intros ->.
  apply triple_mbind with (Q := fun _ w => views_slot w = (raw, StorageOk)).
  { apply triple_of_keeps; [intros w; by eexists | intros w; reflexivity]. }
  intros title.
  apply triple_mbind with (Q := fun _ w => views_slot w = (raw, StorageOk)).
  { apply triple_of_keeps; [apply getSessionId_total | apply keeps_views_getSessionId]. }
  intros sid.
  apply triple_mbind with (Q := fun _ w => views_slot w = (raw, StorageOk)).
  { apply triple_of_keeps; [apply total_modify | apply keeps_views_console_log]. }
  intros _. apply triple_try.
  eapply triple_conseq; [by apply store_view_triple | done |].
  intros a w Hw. by exists title, sid.
Qed.

Lemma Forall_keep_last {A} (P : A -> Prop) n l : Forall P l -> Forall P (keep_last n l).
Proof.
  intros H. destruct (keep_last_suffix n l) as [p Hp].
  rewrite Hp, Forall_app in H. by destruct H.
Qed.

Lemma json_wf_arr_inv l : json_wf (JArr l) -> Forall json_wf l.
Proof.
  unfold json_wf. cbn [json_wfb]. intros H. apply Forall_forall. intros x Hx.
  apply (proj1 (forallb_forall _ _) H), list_elem_of_In, Hx.
Qed.

Lemma json_wf_slideData n ts title sid : json_wf (slideData n ts title sid).
Proof. reflexivity. Qed.

(** A history read from storage, with a view pushed, reads back. *)
Lemma stored_push_view raw hist d w :
  Json.parse (or_empty_array raw) = inr (JArr hist) -> json_wf d ->
  st_items (storage w) !! views_key = Some (stringify (JArr (push_view hist d))) ->
  stored_views w = Some (push_view hist d).
Proof.
  intros Hp Hd Hw. unfold stored_views. rewrite Hw. cbn [or_empty_array].
  replace (js_truthy _) with true by reflexivity.
  rewrite parse_of_reads_back; [done|]. apply stringify_reads_back, json_wf_arr.
  apply Forall_keep_last, Forall_app. split; [|by constructor].
  by apply json_wf_arr_inv, (parse_wf (or_empty_array raw)).
Qed.

(** ** A history that is not an array *)

Lemma stored_views_slot w w' : views_slot w = views_slot w' -> stored_views w = stored_views w'.
Proof. unfold views_slot, stored_views. intros H. injection H as H _. by rewrite H. Qed.

(** With a stored text that is not a JSON array, [store_view] throws
    before it writes anything. *)
Lemma store_view_stuck d w : stored_views w = None -> exec (store_view d) w = w.
Proof.
  unfold stored_views, store_view, read_views, getItem, json_parse. intros H. js_simpl.
  destruct (st_mode (storage w)); try reflexivity;
    destruct (Json.parse _) as [e|[]]; done.
Qed.

(** The slot of the history, with a text that is not an array. *)
Definition stuck_slot (v : option string * StorageMode) (w : World) : Prop :=
  views_slot w = v /\ stored_views w = None.

Lemma preserves_stuck_of_keeps {A} v (c : M A) : keeps views_slot c -> preserves (stuck_slot v) c.
Proof.
  apply preserves_of_keeps. intros w w' E [H1 H2]. split; [congruence|].
  by rewrite <- (stored_views_slot _ _ E).
Qed.

Lemma keeps_views_getCurrentSlideTitle : keeps views_slot getCurrentSlideTitle.
Proof. intros w. reflexivity. Qed.

Lemma trackSlideView_stuck n v : preserves (stuck_slot v) (trackSlideView n).
Proof.
  unfold trackSlideView, dateNow.
  apply preserves_mbind; [apply preserves_gets|intros t].
  apply preserves_mbind; [apply preserves_stuck_of_keeps, keeps_views_getCurrentSlideTitle|intros title].
  apply preserves_mbind; [apply preserves_stuck_of_keeps, keeps_views_getSessionId|intros sid].
  apply preserves_mbind; [apply preserves_stuck_of_keeps, keeps_views_console_log|intros _].
  apply preserves_try; [|intros e; apply preserves_stuck_of_keeps, keeps_views_console_log].
  intros w [H1 H2]. rewrite store_view_stuck by done. by split.
Qed.

(** ** Theorems *)

(** C27: Recording a view never throws, whatever sessionStorage does (usable,
    full or read-only, blocked), and leaves the page untouched: the
    slides, the indicators, the buttons, the counters and the title. *)
Theorem trackSlideView_safe n w :
  returns (trackSlideView n) w /\ page (exec (trackSlideView n) w) = page w.
Proof. split; [apply trackSlideView_total | apply keeps_page_trackSlideView]. Qed.

(** One push and [splice] keeps at most 50 views, ends with the new view
    and drops only the oldest ones. *)
Theorem push_view_spec hist d :
  length (push_view hist d) = Nat.min 50 (length hist + 1) /\
  last (push_view hist d) = Some d /\
  exists dropped, (hist ++ [d])%list = (dropped ++ push_view hist d)%list.
Proof.
  unfold push_view. split_and!.
  - rewrite length_keep_last, length_app. simpl. lia.
  - apply keep_last_snoc_last. lia.
  - apply keep_last_suffix.
Qed.

(** C28: The history is a buffer of the last 50 views: pushing views one at a
    time gives the last 50 of all the views, as one [splice] at the end
    would. *)
Theorem push_views_last50 hist ds :
  fold_left push_view ds (keep_last 50 hist) = keep_last 50 (hist ++ ds).
Proof.
  revert hist. induction ds as [|d ds IH]; intros hist; simpl.
  - by rewrite app_nil_r.
  - unfold push_view at 2. rewrite keep_last_snoc, IH. by rewrite <- app_assoc.
Qed.

(** C11: With a usable sessionStorage that holds a history array, recording
    a view of slide [n] leaves under [clancyPresentationViews] a text that
    the next view parses back as that history with the view
    [{slide: n, timestamp: new Date().toISOString(), slideTitle,
    sessionId}] pushed and cut to the last 50: the history survives the
    round trip through [JSON.stringify] and [JSON.parse], whatever the
    titles and ids hold. *)
Theorem trackSlideView_history n w hist :
  st_mode (storage w) = StorageOk -> stored_views w = Some hist ->
  exists title sid,
    stored_views (exec (trackSlideView n) w) =
      Some (push_view hist (slideData n (Date.toISOString (clock w)) title sid)).
Proof.
  intros Hmode Hw. unfold stored_views in Hw.
  destruct (Json.parse _) as [|[]] eqn:Hp in Hw; simplify_eq.
  pose proof (trackSlideView_triple n _ hist (clock w) Hp w) as H.
  ospecialize (H _); [unfold views_slot; by rewrite Hmode|].
  destruct (trackSlideView n w) as [[e|u] w']; [done|]. destruct H as (title & sid & Hs).
  exists title, sid. injection Hs as Hs _. eapply stored_push_view; eauto using json_wf_slideData.
Qed.

(** C26: With a usable sessionStorage, the session id is stable: the id
    [getSessionId] returns is stored, and the next call returns it again,
    whether the first call found an id or made one. *)
Theorem getSessionId_stable w :
  st_mode (storage w) = StorageOk ->
  fst (getSessionId (exec getSessionId w)) = fst (getSessionId w).
Proof.
  intros Hmode. unfold getSessionId, new_session_id, getItem, setItem, randomBase36, dateNow.
  js_simpl. rewrite Hmode.
  destruct (st_items (storage w) !! session_key) as [s|] eqn:E; [destruct (js_truthy s) eqn:T|];
    cbn; rewrite ?Hmode, ?E, ?T; cbn; rewrite ?Hmode, ?lookup_insert_eq; try reflexivity.
Qed.

Lemma trackSlideView_history_witness :
  let hist := [slideData 2 "2025-01-02T03:00:00.000Z" "Early Years" "session_1"] in
  let w := set_storage_items {[views_key := stringify (JArr hist)]} Display.deck_page in
  st_mode (storage w) = StorageOk /\ stored_views w = Some hist /\
  exists title sid, stored_views (exec (trackSlideView 3) w) =
    Some (push_view hist (slideData 3 (Date.toISOString (clock w)) title sid)).
Proof.
  intros hist w. split_and!; [reflexivity | vm_compute; reflexivity |].
  apply trackSlideView_history; [reflexivity | vm_compute; reflexivity].
Defined.

Lemma getSessionId_stable_witness :
  st_mode (storage Display.deck_page) = StorageOk /\
  fst (getSessionId (exec getSessionId Display.deck_page)) = fst (getSessionId Display.deck_page).
Proof. split; [reflexivity | apply getSessionId_stable; reflexivity]. Defined.

(** C16: Once the text stored under [clancyPresentationViews] is not a
    JSON array (not JSON at all, or another value), no later view is
    recorded: whatever slides are viewed, the stored text and the
    storage mode stay as they are, since [trackSlideView] throws inside
    its [try] before [setItem] and never rewrites the history. *)
Theorem corrupt_history_blocks_views ns w :
  stored_views w = None ->
  views_slot (exec (js_forEach trackSlideView ns) w) = views_slot w.
Proof.
  intros H. apply (preserves_forEach (stuck_slot (views_slot w))); [|by split].
  intros n _. apply trackSlideView_stuck.
Qed.

Lemma corrupt_history_blocks_views_witness :
  let w := set_storage_items {[views_key := "{}"]} Display.deck_page in
  stored_views w = None /\
  views_slot (exec (js_forEach trackSlideView [2; 3; 4]%Z) w) = views_slot w.
Proof. intros w. split; [vm_compute; reflexivity | apply corrupt_history_blocks_views; vm_compute; reflexivity]. Defined.

End Analytics.

