(* ===== verification/DataExport.v ===== *)
(** * The data export: [window.exportClancyPresentationData]

    [addBusinessFeatures] (app.js 431-463) puts on [window] a function
    that builds an object [data] of the presentation (its name and title,
    the controller's two counters, the view history parsed from
    sessionStorage, five business figures, the date and the session id),
    downloads [JSON.stringify(data, null, 2)] as a file, and logs the
    outcome; any exception is caught and logged.

    The download goes through a [Blob], an object URL and a temporary
    anchor that is clicked and removed: of all this only the saved file
    is observable, and [download] appends it to [downloads] of the world.
    The fields of the literal are evaluated in the order they are
    written, so that a history that cannot be read stops the export
    before [getSessionId] runs.

    The theorems: when the history reads, the export saves exactly one
    file, the indented JSON of [data] with the history as read, the
    counters of the controller and the session id [getSessionId] gives,
    and logs its success, and [JSON.parse] reads that file back as the
    exported object; when it does not (a blocked storage, a text
    that is not JSON), the export saves nothing, stores no session id and
    only logs the failure. *)

From S2P Require Import Prelude.
From S2P Require Import Json.
From S2P Require Import Date.
From S2P Require Import Dom.
From S2P Require Import Display.
From S2P Require Import Analytics.
Import Json Dom Analytics.
Open Scope string_scope.

Module DataExport.

(** ** The exported object *)

Definition companyName : string := "Clancy Brothers Pest Control LLC".

Definition presentationTitle : string :=
  "2025 Performance Analysis & MailChimp Integration Strategy".

(** [businessMetrics] (app.js 439-445): each figure is the decimal the
    code writes, which is the one [JSON.stringify] prints back. *)
Definition businessMetrics : json :=
  JObj [("ytdRevenue", JDec 322441055 2); ("avgMonthlyRevenue", JDec 35826784 2);
        ("peakMonth", JStr "August"); ("peakRevenue", JDec 61908698 2);
        ("majorContractsPercentage", JDec 275 1)].

(** The literal [data] (app.js 433-448), from the values of its fields. *)
Definition export_data (t c : Z) (hist : json) (date sid : string) : json :=
  JObj [("companyName", JStr companyName); ("presentationTitle", JStr presentationTitle);
        ("totalSlides", JNum t); ("currentSlide", JNum c); ("viewHistory", hist);
        ("businessMetrics", businessMetrics); ("exportDate", JStr date);
        ("sessionId", JStr sid)].

(** [a.download] (app.js 454) *)
Definition export_file : string := "clancy-brothers-presentation-data.json".

(** ** The function *)

(** Saving [text] as the file [name]: the [Blob], its object URL, the
    anchor appended, clicked and removed, and the URL revoked (app.js
    450-457). *)
Definition download (name text : string) : M unit :=
  js_modify (fun w => set_downloads (downloads w ++ [(name, text)]) w).

Definition export_ok_message : string :=
  "Clancy Brothers presentation data exported successfully".

Definition export_failed_message : string :=
  "Export functionality not available in this environment:".

(** An exception as [console.log] shows it, by its name. *)
Definition exn_name (e : Exn) : string :=
  match e with
  | TypeError => "TypeError"
  | SyntaxError => "SyntaxError"
  | SecurityError => "SecurityError"
  | QuotaExceededError => "QuotaExceededError"
  end.

(** The body of the [try] (app.js 433-459), on the page as the bound
    controller sees it: the fields of [data] in the order of the
    literal, the download, and the log. *)
Definition export_body : M unit :=
  t ← js_gets totalSlides;
  c ← js_gets currentSlide;
  hist ← read_views;
  now ← dateNow;
  sid ← getSessionId;
  download export_file
    (stringify_gap "  " EmptyString (export_data t c hist (Date.toISOString now) sid)) ;;
  console_log export_ok_message None.

(** [window.exportClancyPresentationData] (app.js 431-463) *)
Definition exportClancyPresentationData : M unit :=
  js_try export_body (fun e => console_log export_failed_message (Some (JStr (exn_name e)))).

(** ** Lemmas *)

Lemma read_views_state w : snd (read_views w) = w.
Proof.
  unfold read_views, getItem, json_parse. js_simpl.
  destruct (st_mode (storage w)); try reflexivity; by destruct (Json.parse _).
Qed.

Lemma read_views_run w : read_views w = (fst (read_views w), w).
Proof. rewrite <- (read_views_state w) at 3. by destruct (read_views w). Qed.

(** What [getSessionId] cannot touch: the saved files and the console. *)
Definition outputs (w : World) := (downloads w, consoleLog w).

Lemma keeps_outputs_getSessionId : keeps outputs getSessionId.
Proof.
  unfold getSessionId, new_session_id, dateNow.
  keeps_tac; intros w; unfold getItem, setItem, randomBase36;
    by destruct (st_mode (storage w)).
Qed.

Lemma getSessionId_run w : exists sid, getSessionId w = (inr sid, exec getSessionId w).
Proof.
  destruct (getSessionId_total w) as [sid Hs]. exists sid.
  destruct (getSessionId w) as [r w']. by cbn in Hs |- *; subst.
Qed.

(** The run of the body when the history reads as [v]. *)
Lemma export_body_run w v sid w1 :
  read_views w = (inr v, w) -> getSessionId w = (inr sid, w1) ->
  export_body w =
    (inr tt, set_consoleLog (consoleLog w1 ++ [(export_ok_message, None)])
               (set_downloads (downloads w1 ++ [(export_file, stringify_gap "  " EmptyString
                  (export_data (totalSlides w) (currentSlide w) v (Date.toISOString (clock w)) sid))])
                  w1)).
Proof.
  intros Hr Hs. unfold export_body, dateNow.
  rewrite (run_mbind _ _ w (totalSlides w) w), (run_mbind _ _ w (currentSlide w) w),
    (run_mbind _ _ w v w), (run_mbind _ _ w (clock w) w), (run_mbind _ _ w sid w1) by done.
  reflexivity.
Qed.

Lemma keeps_stage_export : keeps stage exportClancyPresentationData.
Proof.
  unfold exportClancyPresentationData, export_body, read_views, json_parse, download, dateNow.
  keeps_tac.
Qed.

Lemma total_export : total exportClancyPresentationData.
Proof. apply total_try. intros e. apply total_modify. Qed.

#[export] Hint Resolve keeps_stage_export total_export : deck.



(** The run of the export when the history reads as [v]. *)
Lemma export_success w v :
  fst (read_views w) = inr v ->
  exists sid, fst (getSessionId w) = inr sid /\
    downloads (exec exportClancyPresentationData w) =
      (downloads w ++ [(export_file, stringify_gap "  " EmptyString
        (export_data (totalSlides w) (currentSlide w) v (Date.toISOString (clock w)) sid))])%list /\
    consoleLog (exec exportClancyPresentationData w) = (consoleLog w ++ [(export_ok_message, None)])%list.
Proof.
  intros Hv. destruct (getSessionId_run w) as [sid Hs]. exists sid. rewrite Hs.
  pose proof (keeps_outputs_getSessionId w) as Ho. injection Ho as Hd Hc.
  assert (Hr : read_views w = (inr v, w)) by (rewrite read_views_run; by rewrite Hv).
  unfold exportClancyPresentationData, js_try. rewrite (export_body_run w v sid _ Hr Hs).
  cbn. by rewrite Hd, Hc.
Qed.

(** ** Theorems *)

(** C14: When the view history reads (the storage is not blocked and its
    text, or ['[]'], is JSON), the export saves exactly one file,
    [clancy-brothers-presentation-data.json], holding
    [JSON.stringify(data, null, 2)] of the object with the controller's
    counters, the history as read, the date of the clock and the session
    id [getSessionId] returns, and logs its success. *)
Theorem export_downloads w v :
  fst (read_views w) = inr v ->
  exists sid, fst (getSessionId w) = inr sid /\
    downloads (exec exportClancyPresentationData w) =
      (downloads w ++ [(export_file, stringify_gap "  " EmptyString
        (export_data (totalSlides w) (currentSlide w) v (Date.toISOString (clock w)) sid))])%list /\
    consoleLog (exec exportClancyPresentationData w) = (consoleLog w ++ [(export_ok_message, None)])%list.
Proof. apply export_success. Qed.


(** C13: When the view history cannot be read (a blocked storage throws
    [SecurityError], a text that is not JSON [SyntaxError]), the export
    saves no file, stores no session id and changes nothing but the
    console, where it logs the failure with the exception. *)
Theorem export_read_error w e :
  fst (read_views w) = inl e ->
  exec exportClancyPresentationData w =
    set_consoleLog (consoleLog w ++ [(export_failed_message, Some (JStr (exn_name e)))]) w.
Proof.
  intros He. unfold exportClancyPresentationData, js_try, export_body.
  rewrite (run_mbind _ _ w (totalSlides w) w), (run_mbind _ _ w (currentSlide w) w) by done.
  unfold mbind at 1, js_mbind, js_bind. rewrite read_views_run, He. reflexivity.
Qed.

Lemma export_downloads_witness :
  let w := set_storage_items {[views_key := stringify (JArr [JObj [("slide", JNum 1)]])]}
             Display.deck_page in
  fst (read_views w) = inr (JArr [JObj [("slide", JNum 1)]]) /\
  exists sid, fst (getSessionId w) = inr sid /\
    downloads (exec exportClancyPresentationData w) =
      (downloads w ++ [(export_file, stringify_gap "  " EmptyString
        (export_data (totalSlides w) (currentSlide w) (JArr [JObj [("slide", JNum 1)]])
           (Date.toISOString (clock w)) sid))])%list /\
    consoleLog (exec exportClancyPresentationData w) = (consoleLog w ++ [(export_ok_message, None)])%list.
Proof.
  intros w. split; [vm_compute; reflexivity|]. apply export_downloads. vm_compute. reflexivity.
Defined.

Lemma export_read_error_witness :
  let w := set_storage_items {[views_key := "[1,"]} Display.deck_page in
  fst (read_views w) = inl SyntaxError /\
  exec exportClancyPresentationData w =
    set_consoleLog (consoleLog w ++ [(export_failed_message, Some (JStr (exn_name SyntaxError)))]) w.
Proof.
  intros w. split; [vm_compute; reflexivity|]. apply export_read_error. vm_compute. reflexivity.
Defined.


(** The text of the business figures as the file shows them. *)
Example businessMetrics_text :
  stringify businessMetrics =
  "{" ++ quote "ytdRevenue" ++ ":3224410.55," ++ quote "avgMonthlyRevenue" ++ ":358267.84," ++
  quote "peakMonth" ++ ":" ++ quote "August" ++ "," ++ quote "peakRevenue" ++ ":619086.98," ++
  quote "majorContractsPercentage" ++ ":27.5}".
Proof. vm_compute. reflexivity. Qed.

End DataExport.
