(* ===== verification/Navigation.v ===== *)
(** * The navigation state machine

    The controller's three transitions [nextSlide], [previousSlide] and
    [goToSlide] (app.js 73-102), the transition animation
    [animateSlideTransition] (app.js 217-229) and [getProgress] (app.js
    245-252).  A transition changes [currentSlide] under its guard, then
    renders ([updateDisplay], [updateButtonStates]), animates the newly
    active slide and records the view.  A call whose guard fails does
    nothing at all.

    The theorems: the bound invariant [1 <= currentSlide <= totalSlides]
    and the rendered page are preserved by every transition and hold in
    every state reachable by transitions; the result of each transition on
    each branch; the direction of the animation; the bounds of the
    progress percentage. *)

From S2P Require Import Prelude.
From S2P Require Import Registry.
From S2P Require Import Json.
From S2P Require Import Dom.
From S2P Require Import Display.
From S2P Require Import Analytics.
Import Dom Display Analytics.
Open Scope string_scope.

Module Navigation.

(** The [direction] argument, ['next'] or ['prev']. *)
Inductive Direction := DirNext | DirPrev.

Definition transform_of (d : Direction) : string :=
  match d with
  | DirNext => "translateX(-15px)"
  | DirPrev => "translateX(15px)"
  end.

(** [document.querySelector('.slide.active')], as an index. *)
Fixpoint first_active_index (ss : list SlideEl) : option nat :=
  match ss with
  | [] => None
  | s :: r => if sl_active s then Some 0 else S <$> first_active_index r
  end.

Definition set_style (opacity transform : string) (s : SlideEl) : SlideEl :=
  mkSlide (sl_data s) (sl_active s) opacity transform (sl_title s) (sl_main_title s).

(** [animateSlideTransition(direction)] (app.js 217-229): the active
    slide fades out and shifts, and a timer restores it 50 ms later. *)
Definition animateSlideTransition (d : Direction) : M unit :=
  ss ← js_gets slides;
  match first_active_index ss with
  | Some i =>
      js_modify (fun w => set_slides (alter (set_style "0" (transform_of d)) i (slides w)) w) ;;
      setTimeout (TRestoreSlide i) 50
  | None => js_ret tt
  end.

(** The four calls every transition makes after changing the slide
    (app.js 76-79, repeated at 86-89 and 97-100). *)
Definition after_transition (d : Direction) : M unit :=
  updateDisplay ;;
  updateButtonStates ;;
  animateSlideTransition d ;;
  c ← js_gets currentSlide;
  trackSlideView c.

(** [nextSlide] (app.js 73-81) *)
Definition nextSlide : M unit :=
  c ← js_gets currentSlide;
  t ← js_gets totalSlides;
  js_when (c <? t)%Z
    (js_modify (fun w => set_currentSlide (currentSlide w + 1)%Z w) ;;
     after_transition DirNext).

(** [previousSlide] (app.js 83-91) *)
Definition previousSlide : M unit :=
  c ← js_gets currentSlide;
  js_when (1 <? c)%Z
    (js_modify (fun w => set_currentSlide (currentSlide w - 1)%Z w) ;;
     after_transition DirPrev).

(** [goToSlide(slideNumber)] (app.js 93-102) *)
Definition goToSlide (n : Z) : M unit :=
  c ← js_gets currentSlide;
  t ← js_gets totalSlides;
  js_when ((1 <=? n) && (n <=? t) && negb (n =? c))%Z
    (let d := if (c <? n)%Z then DirNext else DirPrev in
     js_modify (set_currentSlide n) ;;
     after_transition d).

(** [Math.round((c / t) * 100)], on exact rationals: the floor of
    [100 c / t + 1/2]. *)
Definition round_percentage (c t : Z) : Z := ((200 * c + t) / (2 * t))%Z.

Record Progress := mkProgress {
  pr_currentSlide : Z;
  pr_totalSlides : Z;
  pr_percentage : Z;
  pr_slideTitle : string
}.

(** [getProgress] (app.js 245-252) *)
Definition getProgress : M Progress :=
  c ← js_gets currentSlide;
  t ← js_gets totalSlides;
  title ← getCurrentSlideTitle;
  js_ret (mkProgress c t (round_percentage c t) title).

(** ** The state machine *)

Inductive nav_op := OpNext | OpPrev | OpGoTo (n : Z).

Definition run_op (op : nav_op) : M unit :=
  match op with
  | OpNext => nextSlide
  | OpPrev => previousSlide
  | OpGoTo n => goToSlide n
  end.

(** One transition of the controller, whatever the call. *)
Inductive nav_step : World -> World -> Prop :=
| nav_step_op op w : nav_step w (exec (run_op op) w).

Definition bounded (w : World) : Prop := (1 <= currentSlide w <= totalSlides w)%Z.

(** The invariant of the controller: the slide number is in range and the
    page shows it. *)
Definition nav_wf (w : World) : Prop := bounded w /\ rendered w.

Definition nav_of (w : World) : Z * Z := (currentSlide w, totalSlides w).

(** ** Lemmas: what each part of a transition changes *)

Lemma map_slide_state_alter_style i o tr ss :
  map slide_state (alter (set_style o tr) i ss) = map slide_state ss.
Proof.
  apply list_eq. intros j. rewrite !list_lookup_fmap, list_lookup_alter.
  case_decide; [|done]. subst. by destruct (ss !! j).
Qed.

Lemma keeps_view_animateSlideTransition d : keeps view (animateSlideTransition d).
Proof.
  intros w. unfold animateSlideTransition. js_simpl.
  destruct (first_active_index (slides w)) as [i|]; [|done]. js_simpl.
  unfold view; simpl. by rewrite map_slide_state_alter_style.
Qed.

Lemma keeps_nav_of_view {A} (c : M A) : keeps view c -> keeps nav_of c.
Proof. intros H. exact (keeps_compose view (fun v => (v.1.1.1.1.1.1.1, v.1.1.1.1.1.1.2)) c H). Qed.

(** After the two renders, the animation and the record of the view
    leave what the page shows unchanged. *)
Lemma keeps_view_transition_tail d :
  keeps view (animateSlideTransition d ;; c ← js_gets currentSlide; trackSlideView c).
Proof.
  apply keeps_mbind; [apply keeps_view_animateSlideTransition|]. intros _.
  apply keeps_mbind; [apply keeps_gets|]. intros c.
  apply keeps_view_of_page. auto with deck.
Qed.

Lemma after_transition_exec d w :
  exec (after_transition d) w =
  exec (animateSlideTransition d ;; c ← js_gets currentSlide; trackSlideView c) (exec sync w).
Proof.
  unfold after_transition. erewrite exec_mbind by apply updateDisplay_run.
  erewrite exec_mbind by apply updateButtonStates_run.
  by rewrite exec_sync.
Qed.

Lemma keeps_nav_after_transition d : keeps nav_of (after_transition d).
Proof.
  intros w.
  rewrite after_transition_exec.
  rewrite (keeps_exec _ _ (keeps_nav_of_view _ (keeps_view_transition_tail d)) (exec sync w)).
  rewrite exec_sync. unfold nav_of. reflexivity.
Qed.

(** The page after the common tail of a transition is rendered. *)
Lemma after_transition_rendered d w : rendered (exec (after_transition d) w).
Proof.
  rewrite after_transition_exec. apply (rendered_view (exec sync w)).
  - symmetry. apply (keeps_exec _ _ (keeps_view_transition_tail d)).
  - apply rendered_exec_sync.
Qed.

Lemma nextSlide_run w :
  nextSlide w =
  if (currentSlide w <? totalSlides w)%Z
  then after_transition DirNext (set_currentSlide (currentSlide w + 1) w)
  else (inr tt, w).
Proof.
  unfold nextSlide. js_simpl.
  destruct (_ <? _)%Z; reflexivity.
Qed.

Lemma previousSlide_run w :
  previousSlide w =
  if (1 <? currentSlide w)%Z
  then after_transition DirPrev (set_currentSlide (currentSlide w - 1) w)
  else (inr tt, w).
Proof.
  unfold previousSlide. js_simpl.
  destruct (_ <? _)%Z; reflexivity.
Qed.

Lemma goToSlide_run n w :
  goToSlide n w =
  if ((1 <=? n) && (n <=? totalSlides w) && negb (n =? currentSlide w))%Z
  then after_transition (if (currentSlide w <? n)%Z then DirNext else DirPrev)
         (set_currentSlide n w)
  else (inr tt, w).
Proof.
  unfold goToSlide. js_simpl.
  destruct (_ && _); [apply (f_equal (fun d => after_transition d _)) |]; reflexivity.
Qed.

(** A transition that passes its guard lands on the new slide number. *)
Lemma after_transition_nav d w : nav_of (exec (after_transition d) w) = nav_of w.
Proof. apply keeps_nav_after_transition. Qed.

(** ** The animation of a transition *)

Lemma animateSlideTransition_run d w :
  animateSlideTransition d w =
  match first_active_index (slides w) with
  | Some i =>
      (inr tt, set_timers (timers w ++ [mkTimer (clock w + 50) (nextId w) (TRestoreSlide i)])%list
                 (set_nextId (S (nextId w))
                    (set_slides (alter (set_style "0" (transform_of d)) i (slides w)) w)))
  | None => (inr tt, w)
  end.
Proof.
  unfold animateSlideTransition. js_simpl.
  destruct (first_active_index (slides w)); reflexivity.
Qed.

Lemma first_active_index_render k ss :
  first_active_index (activate_first k (map deactivate ss)) = slide_index k ss.
Proof.
  induction ss as [|s r IH]; simpl; [done|].
  case_decide; simpl; [done|]. by rewrite IH.
Qed.

Lemma activate_first_at k ss i :
  slide_index k ss = Some i ->
  exists s, ss !! i = Some s /\ activate_first k ss !! i = Some (activate s).
Proof.
  revert i. induction ss as [|s0 r IH]; intros i Hi; simpl in *; [done|].
  case_decide; simplify_eq; simpl; [by exists s0|].
  destruct (slide_index k r) as [j|] eqn:E; simpl in Hi; simplify_eq. simpl. by apply IH.
Qed.

(** After a transition the newly shown slide is faded out and shifted
    in the transition's direction, and a timer is pending that restores
    it 50 ms later; when no slide carries the number nothing is
    animated and no timer is set. *)
Lemma after_transition_animation d w :
  match slide_index (slide_key (currentSlide w)) (slides w) with
  | Some i =>
      (exists s, slides (exec (after_transition d) w) !! i = Some s /\ sl_active s = true /\
                 sl_opacity s = "0" /\ sl_transform s = transform_of d) /\
      timers (exec (after_transition d) w) =
        (timers w ++ [mkTimer (clock w + 50) (nextId w) (TRestoreSlide i)])%list
  | None => timers (exec (after_transition d) w) = timers w
  end.
Proof.
  rewrite after_transition_exec.
  pose proof (animateSlideTransition_run d (exec sync w)) as Ha.
  rewrite slides_sync, first_active_index_render in Ha.
  destruct (stage_sync_env w) as (Ht & Hc & Hn & Hcur).
  destruct (slide_index _ (slides w)) as [i|] eqn:Hi;
    erewrite exec_mbind by exact Ha; erewrite exec_mbind by reflexivity;
    match goal with |- context [trackSlideView ?c ?w3] =>
      pose proof (keeps_stage_trackSlideView c w3) as Hst end;
    try rewrite (stage_slides _ _ Hst); rewrite (stage_timers _ _ Hst);
    world_simpl; rewrite ?Ht, ?Hc, ?Hn; [|done].
  split; [|done].
  rewrite <- slide_index_map_deactivate in Hi.
  destruct (activate_first_at _ _ _ Hi) as (s0 & _ & Hs0).
  exists (set_style "0" (transform_of d) (activate s0)).
  by rewrite list_lookup_alter_eq, Hs0.
Qed.

(** ** The abstract specification: the transition on slide numbers

    The controller, seen from its slide number only: each call either
    moves to a new number or is refused; a refused call has no effect. *)
Definition target (op : nav_op) (c t : Z) : option Z :=
  match op with
  | OpNext => if (c <? t)%Z then Some (c + 1)%Z else None
  | OpPrev => if (1 <? c)%Z then Some (c - 1)%Z else None
  | OpGoTo n => if (1 <=? n)%Z && (n <=? t)%Z && negb (n =? c)%Z then Some n else None
  end.

(** The direction each transition animates in. *)
Definition op_direction (op : nav_op) (c : Z) : Direction :=
  match op with
  | OpNext => DirNext
  | OpPrev => DirPrev
  | OpGoTo n => if (c <? n)%Z then DirNext else DirPrev
  end.

Fixpoint spec_run (ops : list nav_op) (c t : Z) : Z :=
  match ops with
  | [] => c
  | op :: r => spec_run r (default c (target op c t)) t
  end.

Fixpoint run_ops (ops : list nav_op) : M unit :=
  match ops with
  | [] => js_ret tt
  | op :: r => run_op op ;; run_ops r
  end.

Lemma animateSlideTransition_total d : total (animateSlideTransition d).
Proof.
  intros w. exists tt. rewrite animateSlideTransition_run. by destruct first_active_index.
Qed.

Lemma after_transition_total d : total (after_transition d).
Proof.
  unfold after_transition.
  apply total_bind; [auto with deck | intros _].
  apply total_bind; [auto with deck | intros _].
  apply total_bind; [apply animateSlideTransition_total | intros _].
  apply total_bind; [auto with deck | intros c]. apply trackSlideView_total.
Qed.

(** Every call of the controller runs the animation and records the view
    exactly when [target] says it moves, in the direction
    [op_direction]. *)
Lemma run_op_cases op w :
  match target op (currentSlide w) (totalSlides w) with
  | Some c' => run_op op w = after_transition (op_direction op (currentSlide w))
                                (set_currentSlide c' w)
  | None => run_op op w = (inr tt, w)
  end.
Proof.
  destruct op; simpl.
  - rewrite nextSlide_run. by destruct (_ <? _)%Z.
  - rewrite previousSlide_run. by destruct (_ <? _)%Z.
  - rewrite goToSlide_run. by destruct (_ && _).
Qed.

(** The timers a call of the controller adds are restore timers of the
    animation, nothing else. *)
Definition restore_task (t : Timer) : Prop := exists i, tm_task t = TRestoreSlide i.

Lemma run_op_timers op w :
  exists extra, timers (exec (run_op op) w) = (timers w ++ extra)%list /\ Forall restore_task extra.
Proof.
  pose proof (run_op_cases op w) as Hc.
  destruct (target op _ _) as [c'|]; rewrite Hc; [|exists []; by rewrite app_nil_r].
  pose proof (after_transition_animation (op_direction op (currentSlide w)) (set_currentSlide c' w))
    as Ha. world_simpl.
  destruct (slide_index _ _) as [i|]; [destruct Ha as [_ ->] | rewrite Ha].
  - eexists; split; [reflexivity|]. repeat constructor. by exists i.
  - exists []. by rewrite app_nil_r.
Qed.

Lemma target_bounded op c t c' :
  (1 <= c <= t)%Z -> target op c t = Some c' -> (1 <= c' <= t)%Z.
Proof.
  intros Hc. destruct op as [| |n]; simpl; decide_tests; simpl; intros; simplify_eq; lia.
Qed.

(** ** Theorems *)

Lemma run_op_spec op w :
  match target op (currentSlide w) (totalSlides w) with
  | Some c' =>
      currentSlide (exec (run_op op) w) = c' /\
      totalSlides (exec (run_op op) w) = totalSlides w /\
      rendered (exec (run_op op) w) /\ returns (run_op op) w
  | None => run_op op w = (inr tt, w)
  end.
Proof.
  pose proof (run_op_cases op w) as Hc.
  destruct (target op _ _) as [c'|]; [|done].
  pose proof (after_transition_nav (op_direction op (currentSlide w)) (set_currentSlide c' w))
    as Hn. unfold nav_of in Hn. world_simpl. injection Hn as Hcur Htot.
  unfold returns. rewrite Hc.
  split_and!; [exact Hcur | exact Htot | apply after_transition_rendered
               | apply after_transition_total].
Qed.

Lemma nav_step_wf w w' : nav_wf w -> nav_step w w' -> nav_wf w'.
Proof.
  intros [Hb Hr] Hs. inversion Hs as [op w0]; subst w0 w'.
  pose proof (run_op_spec op w) as H.
  destruct (target op _ _) as [c'|] eqn:Ht.
  - destruct H as (Hc & Ht' & Hr' & _). split; [|done].
    unfold bounded. rewrite Hc, Ht'. by apply (target_bounded op (currentSlide w) _ c').
  - by rewrite H.
Qed.

(** C4: Refinement: a call of the controller does what [target] says, with
    all its effects; a call that [target] refuses changes nothing at all
    (no render, no animation, no view recorded). *)
Theorem run_op_refines op w :
  match target op (currentSlide w) (totalSlides w) with
  | Some c' =>
      currentSlide (exec (run_op op) w) = c' /\
      totalSlides (exec (run_op op) w) = totalSlides w /\
      rendered (exec (run_op op) w) /\ returns (run_op op) w
  | None => run_op op w = (inr tt, w)
  end.
Proof. apply run_op_spec. Qed.

(** C1: The invariant of the state machine: from a page that shows a slide in
    range, every state reachable by calls of [nextSlide],
    [previousSlide] and [goToSlide] (with any number) has its slide
    number in [1, totalSlides] and shows that slide. *)
Theorem nav_reachable_wf w0 w : nav_wf w0 -> rtc nav_step w0 w -> nav_wf w.
Proof. intros H0 Hr. induction Hr; eauto using nav_step_wf. Qed.

(** C5: A refused [goToSlide] (out of range, or the current slide) is a
    no-op: the world, storage and timers included, is unchanged. *)
Theorem goToSlide_rejected n w :
  ~ ((1 <= n <= totalSlides w)%Z /\ n <> currentSlide w) -> goToSlide n w = (inr tt, w).
Proof.
  intros H. rewrite goToSlide_run. decide_tests; simpl; try done; lia.
Qed.

(** C23: At the ends of the deck the step back from the first slide and the
    step forward from the last are no-ops: there is no wrap-around. *)
Theorem boundary_noops w :
  (currentSlide w <= 1 -> previousSlide w = (inr tt, w))%Z /\
  (totalSlides w <= currentSlide w -> nextSlide w = (inr tt, w))%Z.
Proof.
  split; intros H; [rewrite previousSlide_run | rewrite nextSlide_run];
    decide_tests; try done; lia.
Qed.

(** C6: An accepted [goToSlide n] lands on [n], shows it, animates it
    forward when [n] is after the current slide and backward otherwise,
    and sets the 50 ms timer that ends the animation. *)
Theorem goToSlide_accepted n w i :
  (1 <= n <= totalSlides w)%Z -> n <> currentSlide w ->
  slide_index (slide_key n) (slides w) = Some i ->
  currentSlide (exec (goToSlide n) w) = n /\ rendered (exec (goToSlide n) w) /\
  (exists s, slides (exec (goToSlide n) w) !! i = Some s /\ sl_active s = true /\
     sl_opacity s = "0" /\
     sl_transform s = transform_of (if (currentSlide w <? n)%Z then DirNext else DirPrev)) /\
  timers (exec (goToSlide n) w) =
    (timers w ++ [mkTimer (clock w + 50) (nextId w) (TRestoreSlide i)])%list.
Proof.
  intros Hn Hne Hi. pose proof (run_op_spec (OpGoTo n) w) as Hr.
  pose proof (run_op_cases (OpGoTo n) w) as Hc. simpl in Hr, Hc.
  destruct (_ && _) eqn:Hg; [|decide_tests; simpl in Hg; try done; lia].
  destruct Hr as (Hcur & _ & Hrend & _). split_and!; [done | done | |].
  all: rewrite Hc; pose proof (after_transition_animation
    (if (currentSlide w <? n)%Z then DirNext else DirPrev) (set_currentSlide n w)) as Ha;
    world_simpl; rewrite Hi in Ha; apply Ha.
Qed.

(** C22: A sequence of calls moves the slide number exactly as the abstract
    machine [spec_run] does. *)
Theorem run_ops_refines ops w :
  currentSlide (exec (run_ops ops) w) = spec_run ops (currentSlide w) (totalSlides w) /\
  totalSlides (exec (run_ops ops) w) = totalSlides w.
Proof.
  revert w. induction ops as [|op r IH]; intros w; [done|]. simpl.
  pose proof (run_op_spec op w) as Hr.
  destruct (target op _ _) as [c'|] eqn:Ht.
  - destruct Hr as (Hc & Htot & _ & [[] Hret]).
    destruct (run_op op w) as [o w'] eqn:E. simpl in Hret, Hc, Htot. subst o.
    erewrite exec_mbind by exact E. rewrite <- Hc, <- Htot. apply IH.
  - erewrite exec_mbind by exact Hr. apply IH.
Qed.

(** C29: [getProgress]'s percentage lies in [0, 100] on a slide in range, and
    reads 100 exactly on the last slide when the deck has fewer than 200
    slides. *)
Theorem round_percentage_bounds c t :
  (1 <= c <= t)%Z ->
  (0 <= round_percentage c t <= 100)%Z /\
  ((t < 200)%Z -> round_percentage c t = 100%Z <-> c = t).
Proof.
  intros Hc. unfold round_percentage.
  assert (0 < 2 * t)%Z as Ht by lia.
  assert (0 <= (200 * c + t) / (2 * t))%Z by (apply Z.div_pos; lia).
  assert ((200 * c + t) / (2 * t) < 101)%Z by (apply Z.div_lt_upper_bound; nia).
  split; [lia|]. intros Hsmall. split; intros Heq.
  - destruct (Z.eq_dec c t) as [|Hne]; [done|].
    assert ((200 * c + t) / (2 * t) < 100)%Z by (apply Z.div_lt_upper_bound; nia). lia.
  - subst c. apply Z.le_antisymm; [lia|]. apply Z.div_le_lower_bound; nia.
Qed.

(** ** The controller's method slots and their contract

    [this.goToSlide], [this.nextSlide] and [this.previousSlide] are
    properties of the controller object that the enhancements replace
    (app.js 371-384, 423-426); every caller looks them up when it calls.
    [Methods] holds the current value of the three slots. *)
Record Methods := mkMethods {
  m_goToSlide : Z -> M unit;
  m_nextSlide : M unit;
  m_previousSlide : M unit
}.

(** The slots as the class defines them. *)
Definition base_methods : Methods := mkMethods goToSlide nextSlide previousSlide.

(** What the input router and the bootstrap rely on from the three
    slots: they never throw, and they keep the slide number in range and
    shown. *)
Class NavContract (m : Methods) := {
  contract_goTo_total : forall n, total (m_goToSlide m n);
  contract_next_total : total (m_nextSlide m);
  contract_prev_total : total (m_previousSlide m);
  contract_goTo_wf : forall n w, nav_wf w -> nav_wf (exec (m_goToSlide m n) w);
  contract_next_wf : forall w, nav_wf w -> nav_wf (exec (m_nextSlide m) w);
  contract_prev_wf : forall w, nav_wf w -> nav_wf (exec (m_previousSlide m) w)
}.

(** What the page shows determines the invariant: a computation that
    keeps the view preserves it. *)
Lemma nav_wf_view w w' : view w = view w' -> nav_wf w -> nav_wf w'.
Proof.
  intros Hv [Hb Hr]. split; [|by apply (rendered_view w)].
  unfold view in Hv. unfold bounded in *. simplify_eq. congruence.
Qed.

Lemma preserves_wf_of_view {A} (c : M A) : keeps view c -> preserves nav_wf c.
Proof. apply preserves_of_keeps, nav_wf_view. Qed.

Lemma run_op_total op : total (run_op op).
Proof.
  intros w. pose proof (run_op_spec op w) as H.
  destruct (target op _ _); [by destruct H as (_ & _ & _ & ?)|]. unfold returns. rewrite H. by exists tt.
Qed.

Lemma run_op_wf op w : nav_wf w -> nav_wf (exec (run_op op) w).
Proof. intros H. apply (nav_step_wf w); [done | constructor]. Qed.

#[export] Instance base_contract : NavContract base_methods := {
  contract_goTo_total n := run_op_total (OpGoTo n);
  contract_next_total := run_op_total OpNext;
  contract_prev_total := run_op_total OpPrev;
  contract_goTo_wf n := run_op_wf (OpGoTo n);
  contract_next_wf := run_op_wf OpNext;
  contract_prev_wf := run_op_wf OpPrev
}.

(** ** The deck's page satisfies the invariant, and witnesses on it *)

Lemma deck_start_nav : currentSlide deck_start = 1%Z /\ totalSlides deck_start = 12%Z.
Proof. split; vm_compute; reflexivity. Qed.

Lemma deck_start_wf : nav_wf deck_start.
Proof.
  split; [|apply rendered_exec_sync].
  unfold bounded. destruct deck_start_nav as [-> ->]. lia.
Qed.

Lemma nav_reachable_wf_witness :
  nav_wf (exec (run_op (OpGoTo 5)) (exec (run_op OpNext) deck_start)).
Proof.
  apply (nav_reachable_wf deck_start); [apply deck_start_wf|].
  apply (rtc_l _ _ (exec (run_op OpNext) deck_start)); [constructor | apply rtc_once; constructor].
Defined.

Lemma goToSlide_rejected_witness : goToSlide 13 deck_start = (inr tt, deck_start).
Proof. apply goToSlide_rejected. destruct deck_start_nav as [-> ->]. lia. Defined.

Lemma boundary_noops_witness : previousSlide deck_start = (inr tt, deck_start).
Proof. apply (proj1 (boundary_noops deck_start)). destruct deck_start_nav as [-> _]. lia. Defined.

Lemma goToSlide_accepted_witness :
  currentSlide (exec (goToSlide 5) deck_start) = 5%Z /\ rendered (exec (goToSlide 5) deck_start).
Proof.
  destruct (goToSlide_accepted 5 deck_start 4) as (Hc & Hr & _).
  - destruct deck_start_nav as [_ ->]. lia.
  - destruct deck_start_nav as [-> _]. lia.
  - vm_compute. reflexivity.
  - split; [exact Hc | exact Hr].
Defined.

Lemma round_percentage_bounds_witness :
  (0 <= round_percentage 7 12 <= 100)%Z /\
  ((12 < 200)%Z -> round_percentage 7 12 = 100%Z <-> 7%Z = 12%Z).
Proof. apply round_percentage_bounds. lia. Defined.

End Navigation.

