(* ===== verification/Input.v ===== *)
(** * The input router

    [handleKeyPress] (app.js 164-215), [toggleFullscreen] (app.js 231-242)
    and the click listeners of [setupEventListeners] (app.js 42-65).  A
    key event runs, in the code's order, the [switch] on the key, the test
    for the digit keys, the test for [0] and the test for Ctrl+1 and
    Ctrl+2; each part may call one of the controller's method slots and
    calls [preventDefault].  The router returns whether it did.

    The handlers call the slots of a [Navigation.Methods] record and their
    theorems are proved against the [NavContract] interface, so they hold
    for the class's own methods and for the wrapped ones the enhancements
    install.  The theorems: every key and click keeps the navigation
    invariant and never throws; each key of the keyboard table does what
    the table says; unmatched keys do nothing and let the browser handle
    them; and Ctrl+1 (Ctrl+2) reaches both the digit test and the Ctrl
    test, so it goes to slide 1 (2) before slide 11 (12).

    [KeyboardEvent.key] is a string; JavaScript compares strings by code
    units, which [js_str_le] models on bytes (the two orders agree on the
    comparisons with ["1"] and ["9"] made here).  [parseInt] is called
    only on keys that start with a digit from 1 to 9, where it reads the
    leading digits. *)

From S2P Require Import Prelude.
From S2P Require Import Json.
From S2P Require Import Dom.
From S2P Require Import Display.
From S2P Require Import Navigation.
Import Dom Display Navigation.
Open Scope string_scope.

Module Input.

Record KeyEvent := mkKey { key : string; ctrlKey : bool; shiftKey : bool }.

(** [toggleFullscreen] (app.js 231-242): the request and the exit are
    taken to succeed at once when the API exists. *)
Definition toggleFullscreen : M unit :=
  fs ← js_gets fullscreen;
  api ← js_gets fullscreenSupported;
  if negb fs then js_when api (js_modify (set_fullscreen true))
  else js_when api (js_modify (set_fullscreen false)).

(** [parseInt(key)] on a key that starts with a digit. *)
Definition parseInt_key (k : string) : Z := fst (Json.parse_digits k 0).

(** The [switch (event.key)] (app.js 166-188). *)
Definition key_switch (m : Methods) (k : string) : M bool :=
  if String.eqb k "ArrowRight" || String.eqb k " " then m_nextSlide m ;; js_ret true
  else if String.eqb k "ArrowLeft" then m_previousSlide m ;; js_ret true
  else if String.eqb k "Home" then m_goToSlide m 1 ;; js_ret true
  else if String.eqb k "End" then t ← js_gets totalSlides; m_goToSlide m t ;; js_ret true
  else if String.eqb k "Escape" then toggleFullscreen ;; js_ret true
  else js_ret false.

(** [event.key >= '1' && event.key <= '9'] *)
Definition digit_range (k : string) : bool := js_str_le "1" k && js_str_le k "9".

(** The number keys (app.js 191-197). *)
Definition key_digit (m : Methods) (k : string) : M bool :=
  if digit_range k then
    t ← js_gets totalSlides;
    if (parseInt_key k <=? t)%Z then m_goToSlide m (parseInt_key k) ;; js_ret true
    else js_ret false
  else js_ret false.

(** The key [0] (app.js 200-203). *)
Definition key_zero (m : Methods) (k : string) : M bool :=
  t ← js_gets totalSlides;
  if String.eqb k "0" && (10 <=? t)%Z then m_goToSlide m 10 ;; js_ret true
  else js_ret false.

(** Ctrl+1 and Ctrl+2 (app.js 206-214). *)
Definition key_ctrl (m : Methods) (e : KeyEvent) : M bool :=
  if ctrlKey e then
    t ← js_gets totalSlides;
    if String.eqb (key e) "1" && (11 <=? t)%Z then m_goToSlide m 11 ;; js_ret true
    else if String.eqb (key e) "2" && (12 <=? t)%Z then m_goToSlide m 12 ;; js_ret true
    else js_ret false
  else js_ret false.

(** [handleKeyPress(event)] (app.js 164-215); the result says whether
    [event.preventDefault()] was called. *)
Definition handleKeyPress (m : Methods) (e : KeyEvent) : M bool :=
  p1 ← key_switch m (key e);
  p2 ← key_digit m (key e);
  p3 ← key_zero m (key e);
  p4 ← key_ctrl m e;
  js_ret (p1 || p2 || p3 || p4).

(** The click listeners (app.js 43-47, 51-55, 60-64): each calls
    [preventDefault] and [stopPropagation]. *)
Definition onPrevClick (m : Methods) : M bool := m_previousSlide m ;; js_ret true.
Definition onNextClick (m : Methods) : M bool := m_nextSlide m ;; js_ret true.
Definition onIndicatorClick (m : Methods) (index : nat) : M bool :=
  m_goToSlide m (Z.of_nat index + 1) ;; js_ret true.

(** ** Lemmas *)

Lemma keeps_view_toggleFullscreen : keeps view toggleFullscreen.
Proof.
  intros w. unfold toggleFullscreen. js_simpl.
  destruct (fullscreen w), (fullscreenSupported w); reflexivity.
Qed.

Lemma toggleFullscreen_total : total toggleFullscreen.
Proof. intros w. exists tt. unfold toggleFullscreen. js_simpl. by repeat case_match. Qed.

(** The keys the [switch] and the [0] test name. *)
Definition named_key (k : string) : bool :=
  existsb (String.eqb k) ["ArrowRight"; " "; "ArrowLeft"; "Home"; "End"; "Escape"; "0"].

(** Every branch of [handleKeyPress] calls a slot or [toggleFullscreen]:
    an invariant of the four is one of the handler. *)
Section KeyInvariant.
Context (P : World -> Prop) (m : Methods).
Hypothesis goTo_P : forall n, preserves P (m_goToSlide m n).
Hypothesis next_P : preserves P (m_nextSlide m).
Hypothesis prev_P : preserves P (m_previousSlide m).
Hypothesis fullscreen_P : preserves P toggleFullscreen.
#[local] Hint Resolve goTo_P next_P prev_P fullscreen_P : deck.

Lemma handleKeyPress_invariant e : preserves P (handleKeyPress m e).
Proof. unfold handleKeyPress, key_switch, key_digit, key_zero, key_ctrl. preserves_tac. Qed.
End KeyInvariant.

Section AgainstTheContract.
Context (m : Methods) `{!NavContract m}.

Lemma slot_goTo_preserves n : preserves nav_wf (m_goToSlide m n).
Proof. exact (contract_goTo_wf n). Qed.
Lemma slot_next_preserves : preserves nav_wf (m_nextSlide m).
Proof. exact contract_next_wf. Qed.
Lemma slot_prev_preserves : preserves nav_wf (m_previousSlide m).
Proof. exact contract_prev_wf. Qed.

#[local] Hint Resolve slot_goTo_preserves slot_next_preserves slot_prev_preserves
  contract_goTo_total contract_next_total contract_prev_total toggleFullscreen_total : deck.

Lemma toggleFullscreen_preserves : preserves nav_wf toggleFullscreen.
Proof. apply preserves_wf_of_view, keeps_view_toggleFullscreen. Qed.
#[local] Hint Resolve toggleFullscreen_preserves : deck.

Lemma handleKeyPress_preserves e : preserves nav_wf (handleKeyPress m e).
Proof. apply handleKeyPress_invariant; eauto with deck. Qed.

Lemma handleKeyPress_total e : total (handleKeyPress m e).
Proof. unfold handleKeyPress, key_switch, key_digit, key_zero, key_ctrl. total_tac. Qed.

(** Every key event keeps the slide number in range and shown, and the
    handler never throws. *)
Theorem handleKeyPress_safe e w :
  nav_wf w -> nav_wf (exec (handleKeyPress m e) w) /\ returns (handleKeyPress m e) w.
Proof.
  intros Hw. split; [by apply handleKeyPress_preserves | apply handleKeyPress_total].
Qed.

(** A key that neither the [switch] nor the number tests name does
    nothing and leaves the event to the browser. *)
Theorem unmatched_key_passes e w :
  named_key (key e) = false -> digit_range (key e) = false ->
  handleKeyPress m e w = (inr false, w).
Proof.
  destruct e as [k ctrl sh]; simpl. unfold named_key.
  intros Hn Hd. simpl in Hn.
  repeat match type of Hn with
         | (?a || ?b) = false => apply orb_false_elim in Hn as [? Hn]
         end.
  assert (String.eqb k "1" = false) as Hone.
  { destruct (String.eqb_spec k "1"); [subst; discriminate Hd | done]. }
  assert (String.eqb k "2" = false) as Htwo.
  { destruct (String.eqb_spec k "2"); [subst; discriminate Hd | done]. }
  unfold handleKeyPress, key_switch, key_digit, key_zero, key_ctrl. simpl.
  repeat match goal with H : String.eqb _ _ = false |- _ => rewrite H; clear H end.
  rewrite Hd. simpl. destruct ctrl; js_simpl; rewrite ?Hone, ?Htwo; reflexivity.
Qed.

(** C25: The keyboard table for the named keys: right arrow and space
    advance, left arrow steps back, Home and End go to the first and
    the last slide, with or without Ctrl. *)
Theorem named_keys e :
  (key e = "ArrowRight" \/ key e = " " ->
     handleKeyPress m e =js= (m_nextSlide m ;; js_ret true)) /\
  (key e = "ArrowLeft" -> handleKeyPress m e =js= (m_previousSlide m ;; js_ret true)) /\
  (key e = "Home" -> handleKeyPress m e =js= (m_goToSlide m 1 ;; js_ret true)) /\
  (key e = "End" ->
     handleKeyPress m e =js= (t ← js_gets totalSlides; m_goToSlide m t ;; js_ret true)).
Proof.
  destruct e as [k ctrl sh]; simpl.
  split_and!; [intros [-> | ->] | intros -> ..]; intros w;
    unfold handleKeyPress, key_switch, key_digit, key_zero, key_ctrl; js_simpl; simpl;
    repeat (case_match; simplify_eq; js_simpl; simpl); done.
Qed.

(** The digit keys 1 to 9 reach neither the [switch] nor the [0]
    test, and their digit test reads the digit. *)
Lemma digit_cases d : (1 <= d <= 9)%Z ->
  d = 1%Z \/ d = 2%Z \/ d = 3%Z \/ d = 4%Z \/ d = 5%Z \/ d = 6%Z \/ d = 7%Z \/ d = 8%Z \/ d = 9%Z.
Proof. lia. Qed.

Lemma key_switch_digit d : (1 <= d <= 9)%Z -> key_switch m (pretty d) = js_ret false.
Proof. intros Hd. pose proof (digit_cases d Hd) as Hc; destruct_or! Hc; subst; vm_compute; reflexivity. Qed.

Lemma key_zero_digit d : (1 <= d <= 9)%Z -> key_zero m (pretty d) = js_ret false.
Proof. intros Hd. pose proof (digit_cases d Hd) as Hc; destruct_or! Hc; subst; vm_compute; reflexivity. Qed.

Lemma key_digit_digit d : (1 <= d <= 9)%Z ->
  key_digit m (pretty d) =
  (t ← js_gets totalSlides; if (d <=? t)%Z then m_goToSlide m d ;; js_ret true else js_ret false).
Proof.
  intros Hd. unfold key_digit.
  assert (digit_range (pretty d) = true /\ parseInt_key (pretty d) = d) as [-> ->]
    by (pose proof (digit_cases d Hd) as Hc; destruct_or! Hc; subst; split; reflexivity).
  reflexivity.
Qed.

Lemma key_ctrl_digit k sh : (k = 1 \/ k = 2)%Z ->
  key_ctrl m (mkKey (pretty k) true sh) =
  (t ← js_gets totalSlides;
   if (10 + k <=? t)%Z then m_goToSlide m (10 + k) ;; js_ret true else js_ret false).
Proof. intros [-> | ->]; reflexivity. Qed.

(** A key that neither the [switch] nor the [0] test takes runs the
    digit test and the Ctrl test. *)
Lemma handleKeyPress_digit_ctrl e :
  key_switch m (key e) = js_ret false -> key_zero m (key e) = js_ret false ->
  handleKeyPress m e =js= (p2 ← key_digit m (key e); p4 ← key_ctrl m e; js_ret (p2 || p4)).
Proof.
  intros Hs Hz w. unfold handleKeyPress. rewrite Hs, Hz. js_simpl.
  destruct (key_digit m (key e) w) as [[x | p2] w1]; [done|].
  destruct (key_ctrl m e w1) as [[x | p4] w2]; by destruct p2.
Qed.

(** C24: The number keys 1 to 9 without Ctrl go to their slide when the
    deck has it, and do nothing otherwise. *)
Theorem digit_keys e d :
  (1 <= d <= 9)%Z -> key e = pretty d -> ctrlKey e = false ->
  handleKeyPress m e =js=
    (t ← js_gets totalSlides;
     if (d <=? t)%Z then m_goToSlide m d ;; js_ret true else js_ret false).
Proof.
  destruct e as [k ctrl sh]; simpl. intros Hd -> -> w.
  rewrite handleKeyPress_digit_ctrl by (simpl; auto using key_switch_digit, key_zero_digit).
  simpl. rewrite key_digit_digit by done. js_simpl.
  destruct (d <=? totalSlides w)%Z; [|done].
  destruct (m_goToSlide m d w) as [[x | []] w1]; done.
Qed.

(** The key 0 goes to slide 10 when the deck has ten slides. *)
Theorem zero_key e :
  key e = "0" ->
  handleKeyPress m e =js=
    (t ← js_gets totalSlides;
     if (10 <=? t)%Z then m_goToSlide m 10 ;; js_ret true else js_ret false).
Proof.
  destruct e as [k ctrl sh]; simpl. intros -> w.
  unfold handleKeyPress, key_switch, key_digit, key_zero, key_ctrl. js_simpl. simpl.
  destruct (10 <=? totalSlides w)%Z; [|by destruct ctrl].
  destruct (m_goToSlide m 10 w) as [[x | []] w1]; [done|]. by destruct ctrl.
Qed.

(** C7: Ctrl+1 and Ctrl+2 pass the digit test before the Ctrl test: the
    handler goes to slide 1 (2) and then to slide 11 (12). *)
Theorem ctrl_digit_keys e k :
  (k = 1 \/ k = 2)%Z -> key e = pretty k -> ctrlKey e = true ->
  handleKeyPress m e =js=
    (t ← js_gets totalSlides;
     (if (k <=? t)%Z then m_goToSlide m k else js_ret tt) ;;
     t' ← js_gets totalSlides;
     if (10 + k <=? t')%Z then m_goToSlide m (10 + k) ;; js_ret true
     else js_ret (k <=? t)%Z).
Proof.
  destruct e as [key0 ctrl sh]; simpl. intros Hk -> -> w.
  assert (1 <= k <= 9)%Z as Hd by lia.
  rewrite handleKeyPress_digit_ctrl by (simpl; auto using key_switch_digit, key_zero_digit).
  simpl. rewrite key_digit_digit, key_ctrl_digit by done. js_simpl.
  destruct (k <=? totalSlides w)%Z.
  - destruct (m_goToSlide m k w) as [[x | []] w1]; [done|].
    destruct (10 + k <=? totalSlides w1)%Z; [|done].
    destruct (m_goToSlide m (10 + k) w1) as [[x | []] w2]; done.
  - destruct (10 + k <=? totalSlides w)%Z; [|done].
    destruct (m_goToSlide m (10 + k) w) as [[x | []] w2]; done.
Qed.
End AgainstTheContract.

(** ** Witnesses with the class's own methods on the deck's page *)

Lemma handleKeyPress_safe_witness :
  nav_wf (exec (handleKeyPress base_methods (mkKey "ArrowRight" false false)) deck_start) /\
  returns (handleKeyPress base_methods (mkKey "ArrowRight" false false)) deck_start.
Proof. exact (handleKeyPress_safe base_methods _ deck_start deck_start_wf). Defined.

Lemma unmatched_key_passes_witness :
  handleKeyPress base_methods (mkKey "a" false false) deck_start = (inr false, deck_start).
Proof. apply unmatched_key_passes; reflexivity. Defined.

Lemma named_keys_witness :
  handleKeyPress base_methods (mkKey "Home" false false) =js=
  (m_goToSlide base_methods 1 ;; js_ret true).
Proof. apply (named_keys base_methods (mkKey "Home" false false)). reflexivity. Defined.

Lemma digit_keys_witness :
  handleKeyPress base_methods (mkKey "5" false false) =js=
  (t ← js_gets totalSlides;
   if (5 <=? t)%Z then m_goToSlide base_methods 5 ;; js_ret true else js_ret false).
Proof. apply digit_keys; [lia | reflexivity | reflexivity]. Defined.

Lemma zero_key_witness :
  handleKeyPress base_methods (mkKey "0" true false) =js=
  (t ← js_gets totalSlides;
   if (10 <=? t)%Z then m_goToSlide base_methods 10 ;; js_ret true else js_ret false).
Proof. apply zero_key. reflexivity. Defined.

Lemma ctrl_digit_keys_witness :
  handleKeyPress base_methods (mkKey "1" true false) =js=
  (t ← js_gets totalSlides;
   (if (1 <=? t)%Z then m_goToSlide base_methods 1 else js_ret tt) ;;
   t' ← js_gets totalSlides;
   if (10 + 1 <=? t')%Z then m_goToSlide base_methods (10 + 1) ;; js_ret true
   else js_ret (1 <=? t)%Z).
Proof. apply ctrl_digit_keys; [left; reflexivity | reflexivity | reflexivity]. Defined.

End Input.

