(* ===== verification/Extensions.v ===== *)
(** * The presentation enhancements

    [ClancyPresentationEnhancements] (app.js 308-505) wraps the
    controller's method slots twice and publishes some of them on
    [window]:
    - [addProgressBar] (328-388) appends the progress bar, replaces the
      three slots by versions that call [updateProgress] after the
      original, and updates the bar once;
    - [addBusinessFeatures] (429-475) puts the data export of [DataExport]
      on [window] and binds [window.goToSlide] to the slot as it is at
      that moment, that is the progress-wrapped [goToSlide];
    - [enhanceAccessibility] (390-427) replaces [goToSlide] once more by a
      version that schedules [announceSlide] 100 ms later;
    - [addPresentationUtilities] (477-504) adds the F1 / Shift+? help key.

    The slots are a [Navigation.Methods] record: each wrapper is a
    function from the record before to the record after, and the
    constructor threads it in the code's order.  The theorems: the
    wrappers keep the navigation contract, so the input router's theorems
    hold for the installed methods; the installed slots are the original
    calls followed by exactly the wrappers' effects; the progress bar
    shows the current slide after every call; and [window.goToSlide],
    bound before the accessibility wrapper, never announces.

    Not modelled: the CSS text of the bar, the ARIA [role] attributes,
    [window.printClancyPresentation] (the browser's print dialog) and the
    [alert] of the help key. *)

From S2P Require Import Prelude.
From S2P Require Import Json.
From S2P Require Import Dom.
From S2P Require Import Display.
From S2P Require Import Analytics.
From S2P Require Import DataExport.
From S2P Require Import Navigation.
From S2P Require Import Input.
From Stdlib Require Import QArith.
Import Dom Display Analytics DataExport Navigation Input.
Open Scope string_scope.

Module Extensions.

(** [(this.controller.currentSlide / this.controller.totalSlides) * 100],
    on exact rationals. *)
Definition progress_percentage (c t : Z) : Q := (inject_Z c / inject_Z t * 100)%Q.

(** [updateProgress] (app.js 358-364); the fill is always found, since
    [addProgressBar] created the bar with it. *)
Definition updateProgress : M unit :=
  c ← js_gets currentSlide;
  t ← js_gets totalSlides;
  js_modify (set_progressFill (Some (progress_percentage c t))).

(** The three wrappers of [addProgressBar] (app.js 371-384). *)
Definition with_progress (m : Methods) : Methods :=
  mkMethods (fun n => m_goToSlide m n ;; updateProgress)
            (m_nextSlide m ;; updateProgress)
            (m_previousSlide m ;; updateProgress).

(** [addProgressBar] (app.js 328-388): the bar is appended with the
    width of its stylesheet, the slots are wrapped, and the bar is
    updated once. *)
Definition addProgressBar (m : Methods) : M Methods :=
  updateProgress ;;
  let m' := with_progress m in
  updateProgress ;;
  js_ret m'.

(** The text of an announcement (app.js 410). *)
Definition announcement_text (c t : Z) (title : string) : string :=
  "Now showing slide " ++ pretty c ++ " of " ++ pretty t ++ ": " ++ title.

(** [announceSlide] (app.js 401-419): a live region with the text, and a
    timer that removes it 1.5 s later. *)
Definition announceSlide : M unit :=
  title ← getCurrentSlideTitle;
  if js_truthy title then
    c ← js_gets currentSlide;
    t ← js_gets totalSlides;
    id ← fresh_id;
    js_modify (fun w => set_liveRegions (liveRegions w ++ [(id, announcement_text c t title)]) w) ;;
    setTimeout (TRemoveLive id) 1500
  else js_ret tt.

(** The removal callback (app.js 413-417): the announcement leaves the
    body if it is still there. *)
Definition removeAnnouncement (id : nat) : M unit :=
  js_modify (fun w => set_liveRegions (filter (fun p => p.1 <> id) (liveRegions w)) w).

(** The wrapper of [enhanceAccessibility] (app.js 422-426): only
    [goToSlide] is replaced. *)
Definition with_announcement (m : Methods) : Methods :=
  mkMethods (fun n => m_goToSlide m n ;; setTimeout TAnnounce 100)
            (m_nextSlide m) (m_previousSlide m).

(** [enhanceAccessibility] (app.js 390-427); the [role] attributes are
    not modelled. *)
Definition enhanceAccessibility (m : Methods) : M Methods := js_ret (with_announcement m).

(** The functions [addBusinessFeatures] puts on [window] (app.js 431-474):
    the export, and three functions bound to the slots as they are when
    it runs. *)
Record Globals := mkGlobals {
  win_export : M unit;
  win_toggleFullscreen : M unit;
  win_goToSlide : Z -> M unit;
  win_getProgress : M Progress
}.

Definition addBusinessFeatures (m : Methods) : Globals :=
  mkGlobals exportClancyPresentationData toggleFullscreen (m_goToSlide m) getProgress.

(** The shortcut text of [showKeyboardShortcuts] (app.js 480-492): a
    template literal whose lines start at the first column, the third
    with two trailing spaces, and which ends with the indentation of its
    closing backquote. *)
Definition shortcuts : string :=
  String.concat Json.newline
    [EmptyString;
     "Clancy Brothers Presentation - Keyboard Shortcuts:";
     "• Arrow keys: Navigate slides";
     "• Space: Next slide  ";
     "• Home: First slide";
     "• End: Last slide";
     "• Numbers 1-9: Jump to slides 1-9";
     "• 0: Jump to slide 10";
     "• Ctrl+1: Jump to slide 11";
     "• Ctrl+2: Jump to slide 12";
     "• Escape: Toggle fullscreen";
     "• Ctrl+P: Print presentation";
     "            "].

(** The help listener of [addPresentationUtilities] (app.js 498-503);
    the [alert] is not modelled. *)
Definition helpKey (e : KeyEvent) : M bool :=
  if String.eqb (key e) "F1" || (String.eqb (key e) "?" && shiftKey e) then
    console_log shortcuts None ;; js_ret true
  else js_ret false.

(** What the enhancements leave behind: the controller's slots and the
    functions on [window]. *)
Record Installed := mkInstalled { inst_methods : Methods; inst_globals : Globals }.

(** [new ClancyPresentationEnhancements(controller)] (app.js 309-326) *)
Definition enhancements_init (m : Methods) : M Installed :=
  m1 ← addProgressBar m;
  let g := addBusinessFeatures m1 in
  m2 ← enhanceAccessibility m1;
  js_ret (mkInstalled m2 g).

(** ** Lemmas *)

Lemma keeps_view_updateProgress : keeps view updateProgress.
Proof. intros w. reflexivity. Qed.

Lemma keeps_view_setTimeout t d : keeps view (setTimeout t d).
Proof. apply keeps_view_of_page, keeps_page_setTimeout. Qed.

Lemma updateProgress_total : total updateProgress.
Proof. intros w. by eexists. Qed.

Lemma setTimeout_total t d : total (setTimeout t d).
Proof. intros w. by eexists. Qed.

#[export] Hint Resolve keeps_view_updateProgress keeps_view_setTimeout
  updateProgress_total setTimeout_total : deck.

Lemma updateProgress_preserves : preserves nav_wf updateProgress.
Proof. apply preserves_wf_of_view, keeps_view_updateProgress. Qed.

Lemma setTimeout_preserves t d : preserves nav_wf (setTimeout t d).
Proof. apply preserves_wf_of_view, keeps_view_setTimeout. Qed.

#[export] Hint Resolve updateProgress_preserves setTimeout_preserves : deck.

Lemma enhancements_init_run m w :
  enhancements_init m w =
  (inr (mkInstalled (with_announcement (with_progress m)) (addBusinessFeatures (with_progress m))),
   exec updateProgress w).
Proof. reflexivity. Qed.

(** The wrappers keep the navigation contract. *)
#[export] Instance with_progress_contract m `{!NavContract m} : NavContract (with_progress m) := {
  contract_goTo_total n := total_bind _ _ (contract_goTo_total n) (fun _ => updateProgress_total);
  contract_next_total := total_bind _ _ contract_next_total (fun _ => updateProgress_total);
  contract_prev_total := total_bind _ _ contract_prev_total (fun _ => updateProgress_total);
  contract_goTo_wf n :=
    preserves_mbind nav_wf _ _ (contract_goTo_wf n) (fun _ => updateProgress_preserves);
  contract_next_wf := preserves_mbind nav_wf _ _ contract_next_wf (fun _ => updateProgress_preserves);
  contract_prev_wf := preserves_mbind nav_wf _ _ contract_prev_wf (fun _ => updateProgress_preserves)
}.

#[export] Instance with_announcement_contract m `{!NavContract m} :
  NavContract (with_announcement m) := {
  contract_goTo_total n :=
    total_bind _ _ (contract_goTo_total n) (fun _ => setTimeout_total TAnnounce 100);
  contract_next_total := @contract_next_total m _;
  contract_prev_total := @contract_prev_total m _;
  contract_goTo_wf n :=
    preserves_mbind nav_wf _ _ (contract_goTo_wf n) (fun _ => setTimeout_preserves TAnnounce 100);
  contract_next_wf := @contract_next_wf m _;
  contract_prev_wf := @contract_prev_wf m _
}.

(** The bar shows the current slide. *)
Definition progress_shown (w : World) : Prop :=
  progressFill w = Some (progress_percentage (currentSlide w) (totalSlides w)).

(** The pending announcements. *)
Definition announce_count (w : World) : nat :=
  length (filter (fun t => tm_task t = TAnnounce) (timers w)).

Lemma exec_total_then {B} (c : M unit) (k : M B) w :
  total c -> exists w1, c w = (inr tt, w1) /\ exec (c ;; k) w = exec k w1.
Proof.
  intros Hc. destruct (Hc w) as [[] Ha]. destruct (c w) as [r w1] eqn:E. simpl in Ha. subst r.
  exists w1. split; [done|]. by erewrite exec_mbind.
Qed.

Lemma updateProgress_shown w : progress_shown (exec updateProgress w).
Proof. reflexivity. Qed.

Lemma progress_shown_setTimeout t d w : progress_shown w -> progress_shown (exec (setTimeout t d) w).
Proof. done. Qed.

Lemma announce_count_run_op op w : announce_count (exec (run_op op) w) = announce_count w.
Proof.
  destruct (run_op_timers op w) as (extra & Ht & Hr). unfold announce_count. rewrite Ht, filter_app.
  rewrite (filter_none _ extra), app_nil_r; [done|].
  eapply Forall_impl; [exact Hr|]. intros t [i Hi]. congruence.
Qed.

Lemma announce_count_goTo_progress n w :
  announce_count (exec (goToSlide n ;; updateProgress) w) = announce_count w.
Proof.
  destruct (exec_total_then (goToSlide n) updateProgress w (run_op_total (OpGoTo n)))
    as (w1 & E & ->).
  change (announce_count w1 = announce_count w).
  rewrite <- (announce_count_run_op (OpGoTo n) w). cbn [run_op]. by rewrite E.
Qed.

Lemma announce_count_setTimeout_announce d w :
  announce_count (exec (setTimeout TAnnounce d) w) = S (announce_count w).
Proof.
  unfold announce_count.
  change (timers (exec (setTimeout TAnnounce d) w))
    with (timers w ++ [mkTimer (clock w + d) (nextId w) TAnnounce])%list.
  rewrite filter_app, length_app, filter_cons_True by done. simpl. lia.
Qed.

Lemma progress_shown_then (c : M unit) w : total c -> progress_shown (exec (c ;; updateProgress) w).
Proof. intros Hc. destruct (exec_total_then c updateProgress w Hc) as (w1 & _ & ->). done. Qed.

Lemma progress_shown_then_announce (c : M unit) w :
  total c -> progress_shown (exec ((c ;; updateProgress) ;; setTimeout TAnnounce 100) w).
Proof.
  intros Hc. destruct (exec_total_then (c ;; updateProgress) (setTimeout TAnnounce 100) w)
    as (w2 & E & ->); [apply total_bind; [done | intros; apply updateProgress_total]|].
  apply progress_shown_setTimeout. pose proof (progress_shown_then c w Hc) as H.
  by rewrite E in H.
Qed.

Ltac installed_simpl :=
  cbn [m_goToSlide m_nextSlide m_previousSlide with_announcement with_progress base_methods
       inst_methods inst_globals win_goToSlide addBusinessFeatures].

(** ** Theorems *)

(** The installed slots are the class's calls followed by exactly the
    wrappers' effects: [goToSlide] updates the bar and schedules an
    announcement, [nextSlide] and [previousSlide] only update the bar,
    and [window.goToSlide] updates the bar without announcing; the bar
    starts at the current slide. *)
Theorem installed_methods m w inst w' :
  enhancements_init m w = (inr inst, w') ->
  (forall n, m_goToSlide (inst_methods inst) n =js=
             (m_goToSlide m n ;; updateProgress ;; setTimeout TAnnounce 100)) /\
  m_nextSlide (inst_methods inst) =js= (m_nextSlide m ;; updateProgress) /\
  m_previousSlide (inst_methods inst) =js= (m_previousSlide m ;; updateProgress) /\
  (forall n, win_goToSlide (inst_globals inst) n =js= (m_goToSlide m n ;; updateProgress)) /\
  progressFill w' = Some (progress_percentage (currentSlide w) (totalSlides w)).
Proof.
  rewrite enhancements_init_run. intros [= <- <-].
  split_and!; try done. intros n w0. simpl. js_simpl.
  by destruct (m_goToSlide m n w0) as [[e | []] w1].
Qed.

(** C8: [window.goToSlide] is bound before [enhanceAccessibility] replaces
    the slot, so a call through it never schedules an announcement,
    while the controller's slot schedules exactly one, even for a number
    [goToSlide] refuses. *)
Theorem window_goToSlide_silent w inst w' n w0 :
  enhancements_init base_methods w = (inr inst, w') ->
  announce_count (exec (win_goToSlide (inst_globals inst) n) w0) = announce_count w0 /\
  announce_count (exec (m_goToSlide (inst_methods inst) n) w0) = S (announce_count w0).
Proof.
  rewrite enhancements_init_run. intros [= <- _]. installed_simpl.
  split; [apply announce_count_goTo_progress|].
  destruct (exec_total_then (goToSlide n ;; updateProgress) (setTimeout TAnnounce 100) w0)
    as (w2 & E & ->).
  { apply total_bind; [apply (run_op_total (OpGoTo n)) | intros; apply updateProgress_total]. }
  rewrite announce_count_setTimeout_announce. f_equal.
  pose proof (announce_count_goTo_progress n w0) as H. by rewrite E in H.
Qed.

(** C30: After every call of an installed slot the progress bar shows the
    current slide, and it shows it from the start. *)
Theorem installed_progress_shown m `{!NavContract m} w inst w' :
  enhancements_init m w = (inr inst, w') ->
  progress_shown w' /\
  (forall n w0, progress_shown (exec (m_goToSlide (inst_methods inst) n) w0)) /\
  (forall w0, progress_shown (exec (m_nextSlide (inst_methods inst)) w0)) /\
  (forall w0, progress_shown (exec (m_previousSlide (inst_methods inst)) w0)).
Proof.
  rewrite enhancements_init_run. intros [= <- <-]. installed_simpl.
  split_and!; intros.
  - apply updateProgress_shown.
  - apply progress_shown_then_announce, contract_goTo_total.
  - apply progress_shown_then, contract_next_total.
  - apply progress_shown_then, contract_prev_total.
Qed.

(** The input router's safety carries over to the installed slots: with
    the progress bar and the announcements in place, every key keeps the
    navigation invariant and never throws. *)
Theorem installed_keys_safe m `{!NavContract m} w inst w' e w0 :
  enhancements_init m w = (inr inst, w') -> nav_wf w0 ->
  nav_wf (exec (handleKeyPress (inst_methods inst) e) w0) /\
  returns (handleKeyPress (inst_methods inst) e) w0.
Proof.
  rewrite enhancements_init_run. intros [= <- _] Hw. cbn [inst_methods].
  split; [exact (handleKeyPress_preserves _ e w0 Hw) | exact (handleKeyPress_total _ e w0)].
Qed.

(** C33: The bar's percentage is in (0, 100] on a slide in range, and is 100
    exactly on the last slide. *)
Theorem progress_percentage_bounds c t :
  (1 <= c <= t)%Z ->
  (0 < progress_percentage c t <= 100)%Q /\ (progress_percentage c t == 100 <-> c = t)%Q.
Proof.
  intros Hc. unfold progress_percentage.
  destruct t as [|p|p]; [lia | | lia].
  unfold Qlt, Qle, Qeq, Qdiv, Qmult, Qinv; simpl. split; [split|split]; intros; nia.
Qed.

(** ** Witnesses on the deck's page *)

Definition deck_installed : Installed :=
  mkInstalled (with_announcement (with_progress base_methods))
              (addBusinessFeatures (with_progress base_methods)).

Lemma installed_methods_witness :
  progressFill (exec updateProgress deck_start) =
  Some (progress_percentage (currentSlide deck_start) (totalSlides deck_start)).
Proof.
  apply (installed_methods base_methods deck_start deck_installed). reflexivity.
Defined.

Lemma window_goToSlide_silent_witness :
  announce_count (exec (win_goToSlide (inst_globals deck_installed) 5) deck_start) =
    announce_count deck_start /\
  announce_count (exec (m_goToSlide (inst_methods deck_installed) 5) deck_start) =
    S (announce_count deck_start).
Proof. apply (window_goToSlide_silent deck_start deck_installed (exec updateProgress deck_start)). reflexivity. Defined.

Lemma installed_progress_shown_witness :
  progress_shown (exec (m_nextSlide (inst_methods deck_installed)) deck_start).
Proof.
  destruct (installed_progress_shown base_methods deck_start deck_installed
              (exec updateProgress deck_start)) as (_ & _ & Hn & _); [reflexivity | apply Hn].
Defined.

Lemma installed_keys_safe_witness :
  nav_wf (exec (handleKeyPress (inst_methods deck_installed) (mkKey "End" false false)) deck_start).
Proof.
  apply (installed_keys_safe base_methods deck_start deck_installed
           (exec updateProgress deck_start)); [reflexivity | apply deck_start_wf].
Defined.

Lemma progress_percentage_bounds_witness :
  (0 < progress_percentage 3 12 <= 100)%Q /\ (progress_percentage 3 12 == 100 <-> 3%Z = 12%Z)%Q.
Proof. apply progress_percentage_bounds. lia. Defined.

End Extensions.
