(* ===== verification/Interactive.v ===== *)
(** * The action-item checkboxes

    [ClancyInteractiveElements.enableActionItems] (app.js 538-587) makes
    the [.action-checkbox] elements clickable: a click on an open box
    ([□]) ticks it ([✓]), records [clancy-action-<index>] = [completed]
    in sessionStorage and shows a [ ✓ Completed!] message for two
    seconds; a click on a ticked box opens it and removes the record.
    When sessionStorage throws, the state goes to the element's
    [data-completed] attribute instead.  At start-up each box is restored
    from sessionStorage, or from [data-completed] when reading throws.

    The checkboxes share sessionStorage with the view analytics.  The
    theorems: a click toggles its box and, with a usable storage, keeps
    every box in step with its record; recording a view never touches a
    box's record; and a reload in the same tab restores exactly the
    ticked boxes (a round trip through sessionStorage), while with a
    blocked or read-only storage a reload loses them.

    The hover effects of [enhanceCards] and [addBusinessMetrics] are in
    [Hover].  Not modelled: the [cursor] style of the boxes. *)

From S2P Require Import Prelude.
From S2P Require Import Dom.
From S2P Require Import Display.
From S2P Require Import Analytics.
Import Dom Display Analytics.
Open Scope string_scope.

Module Interactive.

Definition box_open : string := "□".
Definition box_ticked : string := "✓".
Definition color_success : string := "var(--color-success)".
Definition color_primary : string := "var(--color-primary)".

(** [`clancy-action-${index}`] *)
Definition action_key (i : nat) : string := "clancy-action-" ++ pretty i.

Definition mark_ticked (cb : Checkbox) : Checkbox :=
  mkCheckbox box_ticked color_success (cb_completed cb) (cb_in_item cb).

Definition mark_open (cb : Checkbox) : Checkbox :=
  mkCheckbox box_open color_primary (cb_completed cb) (cb_in_item cb).

Definition set_completed (v : option string) (cb : Checkbox) : Checkbox :=
  mkCheckbox (cb_text cb) (cb_color cb) v (cb_in_item cb).

(** A change of the checkbox at [i]. *)
Definition set_box (i : nat) (f : Checkbox -> Checkbox) : M unit :=
  js_modify (fun w => set_checkboxes (alter f i (checkboxes w)) w).

(** [showCompletionMessage(checkbox)] (app.js 589-618): when the box is
    inside an [.action-item], a message is appended there, faded in after
    50 ms and faded out after 2 s. *)
Definition showCompletionMessage (i : nat) : M unit :=
  cbs ← js_gets checkboxes;
  match cbs !! i with
  | Some cb =>
      if cb_in_item cb then
        id ← fresh_id;
        js_modify (fun w => set_completions (completions w ++ [mkCompletion id i "0"]) w) ;;
        setTimeout (TMsgShow id) 50 ;;
        setTimeout (TMsgHide id) 2000
      else js_ret tt
  | None => js_ret tt
  end.

Definition set_message_opacity (id : nat) (o : string) : M unit :=
  js_modify (fun w => set_completions
    (map (fun c => if decide (cm_id c = id) then mkCompletion (cm_id c) (cm_box c) o else c)
         (completions w)) w).

(** The three timer callbacks of the message (app.js 604-616). *)
Definition messageShow (id : nat) : M unit := set_message_opacity id "1".

Definition messageHide (id : nat) : M unit :=
  set_message_opacity id "0" ;; setTimeout (TMsgRemove id) 300.

Definition messageRemove (id : nat) : M unit :=
  js_modify (fun w => set_completions (filter (fun c => cm_id c <> id) (completions w)) w).

(** The click listener of the checkbox at [index] (app.js 543-571). *)
Definition onCheckboxClick (i : nat) : M unit :=
  cbs ← js_gets checkboxes;
  match cbs !! i with
  | None => js_ret tt
  | Some cb =>
      if String.eqb (cb_text cb) box_open then
        set_box i mark_ticked ;;
        js_try (setItem (action_key i) "completed")
               (fun _ => set_box i (set_completed (Some "true"))) ;;
        showCompletionMessage i
      else
        set_box i mark_open ;;
        js_try (removeItem (action_key i)) (fun _ => set_box i (set_completed None))
  end.

(** The restoration of the checkbox at [index] (app.js 573-585). *)
Definition restoreCheckbox (i : nat) : M unit :=
  js_try
    (v ← getItem (action_key i);
     if decide (v = Some "completed") then set_box i mark_ticked else js_ret tt)
    (fun _ =>
       cbs ← js_gets checkboxes;
       match cbs !! i with
       | Some cb => if decide (cb_completed cb = Some "true") then set_box i mark_ticked
                    else js_ret tt
       | None => js_ret tt
       end).

(** [enableActionItems] (app.js 538-587): the listeners, and the
    restoration of each box in document order. *)
Definition enableActionItems : M unit :=
  cbs ← js_gets checkboxes;
  js_forEach restoreCheckbox (seq 0 (length cbs)).

(** ** What the theorems talk about *)

Definition ticked (w : World) (i : nat) : Prop := cb_text <$> checkboxes w !! i = Some box_ticked.

Definition stored (w : World) (i : nat) : Prop :=
  st_items (storage w) !! action_key i = Some "completed".

(** Every box shows what sessionStorage records for it. *)
Definition boxes_synced (w : World) : Prop :=
  forall i, i < length (checkboxes w) -> (ticked w i <-> stored w i).

(** The page of a reload in the same tab: the boxes are fresh from the
    markup, sessionStorage is kept. *)
Definition reload_boxes (w : World) : World :=
  set_checkboxes (map (fun cb => mkCheckbox box_open EmptyString None (cb_in_item cb))
                      (checkboxes w)) w.

(** The record of box [i] and the storage mode: what a box's
    persistence depends on. *)
Definition box_record (i : nat) (w : World) :=
  (cb_text <$> checkboxes w !! i, st_mode (storage w), st_items (storage w) !! action_key i).

(** ** Lemmas *)

Lemma action_key_inj i j : action_key i = action_key j -> i = j.
Proof. unfold action_key. intros H. apply string_append_inj_l in H. by apply (inj pretty). Qed.

Lemma session_key_not_action i : session_key <> action_key i.
Proof. unfold session_key, action_key. simpl. discriminate. Qed.

Lemma views_key_not_action i : views_key <> action_key i.
Proof. unfold views_key, action_key. simpl. discriminate. Qed.

Lemma showCompletionMessage_boxes i w :
  checkboxes (exec (showCompletionMessage i) w) = checkboxes w /\
  storage (exec (showCompletionMessage i) w) = storage w.
Proof.
  unfold showCompletionMessage. js_simpl.
  destruct (checkboxes w !! i) as [cb|]; [|done]. by destruct (cb_in_item cb).
Qed.

Lemma showCompletionMessage_run i w : exists w', showCompletionMessage i w = (inr tt, w').
Proof.
  unfold showCompletionMessage. js_simpl.
  destruct (checkboxes w !! i) as [cb|]; [|by eexists]. destruct (cb_in_item cb); by eexists.
Qed.

(** A click with a usable storage: the box toggles and its record follows. *)
Lemma onCheckboxClick_ok i w cb :
  st_mode (storage w) = StorageOk -> checkboxes w !! i = Some cb ->
  let tick := String.eqb (cb_text cb) box_open in
  checkboxes (exec (onCheckboxClick i) w) =
    alter (if tick then mark_ticked else mark_open) i (checkboxes w) /\
  storage (exec (onCheckboxClick i) w) =
    mkStorage (if tick then <[action_key i := "completed"]> (st_items (storage w))
               else delete (action_key i) (st_items (storage w))) StorageOk.
Proof.
  intros Hm Hcb tick. unfold onCheckboxClick. js_simpl. rewrite Hcb. subst tick.
  destruct (String.eqb (cb_text cb) box_open); unfold set_box, setItem, removeItem; js_simpl;
    world_simpl; rewrite Hm;
    [| cbn; unfold set_storage_items; world_simpl; by rewrite Hm].
  match goal with |- context [showCompletionMessage i ?x] =>
    destruct (showCompletionMessage_run i x) as [w2 E];
    pose proof (showCompletionMessage_boxes i x) as [Hc Hs]; rewrite E in Hc, Hs |- * end.
  simpl in Hc, Hs |- *. rewrite Hc, Hs. unfold set_storage_items. world_simpl.
  by rewrite Hm.
Qed.

Lemma restoreCheckbox_run i w :
  st_mode (storage w) = StorageOk ->
  restoreCheckbox i w =
  (inr tt, if decide (st_items (storage w) !! action_key i = Some "completed")
           then set_checkboxes (alter mark_ticked i (checkboxes w)) w else w).
Proof.
  intros Hm. unfold restoreCheckbox, getItem, set_box. js_simpl. rewrite Hm.
  by destruct (decide (st_items (storage w) !! action_key i = Some "completed")).
Qed.

Lemma restoreCheckbox_blocked i w :
  st_mode (storage w) = StorageBlocked ->
  (forall cb, checkboxes w !! i = Some cb -> cb_completed cb = None) ->
  restoreCheckbox i w = (inr tt, w).
Proof.
  intros Hm Hc. unfold restoreCheckbox, getItem. js_simpl. rewrite Hm.
  destruct (checkboxes w !! i) as [cb|] eqn:E; [|done]. by rewrite (Hc cb eq_refl).
Qed.

(** Restoring the boxes of [l] with a usable storage ticks exactly those
    of them that have a record. *)
Lemma forEach_restore_ok l w items :
  st_mode (storage w) = StorageOk -> st_items (storage w) = items ->
  storage (exec (js_forEach restoreCheckbox l) w) = storage w /\
  forall j, cb_text <$> checkboxes (exec (js_forEach restoreCheckbox l) w) !! j =
            (if decide (j ∈ l /\ items !! action_key j = Some "completed")
             then const box_ticked else cb_text) <$> checkboxes w !! j.
Proof.
  revert w. induction l as [|x l IH]; intros w Hm Hi.
  - split; [done|]. intros j. case_decide; [set_solver | done].
  - cbn [js_forEach]. rewrite (exec_mbind _ _ w _ _ (restoreCheckbox_run x w Hm)).
    set (w1 := if decide _ then _ else _).
    assert (storage w1 = storage w) as Hs1 by (subst w1; by case_decide).
    destruct (IH w1) as [Hs Ht]; [by rewrite Hs1 | by rewrite Hs1 |].
    split; [by rewrite Hs|]. intros j. rewrite Ht. subst w1. rewrite Hi.
    destruct (decide (items !! action_key x = Some "completed")) as [Hx|Hx];
      simpl; [destruct (decide (j = x)) as [->|Hne]|];
      rewrite ?list_lookup_alter_eq, ?list_lookup_alter_ne by done;
      destruct (checkboxes w !! _); simpl; repeat case_decide; set_solver.
Qed.

Lemma forEach_restore_blocked l w :
  st_mode (storage w) = StorageBlocked ->
  (forall i cb, checkboxes w !! i = Some cb -> cb_completed cb = None) ->
  exec (js_forEach restoreCheckbox l) w = w.
Proof.
  intros Hm Hc. induction l as [|x l IH]; [done|]. cbn [js_forEach].
  rewrite (exec_mbind _ _ w _ _ (restoreCheckbox_blocked x w Hm (Hc x))). exact IH.
Qed.

Lemma keeps_boxes_getItem i k : keeps (box_record i) (getItem k).
Proof. intros w. unfold getItem. by destruct (st_mode (storage w)). Qed.

Lemma keeps_boxes_setItem i k v : k <> action_key i -> keeps (box_record i) (setItem k v).
Proof.
  intros Hk w. unfold setItem. destruct (st_mode (storage w)) eqn:E; try done.
  unfold box_record. simpl. by rewrite E, lookup_insert_ne by done.
Qed.

Lemma keeps_boxes_stage i {A} (c : M A) :
  keeps stage c -> keeps storage c -> keeps (box_record i) c.
Proof.
  intros Hs Hst w. unfold box_record. rewrite (Hst w).
  specialize (Hs w). unfold stage, page in Hs. injection Hs. intros. congruence.
Qed.

Lemma keeps_storage_console_log msg arg : keeps storage (console_log msg arg).
Proof. intros w. reflexivity. Qed.

Lemma keeps_storage_dateNow : keeps storage dateNow.
Proof. intros w. reflexivity. Qed.

Lemma keeps_storage_randomBase36 : keeps storage randomBase36.
Proof. intros w. reflexivity. Qed.

Lemma keeps_boxes_getCurrentSlideTitle i : keeps (box_record i) getCurrentSlideTitle.
Proof. intros w. reflexivity. Qed.

Lemma keeps_boxes_trackSlideView i n : keeps (box_record i) (trackSlideView n).
Proof.
  pose proof (session_key_not_action i). pose proof (views_key_not_action i).
  unfold trackSlideView, getSessionId, new_session_id, store_view, read_views, json_parse.
  keeps_tac; first
    [ apply keeps_boxes_getItem | apply keeps_boxes_getCurrentSlideTitle
    | by apply keeps_boxes_setItem
    | apply keeps_boxes_stage; auto using keeps_storage_console_log, keeps_storage_dateNow,
        keeps_storage_randomBase36 with deck ].
Qed.

Lemma onCheckboxClick_none i w : checkboxes w !! i = None -> onCheckboxClick i w = (inr tt, w).
Proof. intros E. unfold onCheckboxClick. js_simpl. by rewrite E. Qed.

Lemma action_key_ne i j : j <> i -> action_key i <> action_key j.
Proof. intros Hne Hk. by apply Hne, action_key_inj. Qed.

(** The page after [enableActionItems] runs on it: [forEach] over the
    boxes it finds. *)
Lemma exec_enableActionItems w :
  exec enableActionItems w = exec (js_forEach restoreCheckbox (seq 0 (length (checkboxes w)))) w.
Proof. reflexivity. Qed.

Lemma checkboxes_reload w i :
  checkboxes (reload_boxes w) !! i =
  (fun cb => mkCheckbox box_open EmptyString None (cb_in_item cb)) <$> checkboxes w !! i.
Proof. apply list_lookup_fmap. Qed.

Lemma deck_start_synced : boxes_synced deck_start.
Proof.
  intros i Hi. unfold ticked, stored.
  assert (checkboxes deck_start = replicate 4 (mkCheckbox box_open EmptyString None true)) as ->
    by (vm_compute; reflexivity).
  assert (st_items (storage deck_start) = ∅) as -> by reflexivity.
  rewrite lookup_empty. destruct (replicate _ _ !! i) eqn:E; simpl; [|done].
  apply lookup_replicate in E as [E _]. subst. split; intros H; discriminate.
Qed.

(** ** Theorems *)

(** C34: A click on a box, with a usable storage, ticks an open box and opens
    any other, and keeps every box in step with its sessionStorage
    record. *)
Theorem click_toggles_synced i w :
  st_mode (storage w) = StorageOk -> boxes_synced w ->
  boxes_synced (exec (onCheckboxClick i) w) /\
  forall cb, checkboxes w !! i = Some cb ->
    (ticked (exec (onCheckboxClick i) w) i <-> cb_text cb = box_open).
Proof.
  intros Hm Hsync. destruct (checkboxes w !! i) as [cb|] eqn:Hcb;
    [|rewrite onCheckboxClick_none by done; split; [done | intros; discriminate]].
  destruct (onCheckboxClick_ok i w cb Hm Hcb) as [Hc Hs]. simpl in Hc, Hs.
  revert Hc Hs. destruct (String.eqb_spec (cb_text cb) box_open) as [Hb|Hb]; intros Hc Hs.
  all: split; [intros j Hj; unfold ticked, stored; rewrite Hc, Hs; rewrite Hc, length_alter in Hj;
               simpl; destruct (decide (j = i)) as [-> | Hne] |
               intros cb' Hcb'; simplify_eq; unfold ticked; rewrite Hc, list_lookup_alter_eq, Hcb;
               simpl; split; intros; simplify_eq; done].
  - rewrite list_lookup_alter_eq, Hcb, lookup_insert_eq. done.
  - rewrite list_lookup_alter_ne, lookup_insert_ne by auto using action_key_ne. by apply Hsync.
  - rewrite list_lookup_alter_eq, Hcb, lookup_delete_eq. simpl. split; intros; simplify_eq.
  - rewrite list_lookup_alter_ne, lookup_delete_ne by auto using action_key_ne. by apply Hsync.
Qed.

(** C10: Round trip through sessionStorage: after a reload in the same tab,
    [enableActionItems] ticks exactly the boxes that were ticked. *)
Theorem reload_restores w :
  st_mode (storage w) = StorageOk -> boxes_synced w ->
  forall i, ticked (exec enableActionItems (reload_boxes w)) i <-> ticked w i.
Proof.
  intros Hm Hsync i. rewrite exec_enableActionItems.
  destruct (forEach_restore_ok (seq 0 (length (checkboxes (reload_boxes w)))) (reload_boxes w)
              (st_items (storage w)) Hm eq_refl) as [_ Ht].
  unfold ticked. rewrite Ht, checkboxes_reload.
  destruct (checkboxes w !! i) as [cb|] eqn:E; simpl; [|done].
  assert (i < length (checkboxes w)) as Hlt by (by apply lookup_lt_Some in E).
  pose proof (Hsync i Hlt) as Hi. unfold ticked, stored in Hi. rewrite E in Hi. simpl in Hi.
  case_decide as Hd; simpl.
  - destruct Hd as [_ Hst]. split; [intros _; by apply Hi | done].
  - split; intros H; [discriminate|]. exfalso. apply Hd. split; [|by apply Hi].
    apply elem_of_seq. unfold reload_boxes. simpl. rewrite length_map. lia.
Qed.

(** With a blocked sessionStorage a reload forgets every tick: the
    fallback attribute [data-completed] lives on the old elements only. *)
Theorem reload_blocked_forgets w :
  st_mode (storage w) = StorageBlocked ->
  forall i, ~ ticked (exec enableActionItems (reload_boxes w)) i.
Proof.
  intros Hm i. rewrite exec_enableActionItems, forEach_restore_blocked; [| done |].
  - unfold ticked. rewrite checkboxes_reload.
    destruct (checkboxes w !! i); simpl; intros H; discriminate.
  - intros j cb H. rewrite checkboxes_reload in H.
    destruct (checkboxes w !! j); simpl in H; by simplify_eq.
Qed.

(** C35: The analytics share sessionStorage with the boxes but never touch a
    box or its record: recording a view keeps every box in step. *)
Theorem trackSlideView_keeps_boxes n w :
  boxes_synced w -> boxes_synced (exec (trackSlideView n) w).
Proof.
  intros Hsync i Hi.
  pose proof (keeps_page_trackSlideView n w) as Hp. unfold page in Hp.
  injection Hp as _ _ _ _ _ _ _ _ _ _ _ _ Hc _.
  pose proof (keeps_boxes_trackSlideView i n w) as Hb. unfold box_record in Hb.
  injection Hb as Ht _ Hs. unfold ticked, stored. rewrite Ht, Hs.
  rewrite Hc in Hi. by apply Hsync.
Qed.

(** ** Witnesses *)

Lemma click_toggles_synced_witness :
  boxes_synced (exec (onCheckboxClick 2) deck_start) /\
  forall cb, checkboxes deck_start !! 2%nat = Some cb ->
    (ticked (exec (onCheckboxClick 2) deck_start) 2 <-> cb_text cb = box_open).
Proof. apply click_toggles_synced; [reflexivity | apply deck_start_synced]. Defined.

Lemma reload_restores_witness :
  ticked (exec enableActionItems (reload_boxes deck_start)) 1 <-> ticked deck_start 1.
Proof. apply reload_restores; [reflexivity | apply deck_start_synced]. Defined.

Lemma reload_blocked_forgets_witness :
  ~ ticked (exec enableActionItems (reload_boxes (set_storage (mkStorage ∅ StorageBlocked) deck_start))) 0.
Proof. apply reload_blocked_forgets. reflexivity. Defined.

Lemma trackSlideView_keeps_boxes_witness : boxes_synced (exec (trackSlideView 1) deck_start).
Proof. apply trackSlideView_keeps_boxes, deck_start_synced. Defined.

End Interactive.
