(* ===== verification/Hover.v ===== *)
(** * The hover effects of cards and metric values

    [ClancyInteractiveElements.enhanceCards] (app.js 520-537) and
    [addBusinessMetrics] (app.js 620-637) add a [mouseenter] and a
    [mouseleave] listener to each card and each metric value; each
    listener sets inline style properties of its own element.  The
    elements are the lists [cards] and [metrics] of the world, in
    document order; a listener is named by a [HoverEvent], the kind of
    element, its index and whether the pointer enters or leaves.

    The lemmas: a listener changes its element's style and nothing else
    of the world, and running it twice is running it once, so that a
    listener registered twice (after a second initialisation) has the
    effect of one; an enter then a leave listener leave the element in
    the style the leave listener sets ([alter_cycle]), which is not the
    style it had before the first enter.  The theorems on the events
    themselves, through the dispatch of the listeners, are in
    [Bootstrap]. *)

From S2P Require Import Prelude.
From S2P Require Import Dom.
Import Dom.
Open Scope string_scope.

Module Hover.

(** ** Styles *)

(** The [mouseenter] listener of a card (app.js 525-529). *)
Definition card_enter (h : Hover) : Hover :=
  mkHover "translateY(-3px)" "var(--shadow-md)" "transform 0.2s ease, box-shadow 0.2s ease"
    (hv_color h).

(** The [mouseleave] listener of a card (app.js 531-534): the transition
    stays. *)
Definition card_leave (h : Hover) : Hover :=
  mkHover "translateY(0)" EmptyString (hv_transition h) (hv_color h).

(** The [mouseenter] listener of a metric value (app.js 625-629). *)
Definition metric_enter (h : Hover) : Hover :=
  mkHover "scale(1.05)" (hv_boxShadow h) "transform 0.2s ease" "var(--color-primary)".

(** The [mouseleave] listener of a metric value (app.js 631-634). *)
Definition metric_leave (h : Hover) : Hover :=
  mkHover "scale(1)" (hv_boxShadow h) (hv_transition h) EmptyString.

(** ** Listeners *)

Inductive HoverEvent :=
| CardEnter (i : nat)
| CardLeave (i : nat)
| MetricEnter (i : nat)
| MetricLeave (i : nat).

#[export] Instance HoverEvent_eq_dec : EqDecision HoverEvent.
Proof. solve_decision. Defined.

(** The listener [he] names, on its element; an index past the list
    names no element and changes nothing. *)
Definition onHover (he : HoverEvent) : M unit :=
  match he with
  | CardEnter i => js_modify (fun w => set_cards (alter card_enter i (cards w)) w)
  | CardLeave i => js_modify (fun w => set_cards (alter card_leave i (cards w)) w)
  | MetricEnter i => js_modify (fun w => set_metrics (alter metric_enter i (metrics w)) w)
  | MetricLeave i => js_modify (fun w => set_metrics (alter metric_leave i (metrics w)) w)
  end.

(** Everything of the world but the styles of the cards and metrics. *)
Definition off_hover (w : World) := (stage w, storage w, consoleLog w, downloads w, randomIndex w).

(** ** Lemmas *)

Lemma card_enter_idem h : card_enter (card_enter h) = card_enter h.
Proof. reflexivity. Qed.

Lemma card_leave_idem h : card_leave (card_leave h) = card_leave h.
Proof. reflexivity. Qed.

Lemma metric_enter_idem h : metric_enter (metric_enter h) = metric_enter h.
Proof. reflexivity. Qed.

Lemma metric_leave_idem h : metric_leave (metric_leave h) = metric_leave h.
Proof. reflexivity. Qed.

Lemma alter_idem {A} (f : A -> A) i (l : list A) :
  (forall x, f (f x) = f x) -> alter f i (alter f i l) = alter f i l.
Proof. intros Hf. rewrite list_alter_alter_eq. apply list_alter_ext; [intros x _; apply Hf | done]. Qed.

Lemma alter_insert_at {A} (f : A -> A) i (l : list A) x :
  l !! i = Some x -> alter f i l = <[i := f x]> l.
Proof. intros Hx. rewrite list_insert_alter. apply list_alter_ext; [intros y Hy; congruence | done]. Qed.

(** An element's enter listener then its leave listener. *)
Lemma alter_cycle {A} (f g : A -> A) i (l : list A) x :
  l !! i = Some x -> alter g i (alter f i l) = <[i := g (f x)]> l.
Proof.
  intros Hx. rewrite (alter_insert_at f i l x Hx), (alter_insert_at g i _ (f x)).
  - by rewrite list_insert_insert_eq.
  - apply list_lookup_insert_eq. by eapply lookup_lt_Some.
Qed.

Lemma cards_set_cards v w : cards (set_cards v w) = v.
Proof. reflexivity. Qed.

Lemma metrics_set_metrics v w : metrics (set_metrics v w) = v.
Proof. reflexivity. Qed.

Lemma set_cards_twice v v' w : set_cards v (set_cards v' w) = set_cards v w.
Proof. reflexivity. Qed.

Lemma set_metrics_twice v v' w : set_metrics v (set_metrics v' w) = set_metrics v w.
Proof. reflexivity. Qed.

(** A hover listener run twice does what it does once. *)
Lemma onHover_twice he : (onHover he ;; onHover he) =js= onHover he.
Proof.
  intros w. destruct he; unfold onHover, mbind, js_mbind, js_bind, js_modify;
    rewrite ?cards_set_cards, ?metrics_set_metrics, ?set_cards_twice, ?set_metrics_twice,
      alter_idem; auto.
Qed.

Lemma onHover_run he w : onHover he w = (inr tt, exec (onHover he) w).
Proof. by destruct he. Qed.

Lemma onHover_exec_twice he w : exec (onHover he) (exec (onHover he) w) = exec (onHover he) w.
Proof.
  pose proof (f_equal snd (onHover_twice he w)) as H.
  by rewrite (run_mbind _ _ w tt (exec (onHover he) w)) in H by apply onHover_run.
Qed.

Lemma keeps_off_hover_onHover he : keeps off_hover (onHover he).
Proof. intros w. by destruct he. Qed.

Lemma keeps_stage_onHover he : keeps stage (onHover he).
Proof. intros w. by destruct he. Qed.

Lemma total_onHover he : total (onHover he).
Proof. destruct he; apply total_modify. Qed.

#[export] Hint Resolve keeps_stage_onHover keeps_off_hover_onHover total_onHover : deck.

End Hover.
