(* ===== verification/EventLoop.v ===== *)
(** * The timers of the page and the event loop that fires them

    Six callbacks are passed to [setTimeout]: the end of
    [animateSlideTransition] (app.js 224-227), which restores the slide it
    faded out; [announceSlide] (app.js 425), which appends a live region,
    and the removal of that region (app.js 413-417); and the fade-in,
    fade-out and removal of a checkbox's completion message (app.js
    604-616).  The browser fires
    the pending timers in the order of their due time, and in the order
    they were set among equal times; each firing advances the clock to
    the due time.

    The theorems: firing a timer lowers a weight of the queue (an
    announcement and a fade-out weigh two, since each sets one more timer), so
    [drain] with as much fuel as the weight empties the queue; and every
    slide faded out by an animation has a pending restore timer, an
    invariant of the transitions and of the event loop, so once the
    timers have run no slide is left invisible. *)

From S2P Require Import Prelude.
From S2P Require Import Dom.
From S2P Require Import Display.
From S2P Require Import Analytics.
From S2P Require Import Navigation.
From S2P Require Import Extensions.
From S2P Require Import Interactive.
Import Dom Display Analytics Navigation Extensions Interactive.
Open Scope string_scope.

Module EventLoop.

(** The callback of [animateSlideTransition]'s timer (app.js 224-227): the
    element it captured, the slide at position [i], is shown again. *)
Definition restoreSlide (i : nat) : M unit :=
  js_modify (fun w => set_slides (alter (set_style "1" "translateX(0)") i (slides w)) w).

Definition run_task (t : Task) : M unit :=
  match t with
  | TRestoreSlide i => restoreSlide i
  | TAnnounce => announceSlide
  | TRemoveLive id => removeAnnouncement id
  | TMsgShow id => messageShow id
  | TMsgHide id => messageHide id
  | TMsgRemove id => messageRemove id
  end.

(** [a] fires before [b]: it is due earlier, or at the same time and was
    set first. *)
Definition fires_before (a b : Timer) : bool :=
  (tm_due a <? tm_due b)%Z || ((tm_due a =? tm_due b)%Z && (tm_seq a <? tm_seq b)%nat).

(** The position of the timer that fires next, and the timer. *)
Fixpoint earliest (ts : list Timer) : option (nat * Timer) :=
  match ts with
  | [] => None
  | t :: r =>
      match earliest r with
      | Some (i, u) => if fires_before u t then Some (S i, u) else Some (0, t)
      | None => Some (0, t)
      end
  end.

(** The timer at [i] leaves the queue and the clock reaches its due time. *)
Definition pop (i : nat) (t : Timer) (w : World) : World :=
  set_clock (Z.max (clock w) (tm_due t)) (set_timers (delete i (timers w)) w).

(** One turn of the event loop; [false] when no timer is pending. *)
Definition fire : M bool :=
  ts ← js_gets timers;
  match earliest ts with
  | None => js_ret false
  | Some (i, t) => js_modify (pop i t) ;; run_task (tm_task t) ;; js_ret true
  end.

(** The event loop runs until no timer is pending, for at most [fuel]
    turns. *)
Fixpoint drain (fuel : nat) : M unit :=
  match fuel with
  | O => js_ret tt
  | S f => fire ≫= fun b : bool => if b then drain f else js_ret tt
  end.

(** The weight of the queue: an announcement and the fade-out of a
    message each set one more timer. *)
Definition task_weight (t : Task) : nat :=
  match t with TAnnounce | TMsgHide _ => 2 | _ => 1 end.

Definition load (w : World) : nat := sum_list_with (fun t => task_weight (tm_task t)) (timers w).

(** ** The queue *)

Lemma earliest_lookup ts i t : earliest ts = Some (i, t) -> ts !! i = Some t.
Proof.
  revert i. induction ts as [|u r IH]; intros i; simpl; [done|].
  destruct (earliest r) as [[j v]|] eqn:E; [destruct (fires_before v u)|];
    intros; simplify_eq/=; auto.
Qed.

Lemma earliest_None ts : earliest ts = None -> ts = [].
Proof.
  destruct ts as [|u r]; simpl; [done|].
  destruct (earliest r) as [[j v]|]; [by destruct (fires_before v u) | done].
Qed.

Lemma announceSlide_env w :
  slides (exec announceSlide w) = slides w /\
  (timers (exec announceSlide w) = timers w \/
   exists id, timers (exec announceSlide w) =
              (timers w ++ [mkTimer (clock w + 1500) (S id) (TRemoveLive id)])%list).
Proof.
  unfold announceSlide. rewrite (run_mbind _ _ w _ w) by apply getCurrentSlideTitle_run.
  destruct (js_truthy _); (split; [done|]); [right | by left]. by exists (nextId w).
Qed.

Lemma run_task_run t w : exists w', run_task t w = (inr tt, w').
Proof.
  destruct t; simpl; try by eexists.
  unfold announceSlide. rewrite (run_mbind _ _ w _ w) by apply getCurrentSlideTitle_run.
  destruct (js_truthy _); by eexists.
Qed.

Lemma fire_run w :
  fire w = match earliest (timers w) with
           | None => (inr false, w)
           | Some (i, t) => (inr true, exec (run_task (tm_task t)) (pop i t w))
           end.
Proof.
  unfold fire. js_simpl. destruct (earliest (timers w)) as [[i t]|]; [|done].
  destruct (run_task_run (tm_task t) (pop i t w)) as [w' E]. by rewrite E.
Qed.

Lemma load_run_task t w : load (exec (run_task t) w) < load w + task_weight t.
Proof.
  unfold load. destruct t; simpl; try lia.
  - destruct (announceSlide_env w) as [_ [H | [id H]]]; rewrite H; [lia|].
    rewrite sum_list_with_app. simpl. lia.
  - rewrite sum_list_with_app. simpl. lia.
Qed.

(** A callback other than the end of an animation leaves the styles of
    the slides alone and cancels no timer. *)
Lemma run_task_other t w :
  (forall k, t <> TRestoreSlide k) ->
  map sl_opacity (slides (exec (run_task t) w)) = map sl_opacity (slides w) /\
  forall x, x ∈ timers w -> x ∈ timers (exec (run_task t) w).
Proof.
  intros Ht. destruct t as [k| |id|id|id|id]; simpl; try done.
  - by destruct (Ht k).
  - destruct (announceSlide_env w) as [-> Htm]. split; [done|].
    intros x Hx. destruct Htm as [-> | [id ->]]; [done | apply elem_of_app; by left].
  - split; [done|]. intros x Hx. apply elem_of_app. by left.
Qed.

Lemma load_pop i t w :
  timers w !! i = Some t -> load (pop i t w) + task_weight (tm_task t) = load w.
Proof. intros Hi. apply (sum_list_with_delete (fun t => task_weight (tm_task t))), Hi. Qed.

Lemma fire_load w i t :
  earliest (timers w) = Some (i, t) -> load (exec fire w) < load w.
Proof.
  intros E. rewrite fire_run, E. simpl.
  pose proof (load_pop i t w (earliest_lookup _ _ _ E)) as Hp.
  pose proof (load_run_task (tm_task t) (pop i t w)) as Hr.
  lia.
Qed.

Lemma load_zero w : load w = 0 -> timers w = [].
Proof. unfold load. destruct (timers w) as [|t r]; simpl; [done|]. destruct (tm_task t); simpl; lia. Qed.

Lemma drain_step f w :
  exec (drain (S f)) w =
  match earliest (timers w) with
  | Some _ => exec (drain f) (exec fire w)
  | None => w
  end.
Proof.
  cbn [drain]. pose proof (fire_run w) as E.
  destruct (earliest (timers w)) as [[i t]|]; rewrite (exec_mbind _ _ w _ _ E); [by rewrite E | done].
Qed.

(** ** Faded slides *)

(** Slide [i] is faded out: its inline opacity is ['0']. *)
Definition faded (w : World) (i : nat) : Prop := map sl_opacity (slides w) !! i = Some "0".

(** Every faded slide has a pending timer that restores it. *)
Definition fades_pending (w : World) : Prop :=
  forall i, faded w i -> TRestoreSlide i ∈ map tm_task (timers w).

Lemma fades_pending_frame w w' :
  map sl_opacity (slides w') = map sl_opacity (slides w) ->
  (forall x, x ∈ map tm_task (timers w) -> x ∈ map tm_task (timers w')) ->
  fades_pending w -> fades_pending w'.
Proof. intros Ho Ht H i Hi. apply Ht, H. unfold faded in *. by rewrite <- Ho. Qed.

Lemma fades_pending_stage w w' : stage w' = stage w -> fades_pending w -> fades_pending w'.
Proof.
  intros Hs. apply fades_pending_frame; [by rewrite (stage_slides _ _ Hs) | by rewrite (stage_timers _ _ Hs)].
Qed.

Lemma opacities_activate_first k ss : map sl_opacity (activate_first k ss) = map sl_opacity ss.
Proof. induction ss as [|s r IH]; simpl; [done|]. case_decide; simpl; by rewrite ?IH. Qed.

Lemma fades_pending_sync w : fades_pending w -> fades_pending (exec sync w).
Proof.
  apply fades_pending_frame.
  - by rewrite slides_sync, opacities_activate_first, map_map.
  - by rewrite (proj1 (stage_sync_env w)).
Qed.

Lemma fades_pending_animate d w :
  fades_pending w -> fades_pending (exec (animateSlideTransition d) w).
Proof.
  rewrite animateSlideTransition_run. destruct (first_active_index (slides w)) as [i|]; [|done].
  intros H j Hj. unfold faded in Hj. simpl in Hj |- *.
  rewrite map_app, elem_of_app. simpl.
  destruct (decide (i = j)) as [-> | Hne]; [right; by left | left; apply H].
  unfold faded. rewrite list_lookup_fmap, list_lookup_alter_ne in Hj by done.
  by rewrite list_lookup_fmap.
Qed.

Lemma fades_pending_after_transition d w :
  fades_pending w -> fades_pending (exec (after_transition d) w).
Proof.
  rewrite after_transition_exec. intros H. apply fades_pending_sync in H.
  destruct (exec_total_then (animateSlideTransition d) (c ← js_gets currentSlide; trackSlideView c)
              (exec sync w) (animateSlideTransition_total d)) as (w2 & E & ->).
  change (fades_pending (exec (trackSlideView (currentSlide w2)) w2)).
  apply (fades_pending_stage w2); [apply keeps_stage_trackSlideView|].
  pose proof (fades_pending_animate d _ H) as Ha. by rewrite E in Ha.
Qed.

Lemma fades_pending_run_op op w : fades_pending w -> fades_pending (exec (run_op op) w).
Proof.
  pose proof (run_op_cases op w) as Hc.
  destruct (target op _ _) as [c'|]; rewrite Hc; [|done].
  intros H. by apply fades_pending_after_transition.
Qed.

(** Firing a timer other than a restore keeps every restore timer. *)
Lemma fades_pending_pop_other w i t w' :
  timers w !! i = Some t -> (forall k, tm_task t <> TRestoreSlide k) ->
  map sl_opacity (slides w') = map sl_opacity (slides w) ->
  (forall x, x ∈ delete i (timers w) -> x ∈ timers w') ->
  fades_pending w -> fades_pending w'.
Proof.
  intros Hi Ht Ho Hsub H j Hj. unfold faded in Hj. rewrite Ho in Hj.
  apply H, list_elem_of_fmap in Hj as (t' & Ht' & Hin).
  apply list_elem_of_fmap. exists t'. split; [done|].
  apply Hsub, (elem_of_delete_ne _ i _ t); [done | done |]. intros ->. by apply (Ht j).
Qed.

Lemma fades_pending_restore w i t k :
  timers w !! i = Some t -> tm_task t = TRestoreSlide k ->
  fades_pending w -> fades_pending (exec (restoreSlide k) (pop i t w)).
Proof.
  intros Hi Ht H j Hj. unfold faded in Hj. simpl in Hj |- *.
  rewrite list_lookup_fmap in Hj. destruct (decide (j = k)) as [-> | Hne].
  - rewrite list_lookup_alter_eq in Hj. destruct (slides w !! k); simpl in Hj; congruence.
  - rewrite list_lookup_alter_ne, <- list_lookup_fmap in Hj by done.
    apply H, list_elem_of_fmap in Hj as (t' & Ht' & Hin).
    apply list_elem_of_fmap. exists t'. split; [done|].
    apply (elem_of_delete_ne _ i _ t); [done | done |]. intros ->. congruence.
Qed.

Lemma fades_pending_fire w : fades_pending w -> fades_pending (exec fire w).
Proof.
  rewrite fire_run. destruct (earliest (timers w)) as [[i t]|] eqn:E; [|done].
  pose proof (earliest_lookup _ _ _ E) as Hi. simpl. intros H.
  assert ((exists k, tm_task t = TRestoreSlide k) \/ forall k, tm_task t <> TRestoreSlide k)
    as [[k Ht] | Hk] by (destruct (tm_task t); eauto; right; discriminate).
  - rewrite Ht. by apply (fades_pending_restore w i t k).
  - destruct (run_task_other (tm_task t) (pop i t w) Hk) as [Ho Hsub].
    apply (fades_pending_pop_other w i t); [done | done | by rewrite Ho | | done].
    intros x Hx. by apply Hsub.
Qed.

Lemma fades_pending_drain fuel w : fades_pending w -> fades_pending (exec (drain fuel) w).
Proof.
  revert w. induction fuel as [|f IH]; intros w H; [done|].
  rewrite drain_step. destruct (earliest _); [|done]. by apply IH, fades_pending_fire.
Qed.

Lemma fire_total : total fire.
Proof. intros w. unfold returns. rewrite fire_run. destruct (earliest _) as [[i t]|]; by eexists. Qed.

Lemma drain_total fuel : total (drain fuel).
Proof.
  induction fuel as [|f IH]; cbn [drain]; [apply total_ret|].
  apply total_bind; [apply fire_total|]. intros []; [apply IH | apply total_ret].
Qed.

Lemma fires_before_asym a b : fires_before a b = true -> fires_before b a = false.
Proof.
  unfold fires_before. intros H.
  destruct (Z.ltb_spec (tm_due a) (tm_due b)), (Z.ltb_spec (tm_due b) (tm_due a)),
    (Z.eqb_spec (tm_due a) (tm_due b)), (Z.eqb_spec (tm_due b) (tm_due a)),
    (Nat.ltb_spec (tm_seq a) (tm_seq b)), (Nat.ltb_spec (tm_seq b) (tm_seq a));
    simpl in *; try congruence; lia.
Qed.

Lemma fires_before_not_trans a b c :
  fires_before a b = false -> fires_before b c = false -> fires_before a c = false.
Proof.
  unfold fires_before. intros H1 H2.
  destruct (Z.ltb_spec (tm_due a) (tm_due b)), (Z.ltb_spec (tm_due b) (tm_due c)),
    (Z.ltb_spec (tm_due a) (tm_due c)), (Z.eqb_spec (tm_due a) (tm_due b)),
    (Z.eqb_spec (tm_due b) (tm_due c)), (Z.eqb_spec (tm_due a) (tm_due c)),
    (Nat.ltb_spec (tm_seq a) (tm_seq b)), (Nat.ltb_spec (tm_seq b) (tm_seq c)),
    (Nat.ltb_spec (tm_seq a) (tm_seq c)); simpl in *; try congruence; lia.
Qed.

Lemma fires_before_irrefl a : fires_before a a = false.
Proof. unfold fires_before. rewrite Z.ltb_irrefl, Z.eqb_refl, Nat.ltb_irrefl. done. Qed.

Lemma no_faded_deck_start i : ~ faded deck_start i.
Proof.
  unfold faded.
  assert (map sl_opacity (slides deck_start) = replicate 12 EmptyString) as -> by (vm_compute; reflexivity).
  intros H. apply lookup_replicate in H as [? _]. discriminate.
Qed.

Lemma fades_pending_deck_start : fades_pending deck_start.
Proof. intros i Hi. by apply no_faded_deck_start in Hi. Qed.

Lemma drain_timers fuel w : load w <= fuel -> timers (exec (drain fuel) w) = [].
Proof.
  revert w. induction fuel as [|f IH]; intros w Hl; [simpl; apply load_zero; lia|].
  rewrite drain_step. destruct (earliest (timers w)) as [[i t]|] eqn:E.
  - apply IH. pose proof (fire_load w i t E). lia.
  - by apply earliest_None.
Qed.

(** ** Theorems *)

(** The timer that fires next is due no later than any pending timer,
    and among the timers due at that time it was set first. *)
Theorem earliest_first ts i t :
  earliest ts = Some (i, t) -> ts !! i = Some t /\ Forall (fun u => fires_before u t = false) ts.
Proof.
  intros E. split; [by apply earliest_lookup|]. revert i t E.
  induction ts as [|u r IH]; intros i t; simpl; [done|].
  destruct (earliest r) as [[j v]|] eqn:Er.
  - specialize (IH j v eq_refl). destruct (fires_before v u) eqn:Hb; intros; simplify_eq.
    + constructor; [by apply fires_before_asym | done].
    + constructor; [apply fires_before_irrefl|].
      eapply Forall_impl; [exact IH|]. intros x Hx. by apply (fires_before_not_trans x v t).
  - intros; simplify_eq. apply earliest_None in Er as ->. constructor; [apply fires_before_irrefl | done].
Qed.

(** C32: The event loop terminates: with as many turns as the weight of the
    queue, it never throws and leaves no timer pending. *)
Theorem drain_empties fuel w :
  load w <= fuel -> timers (exec (drain fuel) w) = [] /\ returns (drain fuel) w.
Proof.
  intros Hl. split; [by apply drain_timers | apply drain_total].
Qed.

(** C31: Every slide an animation faded out has a pending restore timer: the
    controller's calls and the event loop keep this. *)
Theorem fades_pending_invariant :
  (forall op w, fades_pending w -> fades_pending (exec (run_op op) w)) /\
  (forall w, fades_pending w -> fades_pending (exec fire w)) /\
  fades_pending deck_start.
Proof.
  split_and!; [apply fades_pending_run_op | apply fades_pending_fire | apply fades_pending_deck_start].
Qed.

(** C9: Once the timers have run, no slide is left faded out: every
    animation's fade is undone, however the transitions interleaved. *)
Theorem animations_restored fuel w :
  fades_pending w -> load w <= fuel -> forall i, ~ faded (exec (drain fuel) w) i.
Proof.
  intros Hf Hl i Hi. apply (fades_pending_drain fuel) in Hf. apply Hf in Hi.
  rewrite (drain_timers fuel w Hl) in Hi. set_solver.
Qed.

(** ** Witnesses *)

Lemma earliest_first_witness :
  [mkTimer 150 3 TAnnounce; mkTimer 100 2 (TRestoreSlide 1); mkTimer 100 4 (TRemoveLive 0)] !! 1%nat =
    Some (mkTimer 100 2 (TRestoreSlide 1)) /\
  Forall (fun u => fires_before u (mkTimer 100 2 (TRestoreSlide 1)) = false)
    [mkTimer 150 3 TAnnounce; mkTimer 100 2 (TRestoreSlide 1); mkTimer 100 4 (TRemoveLive 0)].
Proof. apply earliest_first. reflexivity. Defined.

Lemma drain_empties_witness :
  timers (exec (drain 10) (exec (run_op (OpGoTo 5)) deck_start)) = [] /\
  returns (drain 10) (exec (run_op (OpGoTo 5)) deck_start).
Proof. apply drain_empties. vm_compute. lia. Defined.

Lemma animations_restored_witness :
  ~ faded (exec (drain 10) (exec (run_op (OpGoTo 5)) deck_start)) 4.
Proof.
  apply animations_restored; [| vm_compute; lia].
  apply (fades_pending_run_op (OpGoTo 5)), fades_pending_deck_start.
Defined.

End EventLoop.
