(* ===== verification/Bootstrap.v ===== *)
(** * The bootstrap of the page and the dispatch of its events

    The script's top level (app.js 640-708) registers a [DOMContentLoaded]
    listener that builds the three objects, arms a fallback timer that
    does the same unless [window.clancyPresentationController] is set,
    and registers the [resize] and [visibilitychange] handlers.  The
    constructor of [ClancyInteractiveElements] registers the hover
    listeners of the cards and metric values and the click listeners of
    the checkboxes; [window.exportClancyPresentationData] can be called
    from the console like [window.goToSlide].  The
    controller's constructor (app.js 4-33) sets its counters, registers
    the listeners of [setupEventListeners] (app.js 35-71) at once or on
    [DOMContentLoaded], and renders.

    The state is a [Boot] record: the page (a [Dom.World]), the document's
    [readyState], whether [DOMContentLoaded] and the fallback timer are
    still to come, the controllers built so far (their two counters and
    their method slots), the [window] globals, and the listeners
    registered, in registration order.  A listener is a [Handler] value
    naming the closure it holds and the controller it captured.

    A controller's method runs on the page with the controller's own
    counters: [in_ctrl] loads them into the page's [currentSlide] and
    [totalSlides], runs the method of [Dom], and stores them back.  An
    event runs the listeners registered for it when it is dispatched, in
    order; an exception thrown by one is reported and the next one runs.

    The theorems: every listener, the window's controller and the
    [window.goToSlide] binding refer to a controller that exists, after
    any sequence of events; when [DOMContentLoaded] builds the
    controllers, or the fallback does and [DOMContentLoaded] is not to
    come, the page invariant of the components (slide number in range and
    shown, progress bar up to date, every faded slide with a restore
    timer) holds and every later event keeps it; and when the fallback
    timer fires before [DOMContentLoaded], the page gets two controllers,
    a key press reaches both, and a checkbox click toggles twice, while a
    hover event, however many listeners it has, acts once
    ([hover_step]); the mouseenter and mouseleave events of a card or a
    metric value set exactly the styles of their listeners and nothing
    else ([hover_card_cycle], [hover_metric_cycle]). *)

From S2P Require Import Prelude.
From S2P Require Import Dom.
From S2P Require Import Display.
From S2P Require Import Analytics.
From S2P Require Import Navigation.
From S2P Require Import Input.
From S2P Require Import Extensions.
From S2P Require Import DataExport.
From S2P Require Import Interactive.
From S2P Require Import Hover.
From S2P Require Import EventLoop.
Import Dom Display Analytics DataExport Navigation Input Extensions Interactive Hover EventLoop.
Open Scope string_scope.

Module Bootstrap.

(** ** Data *)

(** [document.readyState] *)
Inductive ReadyState := Loading | Interactive | Complete.

(** The closures passed to [addEventListener], with the controller
    ([k], the index in [b_ctrls]) they captured. *)
Inductive Handler :=
| HSetup (k : nat)            (** [init]'s deferred [setupEventListeners] (app.js 20) *)
| HPrev (k : nat)             (** app.js 43-47 *)
| HNext (k : nat)             (** app.js 51-55 *)
| HIndicator (k i : nat)      (** app.js 60-64 *)
| HKeydown (k : nat)          (** app.js 68 *)
| HHelp                       (** app.js 498-503 *)
| HCheckbox (i : nat)         (** app.js 543-571 *)
| HHover (he : HoverEvent)    (** app.js 525-535, 625-635 *)
| HBoot                       (** app.js 640-674 *)
| HResize                     (** app.js 691-696 *)
| HVisibility.                (** app.js 699-708 *)

#[export] Instance Handler_eq_dec : EqDecision Handler.
Proof. solve_decision. Defined.

(** The controller a listener captured. *)
Definition handler_ctrl (h : Handler) : option nat :=
  match h with
  | HSetup k | HPrev k | HNext k | HIndicator k _ | HKeydown k => Some k
  | _ => None
  end.

(** What reaches the page from outside: DOM events, the fallback timer,
    the page's own timers, and calls of [window.goToSlide] and
    [window.exportClancyPresentationData] from the console. *)
Inductive Event :=
| EvDOMContentLoaded
| EvFallback
| EvPrevClick
| EvNextClick
| EvIndicatorClick (i : nat)
| EvKeydown (e : KeyEvent)
| EvCheckboxClick (i : nat)
| EvResize
| EvVisibility (hidden : bool)
| EvTimer
| EvHover (he : HoverEvent)
| EvWindowGoTo (n : Z)
| EvWindowExport.

(** The state a [ClancyPresentationController] keeps of its own: the two
    counters, and the method slots the enhancements replace. *)
Record Ctrl := mkCtrl { c_current : Z; c_total : Z; c_methods : Methods }.

Record Boot := mkBoot {
  b_world : World;
  b_ready : ReadyState;
  b_dcl_pending : bool;                 (** [DOMContentLoaded] is still to come *)
  b_fallback : bool;                    (** the fallback timer is pending *)
  b_ctrls : list Ctrl;
  b_window : option nat;                (** [window.clancyPresentationController] *)
  b_globals : option (nat * Globals);   (** [window.goToSlide] and its controller *)
  b_listeners : list Handler
}.

Definition set_world (v : World) (b : Boot) : Boot :=
  mkBoot v (b_ready b) (b_dcl_pending b) (b_fallback b) (b_ctrls b) (b_window b)
    (b_globals b) (b_listeners b).
Definition set_ready (v : ReadyState) (b : Boot) : Boot :=
  mkBoot (b_world b) v (b_dcl_pending b) (b_fallback b) (b_ctrls b) (b_window b)
    (b_globals b) (b_listeners b).
Definition set_dcl_pending (v : bool) (b : Boot) : Boot :=
  mkBoot (b_world b) (b_ready b) v (b_fallback b) (b_ctrls b) (b_window b)
    (b_globals b) (b_listeners b).
Definition set_fallback (v : bool) (b : Boot) : Boot :=
  mkBoot (b_world b) (b_ready b) (b_dcl_pending b) v (b_ctrls b) (b_window b)
    (b_globals b) (b_listeners b).
Definition set_ctrls (v : list Ctrl) (b : Boot) : Boot :=
  mkBoot (b_world b) (b_ready b) (b_dcl_pending b) (b_fallback b) v (b_window b)
    (b_globals b) (b_listeners b).
Definition set_window (v : option nat) (b : Boot) : Boot :=
  mkBoot (b_world b) (b_ready b) (b_dcl_pending b) (b_fallback b) (b_ctrls b) v
    (b_globals b) (b_listeners b).
Definition set_globals (v : option (nat * Globals)) (b : Boot) : Boot :=
  mkBoot (b_world b) (b_ready b) (b_dcl_pending b) (b_fallback b) (b_ctrls b) (b_window b)
    v (b_listeners b).
Definition set_listeners (v : list Handler) (b : Boot) : Boot :=
  mkBoot (b_world b) (b_ready b) (b_dcl_pending b) (b_fallback b) (b_ctrls b) (b_window b)
    (b_globals b) v.

Abbreviation BM := (JS Boot).

(** ** Running the components' code *)

(** Code that does not use a controller runs on the page. *)
Definition lift {A} (c : M A) : BM A :=
  fun b => let r := c (b_world b) in (r.1, set_world r.2 b).

(** The page as controller [ct]'s methods see it, and the controller
    after a method ran. *)
Definition enter (ct : Ctrl) (w : World) : World :=
  set_currentSlide (c_current ct) (set_totalSlides (c_total ct) w).

Definition leave (ct : Ctrl) (w : World) : Ctrl :=
  mkCtrl (currentSlide w) (totalSlides w) (c_methods ct).

(** A call on controller [k] with [this] bound to it; [None] when there
    is no such controller. *)
Definition in_ctrl {A} (k : nat) (f : Methods -> M A) : BM (option A) :=
  fun b =>
    match b_ctrls b !! k with
    | None => (inr None, b)
    | Some ct =>
        let r := f (c_methods ct) (enter ct (b_world b)) in
        (match r.1 with inl e => inl e | inr a => inr (Some a) end,
         set_ctrls (<[k := leave ct r.2]> (b_ctrls b)) (set_world r.2 b))
    end.

(** [target.addEventListener(type, h)] *)
Definition listen (h : Handler) : BM unit :=
  js_modify (fun b => set_listeners (b_listeners b ++ [h]) b).

Definition listeners_set_up : string :=
  "Clancy Brothers presentation event listeners set up successfully".

(** [setupEventListeners] (app.js 35-71): the buttons and the indicators
    are queried again, and a listener is added to each one found. *)
Definition setupEventListeners (k : nat) : BM unit :=
  w ← js_gets b_world;
  match prevBtn w with Some _ => listen (HPrev k) | None => js_ret tt end ;;
  match nextBtn w with Some _ => listen (HNext k) | None => js_ret tt end ;;
  js_forEach (fun i => listen (HIndicator k i)) (seq 0 (length (indicators w))) ;;
  listen (HKeydown k) ;;
  lift (console_log listeners_set_up None).

(** The render of [init] (app.js 26-32): the slide, the buttons and the
    total counter. *)
Definition init_render : M unit :=
  updateDisplay ;;
  updateButtonStates ;;
  t ← js_gets totalSlides;
  js_modify (fun w => set_totalSlidesElement (const (pretty t) <$> totalSlidesElement w) w).

(** [new ClancyPresentationController()] (app.js 4-33); the result is the
    new controller's index. *)
Definition controller_new : BM nat :=
  k ← js_gets (fun b => length (b_ctrls b));
  js_modify (fun b => set_ctrls (b_ctrls b ++ [mkCtrl 1 12 base_methods]) b) ;;
  rs ← js_gets b_ready;
  match rs with
  | Loading => listen (HSetup k)
  | _ => setupEventListeners k
  end ;;
  in_ctrl k (fun _ => init_render) ;;
  js_ret k.

(** [new ClancyPresentationEnhancements(controller)] (app.js 309-326): the
    slots of controller [k] are wrapped, [window.goToSlide] is bound to
    it, and the help key listener is added. *)
Definition enhancements_new (k : nat) : BM unit :=
  oi ← in_ctrl k enhancements_init;
  match oi with
  | Some inst =>
      js_modify (fun b =>
        set_globals (Some (k, inst_globals inst))
          (set_ctrls (alter (fun ct => mkCtrl (c_current ct) (c_total ct) (inst_methods inst)) k
                        (b_ctrls b)) b))
  | None => js_ret tt
  end ;;
  listen HHelp.

(** [enhanceCards] (app.js 520-537): the two hover listeners of each
    card. *)
Definition enhanceCards : BM unit :=
  w ← js_gets b_world;
  js_forEach (fun i => listen (HHover (CardEnter i)) ;; listen (HHover (CardLeave i)))
    (seq 0 (length (cards w))).

(** [addBusinessMetrics] (app.js 620-637): the two hover listeners of
    each metric value. *)
Definition addBusinessMetrics : BM unit :=
  w ← js_gets b_world;
  js_forEach (fun i => listen (HHover (MetricEnter i)) ;; listen (HHover (MetricLeave i)))
    (seq 0 (length (metrics w))).

(** [new ClancyInteractiveElements()] (app.js 509-518): the hover
    listeners of the cards, a click listener on each checkbox and the
    restoration of the boxes, and the hover listeners of the metrics. *)
Definition interactive_new : BM unit :=
  enhanceCards ;;
  w ← js_gets b_world;
  js_forEach (fun i => listen (HCheckbox i)) (seq 0 (length (checkboxes w))) ;;
  lift enableActionItems ;;
  addBusinessMetrics.

(** The four statements the two initialisations share (app.js 642-654,
    681-685): the objects, the first view, and the global. *)
Definition boot_objects : BM nat :=
  k ← controller_new;
  enhancements_new k ;;
  interactive_new ;;
  in_ctrl k (fun _ => trackSlideView 1) ;;
  js_modify (set_window (Some k)) ;;
  js_ret k.

Definition welcome_lines : list string :=
  ["🏢 Clancy Brothers Pest Control LLC - 2025 Performance & MailChimp Integration Strategy";
   "📊 Presentation loaded successfully!";
   "🎮 Navigation: Use Previous/Next buttons, slide indicators, or keyboard shortcuts";
   "⌨️  Keyboard shortcuts:";
   "   • Arrow keys / Space: Navigate slides";
   "   • Number keys (1-9, 0): Jump to slides 1-10";
   "   • Ctrl+1/2: Jump to slides 11-12";
   "   • Home/End: First/Last slide";
   "   • Escape: Toggle fullscreen";
   "   • F1 or Shift+?: Show keyboard shortcuts";
   "🔧 Business utilities:";
   "   • exportClancyPresentationData(): Export presentation analytics";
   "   • getClancyPresentationProgress(): Get current progress";
   "   • printClancyPresentation(): Print presentation"].

(** The last line of the welcome (app.js 673). *)
Definition currently_viewing : M unit :=
  c ← js_gets currentSlide;
  title ← getCurrentSlideTitle;
  console_log ("📍 Currently viewing: Slide " ++ pretty c ++ " - " ++ title) None.

(** The [DOMContentLoaded] listener of the script (app.js 640-674). *)
Definition onDOMContentLoaded : BM unit :=
  k ← boot_objects;
  lift (js_forEach (fun l => console_log l None) welcome_lines) ;;
  in_ctrl k (fun _ => currently_viewing) ;;
  js_ret tt.

Definition fallback_message : string :=
  "Fallback initialization triggered for Clancy Brothers presentation".

(** The fallback timer's callback (app.js 678-687). *)
Definition onFallbackTimer : BM unit :=
  kw ← js_gets b_window;
  match kw with
  | Some _ => js_ret tt
  | None => lift (console_log fallback_message None) ;; boot_objects ;; js_ret tt
  end.

(** The [resize] handler (app.js 691-696). *)
Definition onResize : BM unit :=
  kw ← js_gets b_window;
  match kw with
  | Some k => in_ctrl k (fun _ => updateDisplay) ;; js_ret tt
  | None => js_ret tt
  end.

(** The [visibilitychange] handler (app.js 699-708). *)
Definition onVisibilityChange (hidden : bool) : BM unit :=
  if hidden then lift (console_log "Clancy Brothers presentation hidden" None)
  else
    lift (console_log "Clancy Brothers presentation visible" None) ;;
    onResize.

(** ** Dispatch *)

(** The listeners an event runs. *)
Definition listens (ev : Event) (h : Handler) : bool :=
  match ev, h with
  | EvDOMContentLoaded, (HSetup _ | HBoot) => true
  | EvPrevClick, HPrev _ => true
  | EvNextClick, HNext _ => true
  | EvIndicatorClick i, HIndicator _ j => Nat.eqb i j
  | EvKeydown _, (HKeydown _ | HHelp) => true
  | EvCheckboxClick i, HCheckbox j => Nat.eqb i j
  | EvHover he, HHover he' => bool_decide (he = he')
  | EvResize, HResize => true
  | EvVisibility _, HVisibility => true
  | _, _ => false
  end.

(** The body of a listener, on the event it receives. *)
Definition run_handler (ev : Event) (h : Handler) : BM unit :=
  match h with
  | HSetup k => setupEventListeners k
  | HPrev k => in_ctrl k onPrevClick ;; js_ret tt
  | HNext k => in_ctrl k onNextClick ;; js_ret tt
  | HIndicator k i => in_ctrl k (fun m => onIndicatorClick m i) ;; js_ret tt
  | HKeydown k =>
      match ev with
      | EvKeydown e => in_ctrl k (fun m => handleKeyPress m e) ;; js_ret tt
      | _ => js_ret tt
      end
  | HHelp =>
      match ev with
      | EvKeydown e => lift (helpKey e) ;; js_ret tt
      | _ => js_ret tt
      end
  | HCheckbox i => lift (onCheckboxClick i)
  | HHover he => lift (onHover he)
  | HBoot => onDOMContentLoaded
  | HResize => onResize
  | HVisibility =>
      match ev with
      | EvVisibility hidden => onVisibilityChange hidden
      | _ => js_ret tt
      end
  end.

(** [dispatchEvent]: the listeners registered when the event is
    dispatched, in order; an exception in one is reported and does not
    stop the others. *)
Definition dispatch (ev : Event) : BM unit :=
  hs ← js_gets (fun b => filter (fun h => listens ev h = true) (b_listeners b));
  js_forEach (fun h => js_try (run_handler ev h) (fun _ => js_ret tt)) hs.

(** One event.  [DOMContentLoaded] comes once and makes the document
    interactive; the fallback timer fires once; a timer callback runs for
    the window's controller (the only one when the page was set up once);
    [window.goToSlide] and the export are undefined, and calling them a
    [TypeError], before the enhancements bind them. *)
Definition step (ev : Event) : BM unit :=
  match ev with
  | EvDOMContentLoaded =>
      p ← js_gets b_dcl_pending;
      if (p : bool) then js_modify (fun b => set_ready Interactive (set_dcl_pending false b)) ;; dispatch ev
      else js_ret tt
  | EvFallback =>
      p ← js_gets b_fallback;
      if (p : bool) then js_modify (set_fallback false) ;; onFallbackTimer else js_ret tt
  | EvTimer =>
      kw ← js_gets b_window;
      match kw with
      | Some k => in_ctrl k (fun _ => fire) ;; js_ret tt
      | None => lift fire ;; js_ret tt
      end
  | EvWindowGoTo n =>
      g ← js_gets b_globals;
      match g with
      | Some (k, gl) => in_ctrl k (fun _ => win_goToSlide gl n) ;; js_ret tt
      | None => js_throw TypeError
      end
  | EvWindowExport =>
      g ← js_gets b_globals;
      match g with
      | Some (k, gl) => in_ctrl k (fun _ => win_export gl) ;; js_ret tt
      | None => js_throw TypeError
      end
  | _ => dispatch ev
  end.

Definition run_events (evs : list Event) : BM unit :=
  js_forEach (fun ev => js_try (step ev) (fun _ => js_ret tt)) evs.

(** The script's top level (app.js 640-708) on a page whose [readyState]
    is [rs]; [pending] says whether [DOMContentLoaded] is still to come. *)
Definition script : BM unit :=
  listen HBoot ;;
  rs ← js_gets b_ready;
  js_when (match rs with Loading => false | _ => true end) (js_modify (set_fallback true)) ;;
  listen HResize ;;
  listen HVisibility.

Definition boot_page (w : World) (rs : ReadyState) (pending : bool) : Boot :=
  mkBoot w rs pending false [] None None [].

Definition script_start (w : World) (rs : ReadyState) (pending : bool) : Boot :=
  exec script (boot_page w rs pending).

Definition boot_step (b b' : Boot) : Prop := exists ev, b' = exec (step ev) b.

(** ** What the theorems talk about *)

(** A listener's controller, the window's and [window.goToSlide]'s exist
    among the [n] first controllers. *)
Definition handler_ok (n : nat) (h : Handler) : Prop :=
  match handler_ctrl h with Some k => k < n | None => True end.

Definition ref_ok (n : nat) (o : option nat) : Prop :=
  match o with Some k => k < n | None => True end.

Definition boot_wf (b : Boot) : Prop :=
  Forall (handler_ok (length (b_ctrls b))) (b_listeners b) /\
  ref_ok (length (b_ctrls b)) (b_window b) /\
  ref_ok (length (b_ctrls b)) (fst <$> b_globals b).

(** [boot_wf], with at least [n] controllers. *)
Definition wf_ge (n : nat) (b : Boot) : Prop := boot_wf b /\ n <= length (b_ctrls b).

(** ** The type invariant *)

Lemma handler_ok_mono n n' h : n <= n' -> handler_ok n h -> handler_ok n' h.
Proof. unfold handler_ok. destruct (handler_ctrl h); lia. Qed.

Lemma ref_ok_mono n n' o : n <= n' -> ref_ok n o -> ref_ok n' o.
Proof. unfold ref_ok. destruct o; lia. Qed.

Lemma wf_ge_mono n n' b : n <= n' -> wf_ge n' b -> wf_ge n b.
Proof. unfold wf_ge. intros ? [? ?]. split; [done | lia]. Qed.

Lemma wf_ge_0 b : wf_ge 0 b <-> boot_wf b.
Proof. unfold wf_ge. split; [tauto | split; [done | lia]]. Qed.

Lemma lift_wf {A} n (c : M A) : preserves (wf_ge n) (lift c).
Proof. intros b Hb. exact Hb. Qed.

Lemma in_ctrl_wf {A} n k (f : Methods -> M A) : preserves (wf_ge n) (in_ctrl k f).
Proof.
  intros b Hb. unfold in_ctrl. destruct (b_ctrls b !! k) as [ct|]; [|done].
  unfold wf_ge, boot_wf in *. cbn. by rewrite length_insert.
Qed.

Lemma listen_wf n h : handler_ok n h -> preserves (wf_ge n) (listen h).
Proof.
  intros Hh b [(Hl & Hw & Hg) Hn]. split; [|done]. split_and!; try done.
  cbn. apply Forall_app. split; [done|]. constructor; [|done]. by apply (handler_ok_mono n).
Qed.

#[local] Hint Resolve lift_wf in_ctrl_wf : deck.

(** Close the side conditions [handler_ok n h] of [listen_wf]. *)
Ltac wf_tac :=
  preserves_tac;
  try (apply listen_wf; cbn; lia);
  try (apply preserves_forEach; intros; apply listen_wf; cbn; lia).

Lemma setupEventListeners_wf n k : k < n -> preserves (wf_ge n) (setupEventListeners k).
Proof. intros Hk. unfold setupEventListeners. wf_tac. Qed.

Lemma setupEventListeners_total k : total (setupEventListeners k).
Proof.
  unfold setupEventListeners, listen, lift. total_tac.
  apply total_forEach. intros. apply total_modify.
Qed.

Lemma in_ctrl_total {A} k (f : Methods -> M A) : (forall m, total (f m)) -> total (in_ctrl k f).
Proof.
  intros Hf b. unfold returns, in_ctrl. destruct (b_ctrls b !! k) as [ct|]; [|by eexists].
  destruct (Hf (c_methods ct) (enter ct (b_world b))) as [a Ha].
  destruct (f (c_methods ct) (enter ct (b_world b))) as [[e|a'] w']; simpl in *; [done|by eexists].
Qed.

Lemma init_render_total : total init_render.
Proof. intros w. by eexists. Qed.

#[local] Hint Resolve setupEventListeners_total init_render_total in_ctrl_total : deck.

(** The constructor returns the index of the controller it appended. *)
Lemma controller_new_triple n :
  triple (wf_ge n) controller_new (fun k b => n <= S k /\ wf_ge (S k) b).
Proof.
  unfold controller_new.
  apply triple_mbind with (Q := fun k b => wf_ge n b /\ k = length (b_ctrls b)).
  { apply triple_gets. done. }
  intros k. apply triple_mbind with (Q := fun _ b => n <= S k /\ wf_ge (S k) b).
  { apply triple_modify. intros b [[(Hl & Hw & Hg) Hn] ->].
    unfold wf_ge, boot_wf. cbn [b_ctrls b_listeners b_window b_globals set_ctrls].
    rewrite length_app. cbn [length]. split; [lia|]. split; [|lia].
    split_and!.
    - eapply Forall_impl; [done|]. intros h. apply handler_ok_mono. lia.
    - eapply ref_ok_mono; [|done]. lia.
    - eapply ref_ok_mono; [|done]. lia. }
  intros []. apply triple_mbind with (Q := fun _ b => n <= S k /\ wf_ge (S k) b).
  { apply triple_gets. done. }
  intros rs. apply triple_mbind with (Q := fun _ b => n <= S k /\ wf_ge (S k) b).
  { apply triple_pure. intros _. apply triple_of_preserves.
    - destruct rs; total_tac.
    - destruct rs; [apply listen_wf; cbn; lia | ..]; apply setupEventListeners_wf; lia. }
  intros []. apply triple_mbind with (Q := fun _ b => n <= S k /\ wf_ge (S k) b).
  { apply triple_pure. intros _. apply triple_of_preserves; [total_tac | apply in_ctrl_wf]. }
  intros _. by apply triple_ret.
Qed.

Lemma enhancements_new_wf n k : k < n -> preserves (wf_ge n) (enhancements_new k).
Proof.
  intros Hk. unfold enhancements_new. wf_tac.
  apply preserves_modify. intros b [(Hl & Hw & Hg) Hn].
  unfold wf_ge, boot_wf. cbn [b_ctrls b_listeners b_window b_globals set_ctrls set_globals].
  rewrite length_alter. split_and!; try done. cbn. lia.
Qed.

Lemma hover_listeners_wf n (f : nat -> HoverEvent) (g : nat -> HoverEvent) l :
  preserves (wf_ge n) (js_forEach (fun i => listen (HHover (f i)) ;; listen (HHover (g i))) l).
Proof. apply preserves_forEach. intros. preserves_tac; by apply listen_wf. Qed.

Lemma enhanceCards_wf n : preserves (wf_ge n) enhanceCards.
Proof. unfold enhanceCards. preserves_tac. apply hover_listeners_wf. Qed.

Lemma addBusinessMetrics_wf n : preserves (wf_ge n) addBusinessMetrics.
Proof. unfold addBusinessMetrics. preserves_tac. apply hover_listeners_wf. Qed.

#[local] Hint Resolve enhanceCards_wf addBusinessMetrics_wf : deck.

Lemma interactive_new_wf n : preserves (wf_ge n) interactive_new.
Proof. unfold interactive_new. wf_tac. Qed.

Lemma boot_objects_wf n : preserves (wf_ge n) boot_objects.
Proof.
  unfold boot_objects. apply (preserves_triple_bind _ _ _ _ (controller_new_triple n)).
  intros k b [Hn Hb]. apply (wf_ge_mono n (S k)); [done|]. revert b Hb.
  assert (Hk : k < S k) by lia. pose proof interactive_new_wf. pose proof enhancements_new_wf.
  wf_tac. apply preserves_modify. intros b1 [(Hl & Hw & Hg) Hn']. split; [|done].
  split_and!; try done; cbn; lia.
Qed.

#[local] Hint Resolve boot_objects_wf : deck.

Lemma onDOMContentLoaded_wf n : preserves (wf_ge n) onDOMContentLoaded.
Proof. unfold onDOMContentLoaded. wf_tac. Qed.

Lemma onFallbackTimer_wf n : preserves (wf_ge n) onFallbackTimer.
Proof. unfold onFallbackTimer. wf_tac. Qed.

Lemma onResize_wf n : preserves (wf_ge n) onResize.
Proof. unfold onResize. wf_tac. Qed.

Lemma onVisibilityChange_wf n hidden : preserves (wf_ge n) (onVisibilityChange hidden).
Proof. unfold onVisibilityChange. pose proof onResize_wf. wf_tac. Qed.

#[local] Hint Resolve onDOMContentLoaded_wf onFallbackTimer_wf onResize_wf onVisibilityChange_wf : deck.

Lemma run_handler_wf n ev h : handler_ok n h -> preserves (wf_ge n) (run_handler ev h).
Proof.
  intros Hh. destruct h; cbn [run_handler]; unfold handler_ok in Hh; cbn in Hh;
    [by apply setupEventListeners_wf | ..]; wf_tac.
Qed.

Lemma dispatch_wf ev : preserves (wf_ge 0) (dispatch ev).
Proof.
  unfold dispatch.
  apply (preserves_triple_bind _ (fun hs b => exists n, wf_ge n b /\ Forall (handler_ok n) hs)).
  - apply triple_gets. intros b Hb. exists (length (b_ctrls b)).
    split; [split; [apply Hb | done]|]. apply Forall_forall. intros h Hh.
    apply list_elem_of_filter in Hh as [_ Hh]. destruct Hb as [(Hl & _ & _) _].
    by eapply Forall_forall.
  - intros hs b (n & Hb & Hhs). apply (wf_ge_mono 0 n); [lia|]. revert b Hb.
    apply preserves_forEach. intros h Hin.
    apply preserves_try; [|intros; apply preserves_ret].
    apply run_handler_wf. by eapply Forall_forall.
Qed.

#[local] Hint Resolve dispatch_wf : deck.

Lemma step_wf ev : preserves (wf_ge 0) (step ev).
Proof. destruct ev; cbn [step]; wf_tac. Qed.

Lemma script_wf : preserves (wf_ge 0) script.
Proof. unfold script. wf_tac. Qed.

(** ** The page invariant of the components *)

(** What the slide, the counters, the buttons and the bar show. *)
Definition shown (w : World) := (view w, progressFill w).

(** The slide number is in range and shown, the progress bar shows it,
    and every faded slide has a pending restore timer. *)
Definition page_inv (w : World) : Prop := nav_wf w /\ progress_shown w /\ fades_pending w.

Lemma page_inv_shown w w' : shown w' = shown w -> fades_pending w' -> page_inv w -> page_inv w'.
Proof.
  intros Hs Hf (Hn & Hp & _).
  pose proof (f_equal fst Hs) as Hv. pose proof (f_equal snd Hs) as Hpf. cbn [fst snd shown] in Hv, Hpf.
  split_and!; [apply (nav_wf_view w); [by rewrite Hv | done] | | done].
  unfold view in Hv. simplify_eq. unfold progress_shown in *. congruence.
Qed.

Lemma preserves_page_inv {A} (c : M A) :
  keeps shown c -> preserves fades_pending c -> preserves page_inv c.
Proof. intros Hk Hf w Hw. apply (page_inv_shown w); [apply Hk | apply Hf, Hw | done]. Qed.

Lemma keeps_shown_of_page {A} (c : M A) : keeps page c -> keeps shown c.
Proof.
  intros H w. unfold shown. rewrite (keeps_view_of_page c H w). specialize (H w).
  unfold page in H. injection H. intros. congruence.
Qed.

Lemma keeps_shown_of_stage {A} (c : M A) : keeps stage c -> keeps shown c.
Proof. intros H. by apply keeps_shown_of_page, keeps_page_of_stage. Qed.

Lemma keeps_nav_of_shown {A} (c : M A) : keeps shown c -> keeps nav_of c.
Proof.
  intros H w. specialize (H w). unfold shown, view in H. unfold nav_of. injection H. intros. congruence.
Qed.

Lemma fades_of_stage {A} (c : M A) : keeps stage c -> preserves fades_pending c.
Proof. intros H w. apply fades_pending_stage, H. Qed.

Lemma setTimeout_fades t d : preserves fades_pending (setTimeout t d).
Proof.
  intros w. apply fades_pending_frame; [reflexivity|]. intros x Hx.
  change (timers (exec (setTimeout t d) w)) with ((timers w ++ [mkTimer (clock w + d) (nextId w) t])%list).
  rewrite map_app, elem_of_app. by left.
Qed.

Lemma updateProgress_fades : preserves fades_pending updateProgress.
Proof. intros w H. exact H. Qed.

Lemma goToSlide_fades n : preserves fades_pending (goToSlide n).
Proof. exact (fades_pending_run_op (OpGoTo n)). Qed.
Lemma nextSlide_fades : preserves fades_pending nextSlide.
Proof. exact (fades_pending_run_op OpNext). Qed.
Lemma previousSlide_fades : preserves fades_pending previousSlide.
Proof. exact (fades_pending_run_op OpPrev). Qed.

#[local] Hint Resolve keeps_shown_of_stage keeps_shown_of_page fades_of_stage setTimeout_fades
  updateProgress_fades goToSlide_fades nextSlide_fades previousSlide_fades : deck.

(** The slots after the enhancements, and [window.goToSlide]. *)
Definition deck_methods : Methods := with_announcement (with_progress base_methods).
Definition deck_globals : Globals := addBusinessFeatures (with_progress base_methods).

Lemma then_progress_inv (c : M unit) :
  total c -> preserves nav_wf c -> preserves fades_pending c -> preserves page_inv (c ;; updateProgress).
Proof.
  intros Ht Hn Hf.
  assert (Hn' : preserves nav_wf (c ;; updateProgress)) by preserves_tac.
  assert (Hf' : preserves fades_pending (c ;; updateProgress)) by preserves_tac.
  intros w (Hw & _ & Hfw). split_and!; [by apply Hn' | by apply progress_shown_then | by apply Hf'].
Qed.

Lemma then_announce_inv (c : M unit) :
  total c -> preserves nav_wf c -> preserves fades_pending c ->
  preserves page_inv ((c ;; updateProgress) ;; setTimeout TAnnounce 100).
Proof.
  intros Ht Hn Hf.
  assert (Hn' : preserves nav_wf ((c ;; updateProgress) ;; setTimeout TAnnounce 100)) by preserves_tac.
  assert (Hf' : preserves fades_pending ((c ;; updateProgress) ;; setTimeout TAnnounce 100))
    by preserves_tac.
  intros w (Hw & _ & Hfw).
  split_and!; [by apply Hn' | by apply progress_shown_then_announce | by apply Hf'].
Qed.

Lemma deck_goTo_inv n : preserves page_inv (m_goToSlide deck_methods n).
Proof.
  apply then_announce_inv; [apply (run_op_total (OpGoTo n)) | exact (run_op_wf (OpGoTo n)) |
    apply goToSlide_fades].
Qed.

Lemma deck_next_inv : preserves page_inv (m_nextSlide deck_methods).
Proof. apply then_progress_inv; [apply (run_op_total OpNext) | exact (run_op_wf OpNext) | auto with deck]. Qed.

Lemma deck_prev_inv : preserves page_inv (m_previousSlide deck_methods).
Proof. apply then_progress_inv; [apply (run_op_total OpPrev) | exact (run_op_wf OpPrev) | auto with deck]. Qed.

Lemma window_goTo_inv n : preserves page_inv (win_goToSlide deck_globals n).
Proof.
  apply then_progress_inv; [apply (run_op_total (OpGoTo n)) | exact (run_op_wf (OpGoTo n)) |
    apply goToSlide_fades].
Qed.

Lemma window_export_inv : preserves page_inv (win_export deck_globals).
Proof. apply preserves_page_inv; [apply keeps_shown_of_stage, keeps_stage_export |].
  apply fades_of_stage, keeps_stage_export. Qed.

Lemma toggleFullscreen_inv : preserves page_inv toggleFullscreen.
Proof. apply preserves_page_inv; unfold toggleFullscreen; [keeps_tac | preserves_tac]. Qed.

Lemma handleKeyPress_inv e : preserves page_inv (handleKeyPress deck_methods e).
Proof.
  apply handleKeyPress_invariant;
    [apply deck_goTo_inv | apply deck_next_inv | apply deck_prev_inv | apply toggleFullscreen_inv].
Qed.

Lemma keeps_shown_helpKey e : keeps shown (helpKey e).
Proof. unfold helpKey. keeps_tac. Qed.

Lemma keeps_shown_onCheckboxClick i : keeps shown (onCheckboxClick i).
Proof. unfold onCheckboxClick, set_box, showCompletionMessage. keeps_tac. Qed.

Lemma fades_onCheckboxClick i : preserves fades_pending (onCheckboxClick i).
Proof. unfold onCheckboxClick, set_box, showCompletionMessage. preserves_tac. Qed.

Lemma keeps_shown_enableActionItems : keeps shown enableActionItems.
Proof.
  unfold enableActionItems. keeps_tac. apply keeps_forEach. intros i.
  unfold restoreCheckbox, set_box. keeps_tac.
Qed.

Lemma fades_enableActionItems : preserves fades_pending enableActionItems.
Proof.
  unfold enableActionItems. preserves_tac. apply preserves_forEach. intros i _.
  unfold restoreCheckbox, set_box. preserves_tac.
Qed.

Lemma keeps_shown_run_task t : keeps shown (run_task t).
Proof.
  destruct t; cbn [run_task].
  - intros w. unfold shown, view. cbn. by rewrite map_slide_state_alter_style.
  - unfold announceSlide. keeps_tac.
  - unfold removeAnnouncement. keeps_tac.
  - unfold messageShow, set_message_opacity. keeps_tac.
  - unfold messageHide, set_message_opacity. keeps_tac.
  - unfold messageRemove. keeps_tac.
Qed.

#[local] Hint Resolve keeps_shown_run_task : deck.

Lemma keeps_shown_fire : keeps shown fire.
Proof. unfold fire. keeps_tac. Qed.

Lemma fire_inv : preserves page_inv fire.
Proof. apply preserves_page_inv; [apply keeps_shown_fire | intros w; apply fades_pending_fire]. Qed.

Lemma updateDisplay_inv : preserves page_inv updateDisplay.
Proof.
  intros w ((Hb & Hr) & Hp & Hf). change (exec updateDisplay w) with (render w).
  split_and!; [split; [exact Hb | by apply rendered_render] | exact Hp |].
  apply (fades_pending_frame (exec sync w)); [reflexivity | done | by apply fades_pending_sync].
Qed.

(** ** The invariant of a page set up once *)

(** The controller's counters are the page's. *)
Definition synced (ct : Ctrl) (w : World) : Prop :=
  c_current ct = currentSlide w /\ c_total ct = totalSlides w.

(** One controller, with the enhanced slots and [window.goToSlide] bound
    to it, [DOMContentLoaded] past, and the page invariant. *)
Definition app_core (b : Boot) : Prop :=
  b_dcl_pending b = false /\ b_globals b = Some (0, deck_globals) /\
  (exists ct, b_ctrls b = [ct] /\ c_methods ct = deck_methods /\ synced ct (b_world b)) /\
  page_inv (b_world b).

(** ... with [window.clancyPresentationController] set to [win] ... *)
Definition app_at (win : option nat) (b : Boot) : Prop := app_core b /\ b_window b = win.

(** ... and to that controller. *)
Definition app_inv : Boot -> Prop := app_at (Some 0).

Lemma enter_synced ct w : synced ct w -> enter ct w = w.
Proof.
  intros [Hc Ht]. unfold enter, set_currentSlide, set_totalSlides.
  destruct w; cbn in *. by rewrite Hc, Ht.
Qed.

Lemma in_ctrl_app {A} win k (f : Methods -> M A) :
  preserves page_inv (f deck_methods) -> preserves (app_at win) (in_ctrl k f).
Proof.
  intros Hf b Hb. pose proof Hb as [(Hd & Hg & (ct & Hc & Hm & Hs) & Hp) Hw].
  unfold in_ctrl. rewrite Hc. destruct k as [|k]; cbn [lookup list_lookup]; [|done]. rewrite enter_synced, Hm by done.
  split; [|done].
  split_and!; [done | done | eexists; split_and!; [reflexivity | done | split; reflexivity] | by apply Hf].
Qed.

Lemma lift_app {A} win (c : M A) :
  preserves page_inv c -> keeps nav_of c -> preserves (app_at win) (lift c).
Proof.
  intros Hc Hk b [(Hd & Hg & (ct & Hct & Hm & [Hs1 Hs2]) & Hp) Hw].
  pose proof (Hk (b_world b)) as Hn. unfold nav_of in Hn. injection Hn as Hn1 Hn2.
  split; [|done]. split_and!; [done | done | | by apply Hc].
  exists ct. split_and!; [done | done | split; cbn; congruence].
Qed.

Lemma keeps_nav_of_stage {A} (c : M A) : keeps stage c -> keeps nav_of c.
Proof. intros H. by apply keeps_nav_of_shown, keeps_shown_of_stage. Qed.

Lemma page_inv_of_stage {A} (c : M A) : keeps stage c -> preserves page_inv c.
Proof. intros H. apply preserves_page_inv; auto with deck. Qed.

Lemma onCheckboxClick_inv i : preserves page_inv (onCheckboxClick i).
Proof. apply preserves_page_inv; [apply keeps_shown_onCheckboxClick | apply fades_onCheckboxClick]. Qed.

Lemma helpKey_inv e : preserves page_inv (helpKey e).
Proof. apply preserves_page_inv; [apply keeps_shown_helpKey | unfold helpKey; preserves_tac]. Qed.

Lemma onPrevClick_inv : preserves page_inv (onPrevClick deck_methods).
Proof. unfold onPrevClick. pose proof deck_prev_inv. preserves_tac. Qed.

Lemma onNextClick_inv : preserves page_inv (onNextClick deck_methods).
Proof. unfold onNextClick. pose proof deck_next_inv. preserves_tac. Qed.

Lemma onIndicatorClick_inv i : preserves page_inv (onIndicatorClick deck_methods i).
Proof. unfold onIndicatorClick. pose proof deck_goTo_inv. preserves_tac. Qed.

#[local] Hint Resolve keeps_nav_of_stage page_inv_of_stage keeps_nav_of_shown onCheckboxClick_inv
  helpKey_inv onPrevClick_inv onNextClick_inv onIndicatorClick_inv handleKeyPress_inv
  updateDisplay_inv fire_inv keeps_shown_fire keeps_shown_onCheckboxClick keeps_shown_helpKey : deck.

(** Run a boot-level computation through [in_ctrl_app] and [lift_app]. *)
Ltac app_tac :=
  repeat first
    [ progress preserves_tac
    | apply in_ctrl_app; cbv beta; solve [eauto with deck]
    | apply lift_app; solve [eauto with deck] ].

Lemma onResize_app : preserves app_inv onResize.
Proof. unfold onResize. app_tac. Qed.

Lemma onVisibilityChange_app hidden : preserves app_inv (onVisibilityChange hidden).
Proof. unfold onVisibilityChange. pose proof onResize_app. app_tac. Qed.

#[local] Hint Resolve onResize_app onVisibilityChange_app : deck.

Lemma run_handler_app ev h :
  listens ev h = true -> ev <> EvDOMContentLoaded -> preserves app_inv (run_handler ev h).
Proof. intros Hl Hev. destruct h, ev; try discriminate Hl; try congruence; cbn [run_handler]; app_tac. Qed.

Lemma dispatch_app ev : ev <> EvDOMContentLoaded -> preserves app_inv (dispatch ev).
Proof.
  intros Hev. unfold dispatch. apply preserves_gets_bind. intros b Hb.
  refine (preserves_forEach app_inv _ _ _ b Hb). intros h Hh. apply list_elem_of_filter in Hh as [Hl _].
  apply preserves_try; [by apply run_handler_app | intros; apply preserves_ret].
Qed.

Lemma onFallbackTimer_app : preserves app_inv onFallbackTimer.
Proof. unfold onFallbackTimer. apply preserves_gets_bind. intros b Hb. by rewrite (proj2 Hb). Qed.

#[local] Hint Resolve onFallbackTimer_app window_goTo_inv window_export_inv : deck.

Lemma step_app ev : preserves app_inv (step ev).
Proof.
  destruct ev; cbn [step]; try (apply dispatch_app; discriminate).
  - apply preserves_gets_bind. intros b Hb. by rewrite (proj1 (proj1 Hb)).
  - app_tac.
  - app_tac.
  - apply preserves_gets_bind. intros b Hb. rewrite (proj1 (proj2 (proj1 Hb))). revert b Hb.
    app_tac.
  - apply preserves_gets_bind. intros b Hb. rewrite (proj1 (proj2 (proj1 Hb))). revert b Hb.
    app_tac.
Qed.

Lemma run_events_app evs : preserves app_inv (run_events evs).
Proof.
  unfold run_events. apply preserves_forEach. intros ev _.
  apply preserves_try; [apply step_app | intros; apply preserves_ret].
Qed.

(** ** Setting the page up once *)

(** Before the first initialisation: no controller, no window global,
    [DOMContentLoaded] past, the document not loading, no slide faded. *)
Definition boot_pre (b : Boot) : Prop :=
  b_ctrls b = [] /\ b_window b = None /\ b_dcl_pending b = false /\ b_ready b <> Loading /\
  fades_pending (b_world b).

(** After the constructor: one controller with the class's slots, shown. *)
Definition ctrl_ready (b : Boot) : Prop :=
  b_dcl_pending b = false /\ b_window b = None /\
  (exists ct, b_ctrls b = [ct] /\ c_methods ct = base_methods /\ synced ct (b_world b)) /\
  nav_wf (b_world b) /\ fades_pending (b_world b).

(** Inside the constructor, before the first render. *)
Definition ctrl_fresh (b : Boot) : Prop :=
  b_ctrls b = [mkCtrl 1 12 base_methods] /\ b_window b = None /\ b_dcl_pending b = false /\
  fades_pending (b_world b).

Lemma triple_in_ctrl0 {A} (P : Boot -> Prop) (Q : option A -> Boot -> Prop) (f : Methods -> M A) :
  (forall b, P b -> exists ct, b_ctrls b = [ct] /\
     match f (c_methods ct) (enter ct (b_world b)) with
     | (inr a, w') => Q (Some a) (set_ctrls [leave ct w'] (set_world w' b))
     | (inl _, _) => False
     end) ->
  triple P (in_ctrl 0 f) Q.
Proof.
  intros H b Hb. destruct (H b Hb) as (ct & Hc & Hf). unfold in_ctrl. rewrite Hc.
  cbn [lookup list_lookup]. cbv zeta.
  destruct (f (c_methods ct) (enter ct (b_world b))) as [[e|a] w']; done.
Qed.

Lemma init_render_run w : init_render w = (inr tt, exec init_render w).
Proof. reflexivity. Qed.

(** The first render of the constructor shows slide 1 of 12. *)
Lemma init_render_first w :
  fades_pending w ->
  let w' := exec init_render (enter (mkCtrl 1 12 base_methods) w) in
  currentSlide w' = 1%Z /\ totalSlides w' = 12%Z /\ nav_wf w' /\ fades_pending w'.
Proof.
  intros Hf w'. split_and!; [reflexivity | reflexivity | split |].
  - unfold bounded. change (1 <= 1 <= 12)%Z. lia.
  - apply (rendered_view (exec sync (enter (mkCtrl 1 12 base_methods) w))); [reflexivity|].
    apply rendered_exec_sync.
  - apply (fades_pending_frame (exec sync (enter (mkCtrl 1 12 base_methods) w)));
      [reflexivity | done | by apply fades_pending_sync].
Qed.

Lemma setupEventListeners_frame (P : Boot -> Prop) k :
  (forall b h, P b -> P (set_listeners (b_listeners b ++ [h]) b)) ->
  (forall b, P b -> P (set_world (exec (console_log listeners_set_up None) (b_world b)) b)) ->
  preserves P (setupEventListeners k).
Proof.
  intros Hl Hw.
  assert (forall h, preserves P (listen h)) by (intros h b; apply Hl).
  assert (preserves P (lift (console_log listeners_set_up None))) by (intros b; apply Hw).
  unfold setupEventListeners. repeat (progress (preserves_tac; try (apply preserves_forEach; intros))).
Qed.

Lemma controller_new_first : triple boot_pre controller_new (fun k b => k = 0 /\ ctrl_ready b).
Proof.
  unfold controller_new.
  apply triple_mbind with (Q := fun k b => k = 0 /\ boot_pre b).
  { apply triple_gets. intros b Hb. split; [by rewrite (proj1 Hb) | done]. }
  intros k. apply triple_pure_pre. intros ->.
  apply triple_mbind with (Q := fun _ b => ctrl_fresh b /\ b_ready b <> Loading).
  { apply triple_modify. intros b (Hc & Hw & Hd & Hr & Hf). unfold ctrl_fresh. cbn. by rewrite Hc. }
  intros []. apply triple_mbind with (Q := fun rs b => ctrl_fresh b /\ rs = b_ready b /\ rs <> Loading).
  { apply triple_gets. intros b [Hb Hr]. done. }
  intros rs. apply triple_mbind with (Q := fun _ => ctrl_fresh).
  { destruct rs; [intros b (_ & _ & H); by destruct H | ..];
      (apply (triple_conseq _ ctrl_fresh _ (fun _ => ctrl_fresh)); [| by intros b [? _] | done]);
      (apply triple_of_preserves;
         [apply setupEventListeners_total | apply setupEventListeners_frame; intros; assumption]). }
  intros []. apply triple_mbind with (Q := fun _ => ctrl_ready).
  { apply triple_in_ctrl0. intros b (Hc & Hw & Hd & Hf). eexists. split; [exact Hc|].
    cbv beta. rewrite init_render_run.
    destruct (init_render_first _ Hf) as (H1 & H2 & H3 & H4).
    split_and!; [done | done | eexists; split_and!; [reflexivity | reflexivity | split; reflexivity] | done | done]. }
  intros _. apply triple_ret. intros b Hb. by split.
Qed.

Lemma enhancements_new_first : triple ctrl_ready (enhancements_new 0) (fun _ => app_at None).
Proof.
  unfold enhancements_new.
  apply triple_mbind with (Q := fun oi b => oi = Some (mkInstalled deck_methods deck_globals) /\
    b_dcl_pending b = false /\ b_window b = None /\
    (exists ct, b_ctrls b = [ct] /\ synced ct (b_world b)) /\ page_inv (b_world b)).
  { apply triple_in_ctrl0. intros b (Hd & Hw & (ct & Hc & Hm & Hs) & Hn & Hf). exists ct.
    split; [done|]. rewrite enter_synced, Hm, enhancements_init_run by done.
    split_and!; [reflexivity | done | done | eexists; split; [reflexivity | split; reflexivity] |].
    split_and!; [by apply updateProgress_preserves | apply updateProgress_shown | done]. }
  intros oi. apply triple_pure_pre. intros ->.
  apply triple_mbind with (Q := fun _ => app_at None).
  { apply triple_modify. intros b (Hd & Hw & (ct & Hc & Hs) & Hp). split; [|done].
    split_and!; [done | done | | done].
    exists (mkCtrl (c_current ct) (c_total ct) deck_methods). cbn. rewrite Hc. split_and!; done. }
  intros []. apply triple_modify. intros b Hb. exact Hb.
Qed.

Lemma lift_total {A} (c : M A) : total c -> total (lift c).
Proof.
  intros Hc b. destruct (Hc (b_world b)) as [a Ha]. exists a. unfold lift. cbn. exact Ha.
Qed.

Lemma enableActionItems_total : total enableActionItems.
Proof.
  unfold enableActionItems. total_tac. apply total_forEach. intros i.
  unfold restoreCheckbox, set_box. total_tac.
Qed.

Lemma enableActionItems_inv : preserves page_inv enableActionItems.
Proof. apply preserves_page_inv; [apply keeps_shown_enableActionItems | apply fades_enableActionItems]. Qed.

Lemma keeps_stage_currently_viewing : keeps stage currently_viewing.
Proof. unfold currently_viewing. keeps_tac. Qed.

Lemma currently_viewing_total : total currently_viewing.
Proof. unfold currently_viewing, getCurrentSlideTitle, console_log. total_tac. Qed.

#[local] Hint Resolve lift_total enableActionItems_total enableActionItems_inv
  keeps_shown_enableActionItems keeps_stage_currently_viewing currently_viewing_total
  keeps_forEach total_forEach trackSlideView_total keeps_stage_trackSlideView : deck.

Lemma interactive_new_app win : preserves (app_at win) interactive_new.
Proof.
  unfold interactive_new.
  assert (forall i, preserves (app_at win) (listen (HCheckbox i))) by (intros i b Hb; exact Hb).
  repeat (progress (app_tac; try (apply preserves_forEach; intros))).
Qed.

Lemma interactive_new_total : total interactive_new.
Proof. unfold interactive_new, listen. total_tac. Qed.

Lemma boot_objects_first : triple boot_pre boot_objects (fun k b => k = 0 /\ app_inv b).
Proof.
  unfold boot_objects. apply triple_mbind with (Q := fun k b => k = 0 /\ ctrl_ready b);
    [apply controller_new_first|].
  intros k. apply triple_pure_pre. intros ->.
  apply triple_mbind with (Q := fun _ => app_at None); [apply enhancements_new_first|].
  intros []. apply triple_mbind with (Q := fun _ => app_at None).
  { apply triple_of_preserves; [apply interactive_new_total | apply interactive_new_app]. }
  intros []. apply triple_mbind with (Q := fun _ => app_at None).
  { apply triple_of_preserves; [total_tac | app_tac]. }
  intros _. apply triple_mbind with (Q := fun _ => app_inv).
  { apply triple_modify. intros b [Hc _]. by split. }
  intros []. apply triple_ret. intros b Hb. by split.
Qed.

Lemma onDOMContentLoaded_first : triple boot_pre onDOMContentLoaded (fun _ => app_inv).
Proof.
  unfold onDOMContentLoaded.
  apply triple_mbind with (Q := fun k b => k = 0 /\ app_inv b); [apply boot_objects_first|].
  intros k. apply triple_pure_pre. intros ->.
  apply triple_of_preserves; [total_tac | app_tac].
Qed.

Lemma onFallbackTimer_first : triple boot_pre onFallbackTimer (fun _ => app_inv).
Proof.
  unfold onFallbackTimer.
  apply triple_mbind with (Q := fun kw b => kw = None /\ boot_pre b).
  { apply triple_gets. intros b Hb. split; [apply Hb | done]. }
  intros kw. apply triple_pure_pre. intros ->.
  apply triple_mbind with (Q := fun _ => boot_pre).
  { apply triple_of_preserves; [total_tac | intros b Hb; exact Hb]. }
  intros []. apply triple_mbind with (Q := fun k b => k = 0 /\ app_inv b); [apply boot_objects_first|].
  intros k. apply triple_ret. by intros b [_ Hb].
Qed.

(** ** The first event that sets the page up *)

Lemma script_start_eq w rs pending :
  script_start w rs pending =
  mkBoot w rs pending (match rs with Loading => false | _ => true end) [] None None
    [HBoot; HResize; HVisibility].
Proof. by destruct rs. Qed.

(** [DOMContentLoaded] is to come, nothing is set up, and only the
    script's listeners are registered. *)
Definition dcl_pre (b : Boot) : Prop :=
  b_dcl_pending b = true /\ b_ctrls b = [] /\ b_window b = None /\
  b_listeners b = [HBoot; HResize; HVisibility] /\ fades_pending (b_world b).

Lemma dcl_first : triple dcl_pre (step EvDOMContentLoaded) (fun _ => app_inv).
Proof.
  cbn [step]. apply triple_mbind with (Q := fun p b => p = true /\ dcl_pre b).
  { apply triple_gets. intros b Hb. split; [apply Hb | done]. }
  intros p. apply triple_pure_pre. intros ->.
  apply triple_mbind with (Q := fun _ b => boot_pre b /\ b_listeners b = [HBoot; HResize; HVisibility]).
  { apply triple_modify. intros b (_ & Hc & Hw & Hl & Hf). split_and!; try done; cbn; discriminate. }
  intros []. unfold dispatch.
  apply triple_mbind with (Q := fun hs b => hs = [HBoot] /\ boot_pre b).
  { apply triple_gets. intros b [Hb Hl]. rewrite Hl. by split. }
  intros hs. apply triple_pure_pre. intros ->. cbn [js_forEach].
  apply triple_mbind with (Q := fun _ => app_inv); [apply triple_try, onDOMContentLoaded_first|].
  intros []. by apply triple_ret.
Qed.

Lemma fallback_first :
  triple (fun b => b_fallback b = true /\ boot_pre b) (step EvFallback) (fun _ => app_inv).
Proof.
  cbn [step]. apply triple_mbind with (Q := fun p b => p = true /\ boot_pre b).
  { apply triple_gets. intros b [Hf Hb]. by split. }
  intros p. apply triple_pure_pre. intros ->.
  apply triple_mbind with (Q := fun _ => boot_pre); [apply triple_modify; intros b Hb; exact Hb|].
  intros []. apply onFallbackTimer_first.
Qed.

Lemma app_inv_run_events evs b : app_inv b -> app_inv (exec (run_events evs) b).
Proof. apply run_events_app. Qed.

(** ** Counting the controllers *)

Definition ctrl_count (b : Boot) : nat := length (b_ctrls b).

(** The listeners [DOMContentLoaded] runs. *)
Definition dcl_listeners (b : Boot) : list Handler :=
  filter (fun h => listens EvDOMContentLoaded h = true) (b_listeners b).

(** What decides how many times the objects are built. *)
Definition track (b : Boot) := (ctrl_count b, dcl_listeners b, b_ready b, b_dcl_pending b).

Lemma keeps_track_in_ctrl {A} k (f : Methods -> M A) : keeps track (in_ctrl k f).
Proof.
  intros b. unfold in_ctrl. destruct (b_ctrls b !! k); [|done].
  unfold track, ctrl_count. cbn. by rewrite length_insert.
Qed.

Lemma keeps_track_lift {A} (c : M A) : keeps track (lift c).
Proof. intros b. reflexivity. Qed.

Lemma keeps_track_listen h : listens EvDOMContentLoaded h = false -> keeps track (listen h).
Proof.
  intros Hh b. unfold track, dcl_listeners, listen.
  cbn [js_modify snd b_listeners set_listeners b_ctrls b_ready b_dcl_pending]. by rewrite filter_app, filter_cons_False, app_nil_r
    by (intros H; cbv beta in H; congruence).
Qed.

#[local] Hint Resolve keeps_track_in_ctrl keeps_track_lift : deck.
#[local] Hint Extern 1 (keeps track (listen _)) => apply keeps_track_listen; reflexivity : deck.

Lemma keeps_track_setupEventListeners k : keeps track (setupEventListeners k).
Proof. unfold setupEventListeners. keeps_tac. Qed.

Lemma keeps_track_enhancements_new k : keeps track (enhancements_new k).
Proof.
  unfold enhancements_new. keeps_tac.
  apply keeps_modify. intros b. unfold track, ctrl_count. cbn. by rewrite length_alter.
Qed.

Lemma keeps_track_interactive_new : keeps track interactive_new.
Proof. unfold interactive_new. keeps_tac. Qed.

Lemma enhancements_init_total m : total (enhancements_init m).
Proof. intros w. unfold returns. rewrite enhancements_init_run. by eexists. Qed.

Lemma enhancements_new_total k : total (enhancements_new k).
Proof.
  unfold enhancements_new, listen. total_tac. apply in_ctrl_total, enhancements_init_total.
Qed.

#[local] Hint Resolve keeps_track_setupEventListeners keeps_track_enhancements_new
  keeps_track_interactive_new enhancements_new_total interactive_new_total : deck.

(** Outside [Loading], the constructor adds one controller and no
    [DOMContentLoaded] listener. *)
Lemma controller_new_track n L r d :
  r <> Loading ->
  triple (fun b => track b = (n, L, r, d)) controller_new (fun _ b => track b = (S n, L, r, d)).
Proof.
  intros Hr. unfold controller_new.
  apply triple_mbind with (Q := fun _ b => track b = (n, L, r, d)); [by apply triple_gets|].
  intros k. apply triple_mbind with (Q := fun _ b => track b = (S n, L, r, d)).
  { apply triple_modify. intros b Hb. unfold track, ctrl_count in *. cbn.
    rewrite length_app. simpl. injection Hb as <- <- <- <-. do 3 f_equal. lia. }
  intros []. apply triple_mbind with (Q := fun rs b => rs = r /\ track b = (S n, L, r, d)).
  { apply triple_gets. intros b Hb. split; [by injection Hb | done]. }
  intros rs. apply triple_pure_pre. intros ->.
  apply triple_mbind with (Q := fun _ b => track b = (S n, L, r, d)).
  { destruct r; [done | ..]; apply triple_of_keeps; auto with deck; apply setupEventListeners_total. }
  intros []. apply triple_mbind with (Q := fun _ b => track b = (S n, L, r, d)).
  { apply triple_of_keeps; [total_tac | auto with deck]. }
  intros _. by apply triple_ret.
Qed.

Lemma boot_objects_track n L r d :
  r <> Loading ->
  triple (fun b => track b = (n, L, r, d)) boot_objects (fun _ b => track b = (S n, L, r, d)).
Proof.
  intros Hr. unfold boot_objects.
  apply triple_mbind with (Q := fun _ b => track b = (S n, L, r, d)); [by apply controller_new_track|].
  intros k. apply triple_of_keeps; [total_tac | keeps_tac].
Qed.

Lemma onDOMContentLoaded_track n L r d :
  r <> Loading ->
  triple (fun b => track b = (n, L, r, d)) onDOMContentLoaded (fun _ b => track b = (S n, L, r, d)).
Proof.
  intros Hr. unfold onDOMContentLoaded.
  apply triple_mbind with (Q := fun _ b => track b = (S n, L, r, d)); [by apply boot_objects_track|].
  intros k. apply triple_of_keeps; [total_tac | keeps_tac].
Qed.

Lemma onFallbackTimer_track n L r d :
  r <> Loading ->
  triple (fun b => b_window b = None /\ track b = (n, L, r, d)) onFallbackTimer
    (fun _ b => track b = (S n, L, r, d)).
Proof.
  intros Hr. unfold onFallbackTimer.
  apply triple_mbind with (Q := fun kw b => kw = None /\ track b = (n, L, r, d)).
  { apply triple_gets. intros b [Hw Hb]. by split. }
  intros kw. apply triple_pure_pre. intros ->.
  apply triple_mbind with (Q := fun _ b => track b = (n, L, r, d)); [apply triple_of_keeps; auto with deck|].
  intros []. apply triple_mbind with (Q := fun _ b => track b = (S n, L, r, d)); [by apply boot_objects_track|].
  intros _. by apply triple_ret.
Qed.

Lemma fallback_step_track n L r d :
  r <> Loading ->
  triple (fun b => b_fallback b = true /\ b_window b = None /\ track b = (n, L, r, d)) (step EvFallback)
    (fun _ b => track b = (S n, L, r, d)).
Proof.
  intros Hr. cbn [step].
  apply triple_mbind with (Q := fun p b => p = true /\ b_window b = None /\ track b = (n, L, r, d)).
  { apply triple_gets. intros b [Hf Hb]. by split. }
  intros p. apply triple_pure_pre. intros ->.
  apply triple_mbind with (Q := fun _ b => b_window b = None /\ track b = (n, L, r, d));
    [apply triple_modify; intros b Hb; exact Hb|].
  intros []. by apply onFallbackTimer_track.
Qed.

Lemma dcl_step_track n r :
  triple (fun b => track b = (n, [HBoot], r, true)) (step EvDOMContentLoaded)
    (fun _ b => track b = (S n, [HBoot], Interactive, false)).
Proof.
  cbn [step].
  apply triple_mbind with (Q := fun p b => p = true /\ track b = (n, [HBoot], r, true)).
  { apply triple_gets. intros b Hb. split; [by injection Hb|done]. }
  intros p. apply triple_pure_pre. intros ->.
  apply triple_mbind with (Q := fun _ b => track b = (n, [HBoot], Interactive, false)).
  { apply triple_modify. intros b Hb. injection Hb as Hn Hl _ _. unfold track. by rewrite <- Hn, <- Hl. }
  intros []. unfold dispatch.
  apply triple_mbind with (Q := fun hs b => hs = [HBoot] /\ track b = (n, [HBoot], Interactive, false)).
  { apply triple_gets. intros b Hb. split; [by injection Hb|done]. }
  intros hs. apply triple_pure_pre. intros ->. cbn [js_forEach].
  apply triple_mbind with (Q := fun _ b => track b = (S n, [HBoot], Interactive, false));
    [apply triple_try, onDOMContentLoaded_track; discriminate|].
  intros []. by apply triple_ret.
Qed.

(** [DOMContentLoaded] sets the page up from the script's start. *)
Lemma set_up_once_app w rs pending ev evs :
  fades_pending w ->
  (ev = EvDOMContentLoaded /\ pending = true \/ ev = EvFallback /\ pending = false /\ rs <> Loading) ->
  app_inv (exec (run_events (ev :: evs)) (script_start w rs pending)).
Proof.
  intros Hf Hev. unfold run_events. cbn [js_forEach].
  apply (exec_triple_bind (fun b => b = script_start w rs pending) app_inv (fun _ => app_inv));
    [| intros [] b Hb; exact (run_events_app evs b Hb) | done].
  apply triple_try. rewrite script_start_eq.
  destruct Hev as [[-> ->] | (-> & -> & Hrs)].
  - apply (triple_conseq _ dcl_pre _ (fun _ => app_inv)); [apply dcl_first | | done].
    intros b ->. split_and!; done.
  - apply (triple_conseq _ (fun b => b_fallback b = true /\ boot_pre b) _ (fun _ => app_inv));
      [apply fallback_first | | done].
    intros b ->. destruct rs; [done | ..]; split_and!; done.
Qed.

Lemma deck_page_unfaded : fades_pending deck_page.
Proof.
  intros i. unfold faded.
  assert (map sl_opacity (slides deck_page) = replicate 12 EmptyString) as -> by (vm_compute; reflexivity).
  intros H. apply lookup_replicate in H as [? _]. discriminate.
Qed.

(** The deck set up by [DOMContentLoaded], on a page that loads the
    script as it is parsed. *)
Definition deck_booted : Boot :=
  exec (run_events [EvDOMContentLoaded]) (script_start deck_page Loading true).

(** The deck set up twice: the fallback timer fires before
    [DOMContentLoaded] (a deferred script). *)
Definition double_boot : Boot :=
  exec (run_events [EvFallback; EvDOMContentLoaded]) (script_start deck_page Interactive true).

Lemma deck_booted_app : app_inv deck_booted.
Proof. apply set_up_once_app; [apply deck_page_unfaded | left; split; reflexivity]. Qed.

Lemma showCompletionMessage_total i : total (showCompletionMessage i).
Proof. intros w. destruct (showCompletionMessage_run i w) as [w' E]. exists tt. by rewrite E. Qed.

Lemma onCheckboxClick_total i : total (onCheckboxClick i).
Proof.
  unfold onCheckboxClick, set_box. pose proof (showCompletionMessage_total i). total_tac.
Qed.

Lemma listener_returns ev h b : returns (js_try (run_handler ev h) (fun _ => js_ret tt)) b.
Proof. apply total_try. intros. apply total_ret. Qed.

(** The body of a click listener on the checkbox, run once. *)
Lemma exec_checkbox_listener i b :
  exec (js_try (run_handler (EvCheckboxClick i) (HCheckbox i)) (fun _ => js_ret tt)) b =
  set_world (exec (onCheckboxClick i) (b_world b)) b.
Proof.
  cbn [run_handler]. rewrite try_returns; [reflexivity|].
  destruct (onCheckboxClick_total i (b_world b)) as [a Ha]. exists a. exact Ha.
Qed.

Lemma listens_hover he h : listens (EvHover he) h = true <-> h = HHover he.
Proof. destruct h; cbn; try (split; congruence). rewrite bool_decide_eq_true. split; congruence. Qed.

Lemma set_world_twice v v' b : set_world v (set_world v' b) = set_world v b.
Proof. reflexivity. Qed.

(** Listeners of one hover event, run in turn, do what one does. *)
Lemma hover_forEach he l b :
  Forall (eq (HHover he)) l -> l <> [] ->
  exec (js_forEach (fun h => js_try (run_handler (EvHover he) h) (fun _ => js_ret tt)) l) b =
  set_world (exec (onHover he) (b_world b)) b.
Proof.
  revert b. induction l as [|x r IH]; intros b Hall Hne; [done|].
  apply Forall_cons in Hall as [<- Hr]. cbn [js_forEach].
  rewrite (exec_mbind _ _ b tt (set_world (exec (onHover he) (b_world b)) b))
    by (cbn [run_handler]; unfold js_try, lift; by rewrite onHover_run).
  destruct r as [|y r]; [reflexivity|].
  rewrite IH by done. cbn [b_world set_world]. by rewrite onHover_exec_twice.
Qed.

(** A hover event runs every listener registered for it; however many
    times [enhanceCards] or [addBusinessMetrics] registered it (twice
    after a second initialisation), the page ends as after one. *)
Lemma hover_step b he :
  HHover he ∈ b_listeners b ->
  exec (step (EvHover he)) b = set_world (exec (onHover he) (b_world b)) b.
Proof.
  intros Hin. cbn [step]. unfold dispatch.
  rewrite (exec_mbind _ _ b (filter (fun h => listens (EvHover he) h = true) (b_listeners b)) b)
    by reflexivity.
  apply hover_forEach.
  - apply Forall_forall. intros h Hh. apply list_elem_of_filter in Hh as [Hl _].
    by apply listens_hover in Hl.
  - intros E. assert (Hf : HHover he ∈ filter (fun h => listens (EvHover he) h = true) (b_listeners b))
      by (apply list_elem_of_filter; split; [by apply listens_hover | done]).
    rewrite E in Hf. by apply not_elem_of_nil in Hf.
Qed.

(** ** Theorems *)

(** Whatever the order of the events, every listener, the window's
    controller and the controller [window.goToSlide] is bound to exist:
    the script never refers to a controller it has not built. *)
Theorem listeners_refer_to_ctrls w rs pending evs :
  boot_wf (exec (run_events evs) (script_start w rs pending)).
Proof.
  apply (proj1 (wf_ge_0 _)). unfold run_events. refine (preserves_forEach (wf_ge 0) _ _ _ _ _).
  - intros. apply preserves_try; [apply step_wf | intros; apply preserves_ret].
  - apply script_wf. apply (proj2 (wf_ge_0 _)). split_and!; [constructor | done | done].
Qed.

(** C2: When the objects are built once, by [DOMContentLoaded] or by the
    fallback timer when [DOMContentLoaded] is past, the page has one
    controller, with the enhanced slots and the window's globals bound to
    it, whose counters the page shows, the slide number in range, the
    progress bar up to date and every faded slide with a restore timer;
    and every event after that (clicks, keys, checkbox clicks, resizes,
    visibility changes, timers, calls of [window.goToSlide]) keeps it. *)
Theorem set_up_once_invariant w rs pending ev evs :
  fades_pending w ->
  (ev = EvDOMContentLoaded /\ pending = true \/ ev = EvFallback /\ pending = false /\ rs <> Loading) ->
  app_inv (exec (run_events (ev :: evs)) (script_start w rs pending)).
Proof. apply set_up_once_app. Qed.

(** C19: The invariant of a page set up once holds in every state the
    step relation of the events reaches from it. *)
Theorem app_inv_reachable b b' : app_inv b -> rtc boot_step b b' -> app_inv b'.
Proof.
  intros Hb Hr. induction Hr as [|x y z [ev ->] _ IH]; [done|]. apply IH, step_app, Hb.
Qed.

(** C3: When the fallback timer fires before [DOMContentLoaded] (a
    document already interactive whose [DOMContentLoaded] is still to
    come), the [DOMContentLoaded] listener, which does not test
    [window.clancyPresentationController], builds a second controller. *)
Theorem fallback_then_dcl_two_ctrls w :
  ctrl_count (exec (run_events [EvFallback; EvDOMContentLoaded]) (script_start w Interactive true)) = 2.
Proof.
  unfold run_events. cbn [js_forEach].
  apply (exec_triple_bind (fun b => b = script_start w Interactive true) (fun b => ctrl_count b = 2)
           (fun _ b => track b = (1, [HBoot], Interactive, true))); [| | done].
  - apply triple_try. rewrite script_start_eq.
    apply (triple_conseq _ (fun b => b_fallback b = true /\ b_window b = None /\
                                     track b = (0, [HBoot], Interactive, true))
              _ (fun _ b => track b = (1, [HBoot], Interactive, true)));
      [by apply fallback_step_track | by intros b -> | done].
  - intros [] b Hb.
    apply (exec_triple_bind (fun b => track b = (1, [HBoot], Interactive, true)) (fun b => ctrl_count b = 2)
             (fun _ b => track b = (2, [HBoot], Interactive, false))); [| | done].
    + apply triple_try, dcl_step_track.
    + intros [] b' Hb'. simpl. unfold track in Hb'. by injection Hb'.
Qed.

(** C12: A checkbox with two click listeners, as after a second
    initialisation, toggles twice on a click: an open box with a usable
    storage ends open, and its record is gone. *)
Theorem doubled_click_cancels b i cb :
  filter (fun h => listens (EvCheckboxClick i) h = true) (b_listeners b) = [HCheckbox i; HCheckbox i] ->
  st_mode (storage (b_world b)) = StorageOk -> checkboxes (b_world b) !! i = Some cb ->
  cb_text cb = box_open ->
  cb_text <$> checkboxes (b_world (exec (step (EvCheckboxClick i)) b)) !! i = Some box_open /\
  st_items (storage (b_world (exec (step (EvCheckboxClick i)) b))) !! action_key i = None.
Proof.
  intros Hl Hm Hcb Ho. cbn [step]. unfold dispatch.
  rewrite (exec_mbind (js_gets (fun b => filter (fun h => listens (EvCheckboxClick i) h = true)
                                  (b_listeners b))) _ b _ b eq_refl), Hl.
  cbn [js_forEach].
  rewrite exec_then_returns, exec_checkbox_listener by apply listener_returns.
  rewrite exec_then_returns, exec_checkbox_listener by apply listener_returns.
  cbn [b_world set_world snd js_ret].
  pose proof (onCheckboxClick_ok i (b_world b) cb Hm Hcb) as [Hc1 Hs1].
  rewrite Ho, String.eqb_refl in Hc1, Hs1.
  assert (Hcb1 : checkboxes (exec (onCheckboxClick i) (b_world b)) !! i = Some (mark_ticked cb))
    by (rewrite Hc1, list_lookup_alter, Hcb; case_decide; done).
  assert (Hm1 : st_mode (storage (exec (onCheckboxClick i) (b_world b))) = StorageOk)
    by (rewrite Hs1; reflexivity).
  pose proof (onCheckboxClick_ok i _ _ Hm1 Hcb1) as [Hc2 Hs2]. cbn [cb_text mark_ticked] in Hc2, Hs2.
  rewrite Hc2, Hs2, list_lookup_alter, Hcb1. case_decide; [|done].
  split; [reflexivity|]. apply lookup_delete_eq.
Qed.

(** On the deck set up twice, [window.goToSlide(5)] moves only the
    second controller (the one the global is bound to), and the right
    arrow key then moves both: the first controller is on slide 2 while
    the page shows slide 6. *)
Example double_init_desync :
  let b := exec (run_events [EvWindowGoTo 5; EvKeydown (mkKey "ArrowRight" false false)]) double_boot in
  map c_current (b_ctrls b) = [2; 6]%Z /\ first_active_index (slides (b_world b)) = Some 5%nat.
Proof. vm_compute. split; reflexivity. Qed.

(** C17: The [mouseenter] and then the [mouseleave] event of a card,
    whose listeners [enhanceCards] registered (once or more), lift the
    card with its shadow and transition, then put it back flat without a
    shadow, the transition staying; the card keeps its colour, and
    nothing else of the page or the program changes. *)
Theorem hover_card_cycle b i h :
  HHover (CardEnter i) ∈ b_listeners b -> HHover (CardLeave i) ∈ b_listeners b ->
  cards (b_world b) !! i = Some h ->
  exec (step (EvHover (CardEnter i))) b =
    set_world (set_cards (<[i := mkHover "translateY(-3px)" "var(--shadow-md)"
      "transform 0.2s ease, box-shadow 0.2s ease" (hv_color h)]> (cards (b_world b))) (b_world b)) b /\
  exec (step (EvHover (CardLeave i))) (exec (step (EvHover (CardEnter i))) b) =
    set_world (set_cards (<[i := mkHover "translateY(0)" EmptyString
      "transform 0.2s ease, box-shadow 0.2s ease" (hv_color h)]> (cards (b_world b))) (b_world b)) b.
Proof.
  intros H1 H2 Hh. rewrite !hover_step by done. cbn [onHover exec js_modify b_world set_world].
  rewrite cards_set_cards, set_cards_twice, set_world_twice, (alter_cycle _ _ _ _ h Hh), (alter_insert_at _ _ _ h Hh).
  split; reflexivity.
Qed.

(** C18: The [mouseenter] and then the [mouseleave] event of a metric
    value, whose listeners [addBusinessMetrics] registered, scale it up
    in the primary colour, then back to its size in the default colour,
    the transition staying; nothing else changes. *)
Theorem hover_metric_cycle b i h :
  HHover (MetricEnter i) ∈ b_listeners b -> HHover (MetricLeave i) ∈ b_listeners b ->
  metrics (b_world b) !! i = Some h ->
  exec (step (EvHover (MetricEnter i))) b =
    set_world (set_metrics (<[i := mkHover "scale(1.05)" (hv_boxShadow h)
      "transform 0.2s ease" "var(--color-primary)"]> (metrics (b_world b))) (b_world b)) b /\
  exec (step (EvHover (MetricLeave i))) (exec (step (EvHover (MetricEnter i))) b) =
    set_world (set_metrics (<[i := mkHover "scale(1)" (hv_boxShadow h)
      "transform 0.2s ease" EmptyString]> (metrics (b_world b))) (b_world b)) b.
Proof.
  intros H1 H2 Hh. rewrite !hover_step by done. cbn [onHover exec js_modify b_world set_world].
  rewrite metrics_set_metrics, set_metrics_twice, set_world_twice, (alter_cycle _ _ _ _ h Hh), (alter_insert_at _ _ _ h Hh).
  split; reflexivity.
Qed.

(** ** Witnesses on the deck's page *)

Lemma double_boot_listens he :
  bool_decide (HHover he ∈ b_listeners double_boot) = true -> HHover he ∈ b_listeners double_boot.
Proof. apply bool_decide_eq_true. Qed.

Lemma hover_card_cycle_witness :
  let b := double_boot in
  (HHover (CardEnter 1) ∈ b_listeners b /\ HHover (CardLeave 1) ∈ b_listeners b /\
   cards (b_world b) !! 1 = Some (mkHover EmptyString EmptyString EmptyString EmptyString)) /\
  exec (step (EvHover (CardEnter 1))) b =
    set_world (set_cards (<[1 := mkHover "translateY(-3px)" "var(--shadow-md)"
      "transform 0.2s ease, box-shadow 0.2s ease" EmptyString]> (cards (b_world b))) (b_world b)) b /\
  exec (step (EvHover (CardLeave 1))) (exec (step (EvHover (CardEnter 1))) b) =
    set_world (set_cards (<[1 := mkHover "translateY(0)" EmptyString
      "transform 0.2s ease, box-shadow 0.2s ease" EmptyString]> (cards (b_world b))) (b_world b)) b.
Proof.
  cbv zeta. assert (H : HHover (CardEnter 1) ∈ b_listeners double_boot /\
    HHover (CardLeave 1) ∈ b_listeners double_boot /\
    cards (b_world double_boot) !! 1 = Some (mkHover EmptyString EmptyString EmptyString EmptyString))
    by (split_and!; try apply double_boot_listens; vm_compute; reflexivity).
  split; [exact H|]. destruct H as (H1 & H2 & H3). exact (hover_card_cycle _ _ _ H1 H2 H3).
Defined.

Lemma hover_metric_cycle_witness :
  let b := double_boot in
  (HHover (MetricEnter 0) ∈ b_listeners b /\ HHover (MetricLeave 0) ∈ b_listeners b /\
   metrics (b_world b) !! 0 = Some (mkHover EmptyString EmptyString EmptyString EmptyString)) /\
  exec (step (EvHover (MetricEnter 0))) b =
    set_world (set_metrics (<[0 := mkHover "scale(1.05)" EmptyString
      "transform 0.2s ease" "var(--color-primary)"]> (metrics (b_world b))) (b_world b)) b /\
  exec (step (EvHover (MetricLeave 0))) (exec (step (EvHover (MetricEnter 0))) b) =
    set_world (set_metrics (<[0 := mkHover "scale(1)" EmptyString
      "transform 0.2s ease" EmptyString]> (metrics (b_world b))) (b_world b)) b.
Proof.
  cbv zeta. assert (H : HHover (MetricEnter 0) ∈ b_listeners double_boot /\
    HHover (MetricLeave 0) ∈ b_listeners double_boot /\
    metrics (b_world double_boot) !! 0 = Some (mkHover EmptyString EmptyString EmptyString EmptyString))
    by (split_and!; try apply double_boot_listens; vm_compute; reflexivity).
  split; [exact H|]. destruct H as (H1 & H2 & H3). exact (hover_metric_cycle _ _ _ H1 H2 H3).
Defined.

Lemma set_up_once_invariant_witness :
  app_inv (exec (run_events [EvDOMContentLoaded; EvKeydown (mkKey "End" false false)])
             (script_start deck_page Loading true)).
Proof. apply set_up_once_invariant; [apply deck_page_unfaded | left; split; reflexivity]. Defined.

Lemma app_inv_reachable_witness : app_inv (exec (step EvNextClick) deck_booted).
Proof.
  apply (app_inv_reachable deck_booted); [apply deck_booted_app | apply rtc_once; by exists EvNextClick].
Defined.

Lemma doubled_click_cancels_witness :
  cb_text <$> checkboxes (b_world (exec (step (EvCheckboxClick 0)) double_boot)) !! 0 = Some box_open /\
  st_items (storage (b_world (exec (step (EvCheckboxClick 0)) double_boot))) !! action_key 0 = None.
Proof.
  apply (doubled_click_cancels double_boot 0 (mkCheckbox box_open EmptyString None true));
    vm_compute; reflexivity.
Defined.

End Bootstrap.
